(** * EdiFy: the provider adapter (services/aiService.ts) and the
      generation orchestrator (hooks/useAI.ts)

    A shallow embedding of the two TypeScript modules and the properties
    of their error classifier, request builder, response extraction,
    JSON extraction and fallback policy.

    Conventions of the embedding.
    - A JavaScript string is the list of its UTF-16 code units
      ([jsstring]); [js "..."] writes an ASCII literal of the source.
      [substring(0, n)] is [firstn n].
    - A value of TypeScript type [any] that came out of [JSON.parse] or
      [response.json()] is a [json] tree; [undefined] is [None] in
      [option json].
    - A JSON number is kept as the exact decimal [mant * 10 ^ expo] that
      its literal denotes; where the code tests a number for truth, the
      test is that of the double the literal rounds to.
    - An [async] function is a computation in the monad [M]: it threads
      the React state of the hook and the log of the requests handed to
      [fetch], and ends by returning a value or by throwing. *)

From Stdlib Require Import List String Ascii ZArith NArith Bool Lia.
Import ListNotations.

Set Warnings "-register-all".

(* ================================================================== *)
(** ** JavaScript strings *)

Definition jsstring := list N.

Definition js (s : string) : jsstring :=
  map N_of_ascii (list_ascii_of_string s).

Fixpoint str_eqb (a b : jsstring) : bool :=
  match a, b with
  | [], [] => true
  | x :: a', y :: b' => N.eqb x y && str_eqb a' b'
  | _, _ => false
  end.

(** [s.startsWith(p)] *)
Fixpoint starts_with (p s : jsstring) : bool :=
  match p, s with
  | [], _ => true
  | _ :: _, [] => false
  | x :: p', y :: s' => N.eqb x y && starts_with p' s'
  end.

(** [s.includes(p)] *)
Fixpoint includes (s p : jsstring) : bool :=
  starts_with p s ||
  match s with
  | [] => false
  | _ :: s' => includes s' p
  end.

(** [s.substring(0, n)] *)
Definition substring0 (n : nat) (s : jsstring) : jsstring := firstn n s.

(* ================================================================== *)
(** ** JSON values *)

Record number := mkNumber { mant : Z; expo : Z }.

Definition num (z : Z) : number := mkNumber z 0.

Inductive json :=
| JNull
| JBool (b : bool)
| JNumber (n : number)
| JString (s : jsstring)
| JArray (l : list json)
| JObject (m : list (jsstring * json)).

(** A possibly [undefined] JavaScript value. *)
Definition jsval := option json.

(** The double of a number literal is zero: the literal denotes 0, or a
    value so small that it rounds to 0. The least positive double is
    2^-1074, so a value of at most 2^-1075 rounds to 0 (half way the tie
    goes to 0, whose significand is even) and a larger one does not. The
    literal is rounded correctly, as V8, SpiderMonkey and JavaScriptCore
    do. *)
Definition rounds_to_zero (n : number) : bool :=
  if Z.leb 0 (expo n) then Z.eqb (mant n) 0
  else Z.leb (Z.abs (mant n) * 2 ^ 1075) (10 ^ (- expo n)).

(** ToBoolean: [undefined], [null], [false], the empty string and a
    number whose double is 0 are falsy (no literal of JSON denotes
    NaN). *)
Definition truthy (v : jsval) : bool :=
  match v with
  | None => false
  | Some JNull => false
  | Some (JBool b) => b
  | Some (JNumber n) => negb (rounds_to_zero n)
  | Some (JString s) => match s with [] => false | _ => true end
  | Some (JArray _) => true
  | Some (JObject _) => true
  end.

(** [a || b] *)
Definition js_or (a b : jsval) : jsval := if truthy a then a else b.

Fixpoint lookup (k : jsstring) (m : list (jsstring * json)) : jsval :=
  match m with
  | [] => None
  | (k', v) :: r => if str_eqb k k' then Some v else lookup k r
  end.

(** [v.k] for a value [v] that is neither [null] nor [undefined], and a
    name [k] that no prototype defines (the names the source reads are
    error, message, choices, content, text, candidates and parts). *)
Definition get_prop (v : json) (k : jsstring) : jsval :=
  match v with
  | JObject m => lookup k m
  | _ => None
  end.

(** [v[0]] for a value [v] that is neither [null] nor [undefined]. *)
Definition get_index0 (v : json) : jsval :=
  match v with
  | JArray l => hd_error l
  | JString s => match s with [] => None | c :: _ => Some (JString [c]) end
  | JObject m => lookup (js "0") m
  | _ => None
  end.

(** [v?.k] *)
Definition opt_prop (v : jsval) (k : jsstring) : jsval :=
  match v with
  | None | Some JNull => None
  | Some x => get_prop x k
  end.

(** [v?.[0]] *)
Definition opt_index0 (v : jsval) : jsval :=
  match v with
  | None | Some JNull => None
  | Some x => get_index0 x
  end.

(* ================================================================== *)
(** ** JSON.parse

    The host's parser, after the JSON grammar (ECMA-404): a lexer over
    the code units and a pushdown automaton over the tokens. *)

Module JSON.

Inductive token :=
| TLBrack | TRBrack | TLBrace | TRBrace | TComma | TColon
| TStr (s : jsstring) | TNum (n : number)
| TTrue | TFalse | TNull.

Definition is_ws (c : N) : bool :=
  N.eqb c 32 || N.eqb c 9 || N.eqb c 10 || N.eqb c 13.

Definition is_digit (c : N) : bool := N.leb 48 c && N.leb c 57.

Definition hex_digit (c : N) : option N :=
  if is_digit c then Some (c - 48)%N
  else if N.leb 97 c && N.leb c 102 then Some (c - 87)%N
  else if N.leb 65 c && N.leb c 70 then Some (c - 55)%N
  else None.

Definition hex4 (a b c d : N) : option N :=
  match hex_digit a, hex_digit b, hex_digit c, hex_digit d with
  | Some x, Some y, Some z, Some w => Some (((x * 16 + y) * 16 + z) * 16 + w)%N
  | _, _, _, _ => None
  end.

(** The single-character escapes: the code unit that follows a backslash
    and the code unit it stands for. *)
Definition simple_escape (e : N) : option N :=
  if N.eqb e 34 then Some 34%N          (* quotation mark *)
  else if N.eqb e 92 then Some 92%N     (* backslash *)
  else if N.eqb e 47 then Some 47%N     (* slash *)
  else if N.eqb e 98 then Some 8%N      (* b: backspace *)
  else if N.eqb e 102 then Some 12%N    (* f: form feed *)
  else if N.eqb e 110 then Some 10%N    (* n: line feed *)
  else if N.eqb e 114 then Some 13%N    (* r: carriage return *)
  else if N.eqb e 116 then Some 9%N     (* t: tab *)
  else None.

(** The rest of a string literal, after its opening quote. *)
Fixpoint lex_string (s : list N) (acc : jsstring) : option (jsstring * list N) :=
  match s with
  | [] => None
  | c :: r =>
      if N.eqb c 34 then Some (rev acc, r)
      else if N.eqb c 92 then
        match r with
        | [] => None
        | e :: r1 =>
            if N.eqb e 117 then
              match r1 with
              | h1 :: h2 :: h3 :: h4 :: r2 =>
                  match hex4 h1 h2 h3 h4 with
                  | Some u => lex_string r2 (u :: acc)
                  | None => None
                  end
              | _ => None
              end
            else
              match simple_escape e with
              | Some u => lex_string r1 (u :: acc)
              | None => None
              end
        end
      else if N.ltb c 32 then None
      else lex_string r (c :: acc)
  end.

Fixpoint span_digits (s : list N) : list N * list N :=
  match s with
  | [] => ([], [])
  | c :: r =>
      if is_digit c
      then let (d, rest) := span_digits r in (c :: d, rest)
      else ([], s)
  end.

Definition digits_value (d : list N) : Z :=
  fold_left (fun acc c => acc * 10 + Z.of_N (c - 48))%Z d 0%Z.

Definition is_nil {A} (l : list A) : bool :=
  match l with [] => true | _ => false end.

(** A number literal: [-? int frac? exp?]. *)
Definition lex_number (s : list N) : option (number * list N) :=
  let (neg, s1) := match s with
                   | c :: r => if N.eqb c 45 then (true, r) else (false, s)
                   | [] => (false, s)
                   end in
  let (ip, s2) := span_digits s1 in
  match ip with
  | [] => None
  | d0 :: more =>
      if N.eqb d0 48 && negb (is_nil more) then None
      else
        let frac :=
          match s2 with
          | c :: r =>
              if N.eqb c 46
              then let (fp, s3) := span_digits r in
                   if is_nil fp then None else Some (fp, s3)
              else Some ([], s2)
          | [] => Some ([], s2)
          end in
        match frac with
        | None => None
        | Some (fp, s3) =>
            let ex :=
              match s3 with
              | c :: r =>
                  if N.eqb c 101 || N.eqb c 69 then
                    let (eneg, r1) :=
                      match r with
                      | c1 :: r' =>
                          if N.eqb c1 45 then (true, r')
                          else if N.eqb c1 43 then (false, r')
                          else (false, r)
                      | [] => (false, r)
                      end in
                    let (ep, s4) := span_digits r1 in
                    if is_nil ep then None
                    else Some ((if eneg then - digits_value ep
                                else digits_value ep)%Z, s4)
                  else Some (0%Z, s3)
              | [] => Some (0%Z, s3)
              end in
            match ex with
            | None => None
            | Some (e, s4) =>
                let m := digits_value (ip ++ fp) in
                Some (mkNumber (if neg then - m else m)%Z
                               (e - Z.of_nat (List.length fp))%Z, s4)
            end
        end
  end.

Definition push (t : token) (r : option (list token)) : option (list token) :=
  option_map (cons t) r.

Fixpoint lex (fuel : nat) (s : list N) : option (list token) :=
  match fuel with
  | O => None
  | S f =>
      match s with
      | [] => Some []
      | c :: r =>
          if is_ws c then lex f r
          else if N.eqb c 91 then push TLBrack (lex f r)
          else if N.eqb c 93 then push TRBrack (lex f r)
          else if N.eqb c 123 then push TLBrace (lex f r)
          else if N.eqb c 125 then push TRBrace (lex f r)
          else if N.eqb c 44 then push TComma (lex f r)
          else if N.eqb c 58 then push TColon (lex f r)
          else if N.eqb c 34 then
            match lex_string r [] with
            | Some (str, r') => push (TStr str) (lex f r')
            | None => None
            end
          else if N.eqb c 45 || is_digit c then
            match lex_number s with
            | Some (n, r') => push (TNum n) (lex f r')
            | None => None
            end
          else if starts_with (js "true") s then push TTrue (lex f (skipn 4 s))
          else if starts_with (js "false") s then push TFalse (lex f (skipn 5 s))
          else if starts_with (js "null") s then push TNull (lex f (skipn 4 s))
          else None
      end
  end.

(** A later member of an object replaces an earlier one of the same
    name, in the earlier one's place. *)
Fixpoint set_member (k : jsstring) (v : json) (m : list (jsstring * json))
  : list (jsstring * json) :=
  match m with
  | [] => [(k, v)]
  | (k', v') :: r =>
      if str_eqb k k' then (k, v) :: r else (k', v') :: set_member k v r
  end.

(** The containers under construction. *)
Inductive frame :=
| FArr (elems : list json)               (* elements read, last first *)
| FObj (members : list (jsstring * json))
| FKey (k : jsstring).                   (* a member name awaiting its value *)

Inductive mode :=
| MValue          (* a value must follow *)
| MValueOrClose   (* after an opening bracket: a value or the closing bracket *)
| MKey            (* after a comma in an object: a member name *)
| MKeyOrClose     (* after an opening brace: a member name or the closing brace *)
| MColon
| MAfter          (* after a value in a container: a comma or the closer *)
| MDone (v : json).

Definition complete (v : json) (st : list frame) : option (mode * list frame) :=
  match st with
  | [] => Some (MDone v, [])
  | FArr es :: st' => Some (MAfter, FArr (v :: es) :: st')
  | FKey k :: FObj ms :: st' => Some (MAfter, FObj (set_member k v ms) :: st')
  | _ => None
  end.

Definition start_value (t : token) (st : list frame) : option (mode * list frame) :=
  match t with
  | TLBrack => Some (MValueOrClose, FArr [] :: st)
  | TLBrace => Some (MKeyOrClose, FObj [] :: st)
  | TStr s => complete (JString s) st
  | TNum n => complete (JNumber n) st
  | TTrue => complete (JBool true) st
  | TFalse => complete (JBool false) st
  | TNull => complete JNull st
  | _ => None
  end.

Definition close_array (st : list frame) : option (mode * list frame) :=
  match st with
  | FArr es :: st' => complete (JArray (rev es)) st'
  | _ => None
  end.

Definition close_object (st : list frame) : option (mode * list frame) :=
  match st with
  | FObj ms :: st' => complete (JObject ms) st'
  | _ => None
  end.

Definition step (m : mode) (st : list frame) (t : token)
  : option (mode * list frame) :=
  match m with
  | MValue => start_value t st
  | MValueOrClose =>
      match t with
      | TRBrack => close_array st
      | _ => start_value t st
      end
  | MKey =>
      match t with
      | TStr k => Some (MColon, FKey k :: st)
      | _ => None
      end
  | MKeyOrClose =>
      match t with
      | TStr k => Some (MColon, FKey k :: st)
      | TRBrace => close_object st
      | _ => None
      end
  | MColon =>
      match t with
      | TColon => Some (MValue, st)
      | _ => None
      end
  | MAfter =>
      match t, st with
      | TComma, FArr _ :: _ => Some (MValue, st)
      | TComma, FObj _ :: _ => Some (MKey, st)
      | TRBrack, _ => close_array st
      | TRBrace, _ => close_object st
      | _, _ => None
      end
  | MDone _ => None
  end.

Fixpoint run (m : mode) (st : list frame) (ts : list token) : option json :=
  match ts with
  | [] => match m with MDone v => Some v | _ => None end
  | t :: ts' =>
      match step m st t with
      | Some (m', st') => run m' st' ts'
      | None => None
      end
  end.

(** [JSON.parse(text)]; [None] stands for the SyntaxError. *)
Definition parse (text : jsstring) : option json :=
  match lex (S (List.length text)) text with
  | Some ts => run MValue [] ts
  | None => None
  end.

End JSON.

(* ================================================================== *)
(** ** Results, exceptions and the monad of the asynchronous code *)

Inductive kind := quota | auth | network | unknown.

(** [interface APIError]. At run time [message] holds whatever the
    classifier copied out of the vendor body, so it is a [json]. *)
Record APIError := mkAPIError {
  type : kind;
  message : json;
  suggestion : jsstring
}.

(** What the code throws: an [APIError] object, or an instance of
    [Error] (the TypeError of a property read on [null] or of a call of
    a non-function, the SyntaxError of a failed parse, the transport
    error of [fetch]) with its message. The wording of an engine's own
    messages follows V8; nothing the code does depends on it. *)
Inductive exn :=
| ExnAPI (e : APIError)
| ExnError (msg : jsstring).

Inductive result (A : Type) :=
| Returns (a : A)
| Throws (e : exn).

Arguments Returns {A} a.
Arguments Throws {A} e.

Record request := mkRequest {
  url : option jsstring;     (* the first argument of fetch *)
  method : jsstring;
  headers : list (jsstring * jsstring);
  body : json                (* the value handed to JSON.stringify *)
}.

(** The React state of the hook ([loading], [error]) and the requests
    handed to [fetch] so far, oldest first. *)
Record state := mkState {
  loading : bool;
  error : option APIError;
  requests : list request
}.

Definition initial : state := mkState false None [].

Definition M (A : Type) : Type := state -> result A * state.

Definition ret {A} (a : A) : M A := fun st => (Returns a, st).

Definition throw {A} (e : exn) : M A := fun st => (Throws e, st).

Definition bind {A B} (m : M A) (k : A -> M B) : M B :=
  fun st =>
    match m st with
    | (Returns a, st') => k a st'
    | (Throws e, st') => (Throws e, st')
    end.

(** [try { m } catch (e) { h e }] *)
Definition try_catch {A} (m : M A) (h : exn -> M A) : M A :=
  fun st =>
    match m st with
    | (Returns a, st') => (Returns a, st')
    | (Throws e, st') => h e st'
    end.

(** [try { m } finally { f }] *)
Definition finally {A} (m : M A) (f : M unit) : M A :=
  fun st =>
    match m st with
    | (r, st') =>
        match f st' with
        | (Returns _, st'') => (r, st'')
        | (Throws e, st'') => (Throws e, st'')
        end
    end.

(** A synchronous call that may throw. *)
Definition lift {A} (r : result A) : M A := fun st => (r, st).

Declare Scope js_scope.
Delimit Scope js_scope with js.
Notation "x <- m ;; k" := (bind m (fun x => k))
  (at level 100, m at next level, right associativity) : js_scope.
Notation "m ;;; k" := (bind m (fun _ => k))
  (at level 100, right associativity) : js_scope.
Open Scope js_scope.

Definition setLoading (b : bool) : M unit :=
  fun st => (Returns tt, mkState b (error st) (requests st)).

Definition setError (e : option APIError) : M unit :=
  fun st => (Returns tt, mkState (loading st) e (requests st)).

(* ================================================================== *)
(** ** Small helpers for literals *)

Definition str (s : string) : json := JString (js s).
Definition field (k : string) (v : json) : jsstring * json := (js k, v).
Definition dq : jsstring := [34%N].     (* a quotation mark *)
Definition nl : jsstring := [10%N].     (* a line feed *)

(* ================================================================== *)
(** ** services/aiService.ts *)

Module AIService.

(** [interface AIProvider], as [this.provider] is read at run time:
    through the three properties, each of which is a string or is not
    there ([undefined]). The entries of the table have all three; a
    member that the table inherits from Object.prototype has at most a
    name. *)
Record AIProvider := mkProvider {
  name : option jsstring;
  baseUrl : option jsstring;
  model : option jsstring
}.

(** [v === s] for a property [v] and a string literal [s]. *)
Definition strict_eq (v : option jsstring) (s : jsstring) : bool :=
  match v with
  | Some x => str_eqb x s
  | None => false
  end.

(** The property [k: v] of an object literal that is handed to
    JSON.stringify, which leaves out a property that is [undefined]. *)
Definition opt_field (k : string) (v : option jsstring)
  : list (jsstring * json) :=
  match v with
  | Some s => [field k (JString s)]
  | None => []
  end.

Inductive role := user | assistant | system.

Record ChatMessage := mkMessage {
  role_of : role;
  content : jsstring
}.

Definition role_eqb (a b : role) : bool :=
  match a, b with
  | user, user | assistant, assistant | system, system => true
  | _, _ => false
  end.

Definition role_name (r : role) : jsstring :=
  match r with
  | user => js "user"
  | assistant => js "assistant"
  | system => js "system"
  end.

(** A message object as it is serialised. *)
Definition message_json (m : ChatMessage) : json :=
  JObject [field "role" (JString (role_name (role_of m)));
           field "content" (JString (content m))].

Record t := mkService {
  apiKey : jsstring;
  provider : AIProvider
}.

Definition openai : AIProvider :=
  mkProvider (Some (js "OpenAI"))
             (Some (js "https://api.openai.com/v1/chat/completions"))
             (Some (js "gpt-3.5-turbo")).

Definition anthropic : AIProvider :=
  mkProvider (Some (js "Anthropic"))
             (Some (js "https://api.anthropic.com/v1/messages"))
             (Some (js "claude-3-sonnet-20240229")).

Definition google : AIProvider :=
  mkProvider (Some (js "Google"))
             (Some (js "https://generativelanguage.googleapis.com/v1beta/models/gemini-pro:generateContent"))
             (Some (js "gemini-pro")).

Definition providers : list (jsstring * AIProvider) :=
  [(js "openai", openai); (js "anthropic", anthropic); (js "google", google)].

Fixpoint find_provider (k : jsstring) (tbl : list (jsstring * AIProvider))
  : option AIProvider :=
  match tbl with
  | [] => None
  | (k', p) :: r => if str_eqb k k' then Some p else find_provider k r
  end.

(** A function that Object.prototype holds, read as a provider: its
    [name] is the name of the function, and it has no [baseUrl] and no
    [model]. *)
Definition builtin (fname : string) : AIProvider :=
  mkProvider (Some (js fname)) None None.

(** What [providers[type]] finds when [type] is not a key of the table:
    the table is an object literal, so the read goes on to
    Object.prototype and finds its members (ECMA-262, Properties of the
    Object Prototype Object, the legacy accessors included).
    [constructor] is the function Object; [__proto__] reads as
    Object.prototype itself, which has no [name]. *)
Definition inherited : list (jsstring * AIProvider) :=
  [(js "constructor", builtin "Object");
   (js "hasOwnProperty", builtin "hasOwnProperty");
   (js "isPrototypeOf", builtin "isPrototypeOf");
   (js "propertyIsEnumerable", builtin "propertyIsEnumerable");
   (js "toLocaleString", builtin "toLocaleString");
   (js "toString", builtin "toString");
   (js "valueOf", builtin "valueOf");
   (js "__defineGetter__", builtin "__defineGetter__");
   (js "__defineSetter__", builtin "__defineSetter__");
   (js "__lookupGetter__", builtin "__lookupGetter__");
   (js "__lookupSetter__", builtin "__lookupSetter__");
   (js "__proto__", mkProvider None None None)].

(** [providers[type] || providers.openai]: an own entry of the table,
    else an inherited member (a function or an object, so truthy), else
    the default. *)
Definition getProvider (ty : jsstring) : AIProvider :=
  match find_provider ty (providers ++ inherited) with
  | Some p => p
  | None => openai
  end.

(** [new AIService(apiKey, providerType)] *)
Definition new (key : jsstring) (providerType : jsstring) : t :=
  mkService key (getProvider providerType).

(** [errorMessage.includes(p)]: a string searches for the substring, an
    array for an element that is the string [p], and anything else has
    no such method. *)
Definition includes_any (v : json) (p : jsstring) : result bool :=
  match v with
  | JString s => Returns (includes s p)
  | JArray l =>
      Returns (existsb (fun x => match x with
                                 | JString s => str_eqb s p
                                 | _ => false
                                 end) l)
  | _ => Throws (ExnError (js "errorMessage.includes is not a function"))
  end.

(** [errorData.error?.message || errorData.message || 'Unknown error'],
    for an [errorData] that is not [null]. *)
Definition error_message (errorData : json) : json :=
  match js_or (js_or (opt_prop (get_prop errorData (js "error")) (js "message"))
                     (get_prop errorData (js "message")))
              (Some (str "Unknown error")) with
  | Some v => v
  | None => str "Unknown error"
  end.

Definition parseError (status : Z) (errorData : json) : result APIError :=
  match errorData with
  | JNull => Throws (ExnError (js "Cannot read properties of null (reading 'error')"))
  | _ =>
      let errorMessage : json := error_message errorData in
      if Z.eqb status 401 then
        Returns (mkAPIError auth (str "Invalid API key")
                   (js "Please check your API key in Settings and make sure it's correct."))
      else if Z.eqb status 429 then
        match includes_any errorMessage (js "quota") with
        | Throws e => Throws e
        | Returns true =>
            Returns (mkAPIError quota (str "API quota exceeded")
                       (js "Please check your billing details or try a different API provider."))
        | Returns false =>
            match includes_any errorMessage (js "billing") with
            | Throws e => Throws e
            | Returns true =>
                Returns (mkAPIError quota (str "API quota exceeded")
                           (js "Please check your billing details or try a different API provider."))
            | Returns false =>
                Returns (mkAPIError quota (str "Rate limit exceeded")
                           (js "Please wait a moment and try again."))
            end
        end
      else if Z.eqb status 500 || Z.eqb status 502 || Z.eqb status 503 then
        Returns (mkAPIError network (str "Service temporarily unavailable")
                   (js "Please try again in a few moments."))
      else
        Returns (mkAPIError unknown errorMessage
                   (js "Please try again or contact support if the issue persists."))
  end.

Definition buildRequestBody (svc : t) (messages : list ChatMessage)
    (systemMessage : jsstring) : result json :=
  let userMessages := filter (fun m => negb (role_eqb (role_of m) system)) messages in
  let nm := name (provider svc) in
  if strict_eq nm (js "OpenAI") then
    Returns (JObject
      (opt_field "model" (model (provider svc)) ++
       [field "messages"
          (JArray (JObject [field "role" (str "system");
                            field "content" (JString systemMessage)]
                   :: map message_json userMessages));
        field "max_tokens" (JNumber (num 1000));
        field "temperature" (JNumber (mkNumber 7 (-1)))]))
  else if strict_eq nm (js "Anthropic") then
    Returns (JObject
      (opt_field "model" (model (provider svc)) ++
       [field "max_tokens" (JNumber (num 1000));
        field "system" (JString systemMessage);
        field "messages"
          (JArray (map (fun m =>
             JObject [field "role"
                        (if role_eqb (role_of m) assistant
                         then str "assistant" else str "user");
                      field "content" (JString (content m))])
             userMessages))]))
  else if strict_eq nm (js "Google") then
    Returns (JObject
      [field "contents"
         (JArray (JObject [field "parts"
                             (JArray [JObject [field "text" (JString systemMessage)]])]
                  :: map (fun m =>
                       JObject [field "parts"
                                  (JArray [JObject [field "text" (JString (content m))]]);
                                field "role"
                                  (if role_eqb (role_of m) assistant
                                   then str "model" else str "user")])
                     userMessages));
       field "generationConfig"
         (JObject [field "maxOutputTokens" (JNumber (num 1000));
                   field "temperature" (JNumber (mkNumber 7 (-1)))])])
  else Throws (ExnError (js "Unsupported AI provider")).

(** [v || 'No response received'] *)
Definition or_no_response (v : jsval) : json :=
  match js_or v (Some (str "No response received")) with
  | Some x => x
  | None => str "No response received"
  end.

(** The optional chain that reads the reply's text out of a response
    body, per provider name; [None] for a name that is none of the
    three. The first property is read without [?.], so a [null] body
    throws. *)
Definition text_path (nm : option jsstring) (data : json)
  : option (result jsval) :=
  let on_null := Throws (ExnError (js "Cannot read properties of null")) in
  if strict_eq nm (js "OpenAI") then
    Some match data with
         | JNull => on_null
         | _ => Returns
             (opt_prop (opt_prop (opt_index0 (get_prop data (js "choices")))
                                 (js "message")) (js "content"))
         end
  else if strict_eq nm (js "Anthropic") then
    Some match data with
         | JNull => on_null
         | _ => Returns
             (opt_prop (opt_index0 (get_prop data (js "content"))) (js "text"))
         end
  else if strict_eq nm (js "Google") then
    Some match data with
         | JNull => on_null
         | _ => Returns
             (opt_prop (opt_index0
                (opt_prop (opt_prop (opt_index0 (get_prop data (js "candidates")))
                                    (js "content")) (js "parts")))
                (js "text"))
         end
  else None.

Definition extractResponse (svc : t) (data : json) : result json :=
  match text_path (name (provider svc)) data with
  | Some (Returns v) => Returns (or_no_response v)
  | Some (Throws e) => Throws e
  | None => Returns (str "No response received")
  end.

(** The system instruction of [chat]; an empty [resourceContext] is
    falsy, like an absent one. *)
Definition systemMessage (resourceContext : option jsstring) : jsstring :=
  match resourceContext with
  | Some (c :: rest) =>
      js "You are an AI learning assistant. Help the user understand and learn from this content: "
      ++ substring0 1000 (c :: rest) ++ js "..."
  | _ => js "You are an AI learning assistant. Help the user with their questions."
  end.

Definition chat_headers (svc : t) : list (jsstring * jsstring) :=
  [(js "Content-Type", js "application/json");
   (js "Authorization", js "Bearer " ++ apiKey svc)]
  ++ (if strict_eq (name (provider svc)) (js "Anthropic")
      then [(js "x-api-key", apiKey svc);
            (js "anthropic-version", js "2023-06-01")]
      else []).

Definition connection_failed : APIError :=
  mkAPIError network (str "Connection failed")
    (js "Please check your internet connection and try again.").

(** What one call of [fetch] comes to. *)
Inductive fetch_outcome :=
| Rejected                                        (* the promise rejects *)
| Response (status : Z) (payload : option json).  (* [None]: not JSON *)

Definition ok (status : Z) : bool := Z.leb 200 status && Z.leb status 299.

(** [response.json()] *)
Definition response_json (payload : option json) : M json :=
  match payload with
  | Some v => ret v
  | None => throw (ExnError (js "Unexpected token in JSON"))
  end.

(** [response.match(/\[[\s\S]*\]/)]: the match starts at the first
    opening bracket and, the star being greedy, ends at the last closing
    bracket after it. *)
Fixpoint from_first (c : N) (s : jsstring) : option jsstring :=
  match s with
  | [] => None
  | x :: r => if N.eqb x c then Some s else from_first c r
  end.

Fixpoint upto_last (c : N) (s : jsstring) : option jsstring :=
  match s with
  | [] => None
  | x :: r =>
      match upto_last c r with
      | Some p => Some (x :: p)
      | None => if N.eqb x c then Some [x] else None
      end
  end.

Definition match_bracketed (s : jsstring) : option jsstring :=
  match from_first 91 s with
  | Some (b :: r) => option_map (cons b) (upto_last 93 r)
  | _ => None
  end.

(** [response.match(...)] on the value [chat] resolved with: only a
    string has the method. *)
Definition response_match (response : json) : result (option jsstring) :=
  match response with
  | JString s => Returns (match_bracketed s)
  | _ => Throws (ExnError (js "response.match is not a function"))
  end.

Definition JSON_parse (text : jsstring) : result json :=
  match JSON.parse text with
  | Some v => Returns v
  | None => Throws (ExnError (js "Unexpected token in JSON"))
  end.

Definition createFallbackFlashcards (content : jsstring) : json :=
  JArray
    [JObject [field "question" (str "What is the main topic of this content?");
              field "answer" (str "The content focuses on learning and understanding key concepts from the uploaded material.")];
     JObject [field "question" (str "What are the key learning objectives?");
              field "answer" (str "To extract important information and create study materials for better comprehension.")];
     JObject [field "question" (str "How can this content be applied?");
              field "answer" (str "The concepts can be used to enhance understanding and retention of the subject matter.")]].

Definition createFallbackQuiz (content : jsstring) : json :=
  JArray
    [JObject [field "question" (str "What type of content are you studying?");
              field "options" (JArray [str "Educational material"; str "Entertainment";
                                       str "News article"; str "Technical documentation"]);
              field "correct" (JNumber (num 0))];
     JObject [field "question" (str "What is the purpose of creating study materials?");
              field "options" (JArray [str "To pass time"; str "To enhance learning";
                                       str "To create complexity"; str "To avoid studying"]);
              field "correct" (JNumber (num 1))]].

Definition summary_prompt (content : jsstring) : jsstring :=
  js "Please provide a comprehensive summary of this content, highlighting the key points, main themes, and important takeaways:"
  ++ nl ++ nl ++ substring0 3000 content.

Definition flashcards_prompt (content : jsstring) : jsstring :=
  js "Create 6 flashcards from this content. Return them as a JSON array with 'question' and 'answer' fields. Format: [{"
  ++ dq ++ js "question" ++ dq ++ js ": " ++ dq ++ js "..." ++ dq ++ js ", "
  ++ dq ++ js "answer" ++ dq ++ js ": " ++ dq ++ js "..." ++ dq ++ js "}]"
  ++ nl ++ nl ++ substring0 3000 content.

Definition quiz_prompt (content : jsstring) : jsstring :=
  js "Create a 4-question multiple choice quiz from this content. Return as JSON array with 'question', 'options' (array of 4 choices), and 'correct' (index of correct answer). Format: [{"
  ++ dq ++ js "question" ++ dq ++ js ": " ++ dq ++ js "..." ++ dq ++ js ", "
  ++ dq ++ js "options" ++ dq ++ js ": ["
  ++ dq ++ js "A" ++ dq ++ js ", " ++ dq ++ js "B" ++ dq ++ js ", "
  ++ dq ++ js "C" ++ dq ++ js ", " ++ dq ++ js "D" ++ dq ++ js "], "
  ++ dq ++ js "correct" ++ dq ++ js ": 0}]"
  ++ nl ++ nl ++ substring0 3000 content.

Section Network.

(** The provider: what [fetch] comes to for a request, given the
    requests made before it. *)
Variable fetch : list request -> request -> fetch_outcome.

(** [await fetch(url, init)]: logs the request; resolves with the
    response or rejects. *)
Definition js_fetch (req : request) : M (Z * option json) :=
  fun st =>
    let st' := mkState (loading st) (error st) (requests st ++ [req]) in
    match fetch (requests st) req with
    | Rejected => (Throws (ExnError (js "Failed to fetch")), st')
    | Response status payload => (Returns (status, payload), st')
    end.

Definition chat (svc : t) (messages : list ChatMessage)
    (resourceContext : option jsstring) : M json :=
  try_catch
    (let sys := systemMessage resourceContext in
     payload <- lift (buildRequestBody svc messages sys) ;;
     response <- js_fetch (mkRequest (baseUrl (provider svc)) (js "POST")
                                     (chat_headers svc) payload) ;;
     if negb (ok (fst response)) then
       errorData <- try_catch (response_json (snd response))
                      (fun _ => ret (JObject [field "error"
                         (JObject [field "message"
                            (str "Failed to parse error response")])])) ;;
       apiError <- lift (parseError (fst response) errorData) ;;
       throw (ExnAPI apiError)
     else
       data <- response_json (snd response) ;;
       lift (extractResponse svc data))
    (fun err =>
       match err with
       | ExnAPI _ => throw err
       | ExnError _ => throw (ExnAPI connection_failed)
       end).

Definition generateSummary (svc : t) (content : jsstring) : M json :=
  chat svc [mkMessage user (summary_prompt content)] None.

Definition generateFlashcards (svc : t) (content : jsstring) : M json :=
  let messages := [mkMessage user (flashcards_prompt content)] in
  try_catch
    (response <- chat svc messages None ;;
     jsonMatch <- lift (response_match response) ;;
     match jsonMatch with
     | Some m => lift (JSON_parse m)
     | None => ret (createFallbackFlashcards content)
     end)
    (fun _ => ret (createFallbackFlashcards content)).

Definition generateQuiz (svc : t) (content : jsstring) : M json :=
  let messages := [mkMessage user (quiz_prompt content)] in
  try_catch
    (response <- chat svc messages None ;;
     jsonMatch <- lift (response_match response) ;;
     match jsonMatch with
     | Some m => lift (JSON_parse m)
     | None => ret (createFallbackQuiz content)
     end)
    (fun _ => ret (createFallbackQuiz content)).

End Network.

End AIService.

(* ================================================================== *)
(** ** hooks/useAI.ts *)

Module UseAI.

Inductive role := user | ai.

Record ChatMessage := mkChat {
  role_of : role;
  message_of : jsstring
}.

(** What [useAPIKey()] provides. *)
Record config := mkConfig {
  apiKey : jsstring;
  provider : jsstring
}.

Definition not_configured : APIError :=
  mkAPIError auth (str "AI service not configured")
    (js "Please check your API key in Settings.").

Definition handleError (err : exn) : APIError :=
  match err with
  | ExnAPI e => e
  | ExnError msg =>
      mkAPIError unknown (JString msg)
        (js "Please try again or check your API configuration.")
  end.

Definition demo_summary : json :=
  str "This is a demo summary. Upload real content and configure your API key to generate AI-powered summaries of your videos and documents.".

Definition unconfigured_flashcards : json :=
  JArray
    [JObject [field "question" (str "Demo Question 1");
              field "answer" (str "Configure your API key to generate real flashcards")];
     JObject [field "question" (str "Demo Question 2");
              field "answer" (str "Upload content and set up AI to create personalized study materials")]].

Definition no_content_flashcards : json :=
  JArray
    [JObject [field "question" (str "What is EdiFy?");
              field "answer" (str "An AI-powered learning platform for creating study materials")];
     JObject [field "question" (str "How does it work?");
              field "answer" (str "Upload content and let AI generate summaries, flashcards, and quizzes")]].

Definition unconfigured_quiz : json :=
  JArray
    [JObject [field "question" (str "What do you need to generate real quizzes?");
              field "options" (JArray [str "A valid API key"; str "Internet connection";
                                       str "Uploaded content"; str "All of the above"]);
              field "correct" (JNumber (num 3))]].

Definition no_content_quiz : json :=
  JArray
    [JObject [field "question" (str "What is the main purpose of EdiFy?");
              field "options" (JArray [str "Entertainment"; str "AI-powered learning";
                                       str "File storage"; str "Video streaming"]);
              field "correct" (JNumber (num 1))]].

Section Hook.

Variable fetch : list request -> request -> AIService.fetch_outcome.

(** [Number.prototype.toString] of the host, used where a template
    literal interpolates a value that is a number. *)
Variable number_to_string : number -> jsstring.

Variable cfg : config.
Variable resourceContent : option jsstring.

(** [apiKey ? new AIService(apiKey, provider) : null] *)
Definition aiService : option AIService.t :=
  match apiKey cfg with
  | [] => None
  | _ :: _ => Some (AIService.new (apiKey cfg) (provider cfg))
  end.

Definition isConfigured : bool :=
  match aiService with Some _ => true | None => false end.

(** The string a template literal makes of a value (ToString). An
    array joins the strings of its elements with commas, [null] counting
    as the empty string. An object is converted through its [toString]
    and [valueOf] members: the inherited [toString] gives the fixed
    text, but a member of the object's own under that name hides it,
    and as no value that came out of JSON is a function, and the
    inherited [valueOf] returns the object itself, the conversion then
    finds no primitive and throws a TypeError. *)
Fixpoint to_string (v : json) : result jsstring :=
  match v with
  | JNull => Returns (js "null")
  | JBool true => Returns (js "true")
  | JBool false => Returns (js "false")
  | JNumber n => Returns (number_to_string n)
  | JString s => Returns s
  | JArray l =>
      (fix join (l : list json) : result jsstring :=
         match l with
         | [] => Returns []
         | x :: r =>
             match match x with
                   | JNull => Returns []
                   | _ => to_string x
                   end with
             | Throws e => Throws e
             | Returns s =>
                 match r with
                 | [] => Returns s
                 | _ :: _ =>
                     match join r with
                     | Throws e => Throws e
                     | Returns t => Returns (s ++ js "," ++ t)
                     end
                 end
             end
         end) l
  | JObject m =>
      match lookup (js "toString") m with
      | Some _ => Throws (ExnError (js "Cannot convert object to primitive value"))
      | None => Returns (js "[object Object]")
      end
  end.

Definition sendChatMessage (message : jsstring) (chatHistory : list ChatMessage)
  : M json :=
  match aiService with
  | None => throw (ExnAPI not_configured)
  | Some svc =>
      setLoading true ;;;
      setError None ;;;
      finally
        (try_catch
           (let messages :=
              map (fun c => AIService.mkMessage
                              (match role_of c with
                               | ai => AIService.assistant
                               | user => AIService.user
                               end)
                              (message_of c)) chatHistory
              ++ [AIService.mkMessage AIService.user message] in
            AIService.chat fetch svc messages resourceContent)
           (fun err =>
              let apiError := handleError err in
              setError (Some apiError) ;;;
              throw (ExnAPI apiError)))
        (setLoading false)
  end.

Definition summary_fallback (apiError : APIError) : result json :=
  match to_string (message apiError) with
  | Throws e => Throws e
  | Returns text =>
      Returns (JString (js "Unable to generate AI summary due to: "
           ++ text ++ js ". " ++ suggestion apiError
           ++ nl ++ nl ++ js "Fallback Summary:" ++ nl
           ++ js "This content contains educational material that can be used for learning purposes. Key concepts include understanding the main topics, extracting important information, and creating study materials for better comprehension."))
  end.

Definition generateSummary : M json :=
  match aiService with
  | None => throw (ExnAPI not_configured)
  | Some svc =>
      match resourceContent with
      | Some (c :: rest) =>
          setLoading true ;;;
          setError None ;;;
          finally
            (try_catch
               (AIService.generateSummary fetch svc (c :: rest))
               (fun err =>
                  let apiError := handleError err in
                  setError (Some apiError) ;;;
                  lift (summary_fallback apiError)))
            (setLoading false)
      | _ => ret demo_summary
      end
  end.

Definition error_flashcards (apiError : APIError) : result json :=
  match to_string (message apiError) with
  | Throws e => Throws e
  | Returns text =>
      Returns (JArray
        [JObject [field "question" (str "API Error Occurred");
                  field "answer" (JString (text ++ js ". "
                                           ++ suggestion apiError))];
         JObject [field "question" (str "Fallback Content");
                  field "answer" (str "These are demo flashcards. Fix the API issue to generate real content.")]])
  end.

Definition generateFlashcards : M json :=
  match aiService with
  | None => ret unconfigured_flashcards
  | Some svc =>
      match resourceContent with
      | Some (c :: rest) =>
          setLoading true ;;;
          setError None ;;;
          finally
            (try_catch
               (AIService.generateFlashcards fetch svc (c :: rest))
               (fun err =>
                  let apiError := handleError err in
                  setError (Some apiError) ;;;
                  lift (error_flashcards apiError)))
            (setLoading false)
      | _ => ret no_content_flashcards
      end
  end.

Definition error_quiz (apiError : APIError) : result json :=
  match to_string (message apiError) with
  | Throws e => Throws e
  | Returns text =>
      Returns (JArray
        [JObject [field "question" (JString (js "API Error: " ++ text));
                  field "options"
                    (JArray [JString (suggestion apiError); str "Try again later";
                             str "Check your API configuration"; str "All of the above"]);
                  field "correct" (JNumber (num 3))]])
  end.

Definition generateQuiz : M json :=
  match aiService with
  | None => ret unconfigured_quiz
  | Some svc =>
      match resourceContent with
      | Some (c :: rest) =>
          setLoading true ;;;
          setError None ;;;
          finally
            (try_catch
               (AIService.generateQuiz fetch svc (c :: rest))
               (fun err =>
                  let apiError := handleError err in
                  setError (Some apiError) ;;;
                  lift (error_quiz apiError)))
            (setLoading false)
      | _ => ret no_content_quiz
      end
  end.

End Hook.

End UseAI.

(* ================================================================== *)
(** ** The shape contracts of the generated artifacts *)

Definition is_string (v : jsval) : bool :=
  match v with Some (JString _) => true | _ => false end.

(** The integer a number denotes, when it denotes one. *)
Definition integer_value (n : number) : option Z :=
  if Z.leb 0 (expo n) then Some (mant n * 10 ^ expo n)%Z
  else if Z.eqb (mant n mod 10 ^ (- expo n)) 0
       then Some (mant n / 10 ^ (- expo n))%Z
       else None.

Definition is_flashcard (v : json) : bool :=
  match v with
  | JObject m => is_string (lookup (js "question") m)
                 && is_string (lookup (js "answer") m)
  | _ => false
  end.

Definition is_quiz_question (v : json) : bool :=
  match v with
  | JObject m =>
      is_string (lookup (js "question") m)
      && match lookup (js "options") m with
         | Some (JArray l) =>
             Nat.eqb (List.length l) 4 && forallb (fun o => is_string (Some o)) l
         | _ => false
         end
      && match lookup (js "correct") m with
         | Some (JNumber n) =>
             match integer_value n with
             | Some i => Z.leb 0 i && Z.leb i 3
             | None => false
             end
         | _ => false
         end
  | _ => false
  end.

(** A non-empty sequence whose every element satisfies [shape]. *)
Definition well_formed (shape : json -> bool) (v : json) : bool :=
  match v with
  | JArray (x :: l) => forallb shape (x :: l)
  | _ => false
  end.

(* ================================================================== *)
(** ** What [chat] makes of the outcome of its request *)

Definition chat_request (svc : AIService.t) (payload : json) : request :=
  mkRequest (AIService.baseUrl (AIService.provider svc)) (js "POST")
            (AIService.chat_headers svc) payload.

(** The body that stands in for an error body that is not JSON. *)
Definition unparsable_error_body : json :=
  JObject [field "error"
             (JObject [field "message" (str "Failed to parse error response")])].

(** The catch clause of [chat]: an [APIError] is thrown on as it is,
    anything else becomes the connection error. *)
Definition rethrow (err : exn) : exn :=
  match err with
  | ExnAPI _ => err
  | ExnError _ => ExnAPI AIService.connection_failed
  end.

Definition settle (svc : AIService.t) (out : AIService.fetch_outcome) : result json :=
  match out with
  | AIService.Rejected => Throws (ExnAPI AIService.connection_failed)
  | AIService.Response status payload =>
      if AIService.ok status then
        match payload with
        | None => Throws (ExnAPI AIService.connection_failed)
        | Some data =>
            match AIService.extractResponse svc data with
            | Returns v => Returns v
            | Throws e => Throws (rethrow e)
            end
        end
      else
        match AIService.parseError status
                (match payload with
                 | Some d => d
                 | None => unparsable_error_body
                 end) with
        | Returns e => Throws (ExnAPI e)
        | Throws e => Throws (rethrow e)
        end
  end.

Definition log (req : request) (st : state) : state :=
  mkState (loading st) (error st) (requests st ++ [req]).

(** What [generateFlashcards] and [generateQuiz] of the service return,
    given what [chat] settled to: the parsed bracketed part of a string
    reply, and the fallback in every other case. *)
Definition extract_or (fallback : json) (r : result json) : json :=
  match r with
  | Returns (JString text) =>
      match AIService.match_bracketed text with
      | Some m =>
          match JSON.parse m with
          | Some v => v
          | None => fallback
          end
      | None => fallback
      end
  | _ => fallback
  end.

Definition is_array (v : json) : bool :=
  match v with JArray _ => true | _ => false end.

(** The stack of the parser has an array frame at its bottom. *)
Fixpoint array_bottom (st : list JSON.frame) : bool :=
  match st with
  | [] => false
  | f :: r =>
      match r with
      | [] => match f with JSON.FArr _ => true | _ => false end
      | _ :: _ => array_bottom r
      end
  end.

Definition array_inv (m : JSON.mode) (st : list JSON.frame) : bool :=
  match m with
  | JSON.MDone v => is_array v
  | _ => array_bottom st
  end.

(** The value of a header of a request. *)
Fixpoint header (nm : jsstring) (h : list (jsstring * jsstring)) : option jsstring :=
  match h with
  | [] => None
  | (k, v) :: r => if str_eqb nm k then Some v else header nm r
  end.

Definition non_system (m : AIService.ChatMessage) : bool :=
  negb (AIService.role_eqb (AIService.role_of m) AIService.system).

(** Where the vendor's request body carries the system instruction:
    the first message (OpenAI), the top-level field (Anthropic), the
    first content's first part (Google). *)
Definition body_system (nm : option jsstring) (payload : json) : jsval :=
  if AIService.strict_eq nm (js "OpenAI") then
    opt_prop (opt_index0 (get_prop payload (js "messages"))) (js "content")
  else if AIService.strict_eq nm (js "Anthropic") then
    get_prop payload (js "system")
  else if AIService.strict_eq nm (js "Google") then
    opt_prop (opt_index0 (opt_prop (opt_index0 (get_prop payload (js "contents")))
                                   (js "parts"))) (js "text")
  else None.

(** The entries of the vendor's request body that carry the history. *)
Definition body_history (nm : option jsstring) (payload : json) : list json :=
  if AIService.strict_eq nm (js "OpenAI") then
    match get_prop payload (js "messages") with
    | Some (JArray (_ :: l)) => l
    | _ => []
    end
  else if AIService.strict_eq nm (js "Anthropic") then
    match get_prop payload (js "messages") with
    | Some (JArray l) => l
    | _ => []
    end
  else if AIService.strict_eq nm (js "Google") then
    match get_prop payload (js "contents") with
    | Some (JArray (_ :: l)) => l
    | _ => []
    end
  else [].

Definition entry_text (nm : option jsstring) (e : json) : jsval :=
  if AIService.strict_eq nm (js "Google")
  then opt_prop (opt_index0 (get_prop e (js "parts"))) (js "text")
  else get_prop e (js "content").

Definition entry_role (e : json) : jsval := get_prop e (js "role").

(** The two classifications of status 429. *)
Definition billing_error : APIError :=
  mkAPIError quota (str "API quota exceeded")
    (js "Please check your billing details or try a different API provider.").

Definition rate_limit_error : APIError :=
  mkAPIError quota (str "Rate limit exceeded")
    (js "Please wait a moment and try again.").

(** The three profiles of the table. *)
Definition profiles : list AIService.AIProvider :=
  [AIService.openai; AIService.anthropic; AIService.google].

(** The identifier selects a profile of the table: it is not the name of
    a member the table inherits, so it is one of the three keys or names
    nothing at all, and then the default applies. *)
Definition selects_profile (ty : jsstring) : bool :=
  match AIService.find_provider ty AIService.inherited with
  | Some _ => false
  | None => true
  end.

(* ================================================================== *)
(** ** Concrete inputs used in the examples below *)

Definition no_numbers : number -> jsstring := fun _ => [].

Definition always (out : AIService.fetch_outcome)
  : list request -> request -> AIService.fetch_outcome := fun _ _ => out.

(** A 200 response of OpenAI whose reply is [text]. *)
Definition openai_body (text : json) : json :=
  JObject [field "choices"
    (JArray [JObject [field "message" (JObject [field "content" text])]])].

Definition openai_reply (text : json) : AIService.fetch_outcome :=
  AIService.Response 200 (Some (openai_body text)).

Definition configured : UseAI.config := UseAI.mkConfig (js "sk-test") (js "openai").
Definition unconfigured : UseAI.config := UseAI.mkConfig [] (js "openai").

(* ================================================================== *)
(** ** contexts/APIKeyContext.tsx *)

Module APIKeyContext.

(** [window.localStorage]: names and the strings stored under them (a
    storage that refuses a write is not modelled). *)
Definition storage := list (jsstring * jsstring).

(** [localStorage.getItem(k)]; [None] is [null]. *)
Fixpoint getItem (k : jsstring) (s : storage) : option jsstring :=
  match s with
  | [] => None
  | (k', v) :: r => if str_eqb k k' then Some v else getItem k r
  end.

(** [localStorage.removeItem(k)] *)
Fixpoint removeItem (k : jsstring) (s : storage) : storage :=
  match s with
  | [] => []
  | (k', v) :: r =>
      if str_eqb k k' then removeItem k r else (k', v) :: removeItem k r
  end.

(** [localStorage.setItem(k, v)] *)
Definition setItem (k v : jsstring) (s : storage) : storage :=
  (k, v) :: removeItem k s.

(** The state of the provider component and the storage it writes. *)
Record t := mkContext {
  apiKey : jsstring;
  provider : jsstring;
  store : storage
}.

(** The component after its first render and its effect: the state
    starts as the empty key and openai, and a saved value replaces it
    when it is there and not empty. *)
Definition mount (s : storage) : t :=
  let savedKey := getItem (js "edify_api_key") s in
  let savedProvider := getItem (js "edify_provider") s in
  mkContext
    (match savedKey with
     | Some (c :: r) => c :: r
     | _ => []
     end)
    (match savedProvider with
     | Some (c :: r) => c :: r
     | _ => js "openai"
     end)
    s.

Definition setApiKey (key : jsstring) (c : t) : t :=
  mkContext key (provider c)
    (match key with
     | _ :: _ => setItem (js "edify_api_key") key (store c)
     | [] => removeItem (js "edify_api_key") (store c)
     end).

Definition setProvider (newProvider : jsstring) (c : t) : t :=
  mkContext (apiKey c) newProvider
    (setItem (js "edify_provider") newProvider (store c)).

(** [Boolean(apiKey)] *)
Definition isConfigured (c : t) : bool :=
  match apiKey c with [] => false | _ :: _ => true end.

(** What [useAPIKey()] hands to the hook. *)
Definition useAPIKey (c : t) : UseAI.config :=
  UseAI.mkConfig (apiKey c) (provider c).

End APIKeyContext.

(* ================================================================== *)
(** ** pages/Setup.tsx *)

Module Setup.

(** WhiteSpace and LineTerminator, the code units [trim] strips. *)
Definition is_space (c : N) : bool :=
  N.eqb c 9 || N.eqb c 10 || N.eqb c 11 || N.eqb c 12 || N.eqb c 13
  || N.eqb c 32 || N.eqb c 160 || N.eqb c 5760
  || (N.leb 8192 c && N.leb c 8202)
  || N.eqb c 8232 || N.eqb c 8233 || N.eqb c 8239 || N.eqb c 8287
  || N.eqb c 12288 || N.eqb c 65279.

Fixpoint trim_start (s : jsstring) : jsstring :=
  match s with
  | [] => []
  | c :: r => if is_space c then trim_start r else s
  end.

(** [s.trim()] *)
Definition trim (s : jsstring) : jsstring :=
  rev (trim_start (rev (trim_start s))).

Inductive status := idle | success | error.

Record t := mkSetup {
  inputKey : jsstring;
  selectedProvider : jsstring;
  testingConnection : bool;
  connectionStatus : status
}.

(** The state the page starts in. *)
Definition open (c : APIKeyContext.t) : t :=
  mkSetup (APIKeyContext.apiKey c) (APIKeyContext.provider c) false idle.

(** A request without a body. *)
Record probe := mkProbe {
  probe_url : jsstring;
  probe_method : jsstring;
  probe_headers : list (jsstring * jsstring)
}.

(** [headers[k] = v] on an object of strings. *)
Fixpoint set_header (k v : jsstring) (h : list (jsstring * jsstring))
  : list (jsstring * jsstring) :=
  match h with
  | [] => [(k, v)]
  | (k', v') :: r =>
      if str_eqb k k' then (k, v) :: r else (k', v') :: set_header k v r
  end.

(** [delete headers[k]] *)
Fixpoint delete_header (k : jsstring) (h : list (jsstring * jsstring))
  : list (jsstring * jsstring) :=
  match h with
  | [] => []
  | (k', v') :: r =>
      if str_eqb k k' then delete_header k r else (k', v') :: delete_header k r
  end.

Definition testUrl (selected : jsstring) : jsstring :=
  if str_eqb selected (js "openai") then js "https://api.openai.com/v1/models"
  else if str_eqb selected (js "anthropic") then js "https://api.anthropic.com/v1/messages"
  else js "https://generativelanguage.googleapis.com/v1beta/models".

Definition test_headers (s : t) : list (jsstring * jsstring) :=
  let headers := [(js "Authorization", js "Bearer " ++ trim (inputKey s))] in
  if str_eqb (selectedProvider s) (js "anthropic") then
    delete_header (js "Authorization")
      (set_header (js "anthropic-version") (js "2023-06-01")
         (set_header (js "x-api-key") (trim (inputKey s)) headers))
  else headers.

Section Probe.

(** What [fetch] comes to for a probe, given the probes before it. *)
Variable fetch : list probe -> probe -> AIService.fetch_outcome.

(** One run of [testConnection], over the state of the page and the
    probes sent so far. *)
Definition testConnection (s : t) (sent : list probe) : t * list probe :=
  match trim (inputKey s) with
  | [] => (s, sent)
  | _ :: _ =>
      let p := mkProbe (testUrl (selectedProvider s)) (js "GET") (test_headers s) in
      let outcome :=
        match fetch sent p with
        | AIService.Response st _ => if AIService.ok st then success else error
        | AIService.Rejected => error
        end in
      (mkSetup (inputKey s) (selectedProvider s) false outcome, sent ++ [p])
  end.

End Probe.

(** [handleSubmit]: the context after it and the route it navigates
    to, if any. *)
Definition handleSubmit (s : t) (c : APIKeyContext.t)
  : APIKeyContext.t * option jsstring :=
  match trim (inputKey s) with
  | [] => (c, None)
  | _ :: _ =>
      (APIKeyContext.setProvider (selectedProvider s)
         (APIKeyContext.setApiKey (trim (inputKey s)) c),
       Some (js "/workspace"))
  end.

End Setup.

(* ================================================================== *)
(** ** components/UploadInterface.tsx *)

Module UploadInterface.

Inductive resource_type := video | document | link.

(** [interface Resource], without the optional [content] that nothing
    sets. *)
Record Resource := mkResource {
  id : jsstring;
  type_of : resource_type;
  name : jsstring;
  url : option jsstring
}.

(** What the handlers read of a [File]. *)
Record File := mkFile {
  file_type : jsstring;
  file_name : jsstring
}.

(** [handleFileUpload]; [now] is [Date.now().toString()] and
    [objectUrl] what [URL.createObjectURL] made of the file. *)
Definition handleFileUpload (now objectUrl : jsstring) (file : File) : Resource :=
  mkResource now
    (if starts_with (js "video/") (file_type file) then video else document)
    (file_name file)
    (Some objectUrl).

(** [handleLinkSubmit]: the resource handed to [onResourceUpload], if
    any. *)
Definition handleLinkSubmit (now linkUrl : jsstring) : option Resource :=
  match Setup.trim linkUrl with
  | [] => None
  | _ :: _ => Some (mkResource now video (js "Video Link") (Some linkUrl))
  end.

End UploadInterface.

(* ================================================================== *)
(** ** components/ResourceViewer.tsx

    The state of the tabs and the handlers that change it. A run of the
    effect that loads a tab is taken to its end before anything else
    happens. The chat transcript and its handler are left out. *)

Module ResourceViewer.

Inductive tab := chat | summary | flashcards | quiz.

Definition tab_eqb (a b : tab) : bool :=
  match a, b with
  | chat, chat | summary, summary | flashcards, flashcards | quiz, quiz => true
  | _, _ => false
  end.

(** The object that spreads [card] and sets [revealed]: every other
    property reads as it does on [card]. *)
Record FlashCard := mkCard {
  card : json;
  revealed : bool
}.

(** The object that spreads [question] and sets [selected]; [None] is
    [undefined]. *)
Record QuizQuestion := mkQuestion {
  question : json;
  selected : option nat
}.

Record t := mkViewer {
  activeTab : tab;
  loadedTabs : list tab;        (* a Set, in insertion order *)
  summary_text : json;
  flashcards_deck : list FlashCard;
  quiz_deck : list QuizQuestion
}.

(** The state of the first render, on the chat tab. *)
Definition initial_view : t := mkViewer chat [] (JString []) [] [].

(** The placeholder that stands for the extracted content. *)
Definition resourceContent (resource : UploadInterface.Resource) : jsstring :=
  js "Content from " ++ UploadInterface.name resource
  ++ js ". This is sample content that would be extracted from the uploaded video or document. In a production app, this would involve video transcription, document parsing, etc.".

(** [set.has(x)] *)
Definition has (x : tab) (s : list tab) : bool := existsb (tab_eqb x) s.

(** [new Set([...prev, x])] *)
Definition add (x : tab) (s : list tab) : list tab :=
  if has x s then s else s ++ [x].

(** [set.delete(x)] *)
Definition delete (x : tab) (s : list tab) : list tab :=
  filter (fun y => negb (tab_eqb x y)) s.

(** [list.map((x, i) => f(i, x))] *)
Fixpoint mapi_from {A B} (i : nat) (f : nat -> A -> B) (l : list A) : list B :=
  match l with
  | [] => []
  | x :: r => f i x :: mapi_from (S i) f r
  end.

Definition mapi {A B} (f : nat -> A -> B) (l : list A) : list B :=
  mapi_from 0 f l.

Definition setActiveTab (x : tab) (v : t) : t :=
  mkViewer x (loadedTabs v) (summary_text v) (flashcards_deck v) (quiz_deck v).

Definition toggleFlashcard (index : nat) (v : t) : t :=
  mkViewer (activeTab v) (loadedTabs v) (summary_text v)
    (mapi (fun i c => if Nat.eqb i index
                      then mkCard (card c) (negb (revealed c))
                      else c)
          (flashcards_deck v))
    (quiz_deck v).

Definition selectQuizAnswer (questionIndex optionIndex : nat) (v : t) : t :=
  mkViewer (activeTab v) (loadedTabs v) (summary_text v) (flashcards_deck v)
    (mapi (fun i q => if Nat.eqb i questionIndex
                      then mkQuestion (question q) (Some optionIndex)
                      else q)
          (quiz_deck v)).

Definition retryContent (v : t) : t :=
  let loaded := delete (activeTab v) (loadedTabs v) in
  match activeTab v with
  | summary => mkViewer (activeTab v) loaded (JString []) (flashcards_deck v) (quiz_deck v)
  | flashcards => mkViewer (activeTab v) loaded (summary_text v) [] (quiz_deck v)
  | quiz => mkViewer (activeTab v) loaded (summary_text v) (flashcards_deck v) []
  | chat => mkViewer (activeTab v) loaded (summary_text v) (flashcards_deck v) (quiz_deck v)
  end.

(** [cards.map(f)] on what a generator resolved with: only an array has
    the method. *)
Definition map_array {A} (f : json -> A) (v : json) : result (list A) :=
  match v with
  | JArray l => Returns (map f l)
  | _ => Throws (ExnError (js "cards.map is not a function"))
  end.

Section Effect.

Variable fetch : list request -> request -> AIService.fetch_outcome.
Variable number_to_string : number -> jsstring.
Variable cfg : UseAI.config.
Variable resource : UploadInterface.Resource.

(** One run of the effect of [activeTab]: [loadTabContent], behind the
    test that the tab is not loaded yet. *)
Definition loadTabContent (v : t) : M t :=
  if has (activeTab v) (loadedTabs v) then ret v
  else
    let loaded := add (activeTab v) (loadedTabs v) in
    let marked := mkViewer (activeTab v) loaded (summary_text v)
                           (flashcards_deck v) (quiz_deck v) in
    let content := Some (resourceContent resource) in
    try_catch
      (match activeTab v with
       | summary =>
           if truthy (Some (summary_text v)) then ret marked
           else
             summaryText <- UseAI.generateSummary fetch number_to_string cfg content ;;
             ret (mkViewer (activeTab v) loaded summaryText
                           (flashcards_deck v) (quiz_deck v))
       | flashcards =>
           match flashcards_deck v with
           | [] =>
               cards <- UseAI.generateFlashcards fetch number_to_string cfg content ;;
               deck <- lift (map_array (fun c => mkCard c false) cards) ;;
               ret (mkViewer (activeTab v) loaded (summary_text v) deck (quiz_deck v))
           | _ :: _ => ret marked
           end
       | quiz =>
           match quiz_deck v with
           | [] =>
               questions <- UseAI.generateQuiz fetch number_to_string cfg content ;;
               deck <- lift (map_array (fun q => mkQuestion q None) questions) ;;
               ret (mkViewer (activeTab v) loaded (summary_text v)
                             (flashcards_deck v) deck)
           | _ :: _ => ret marked
           end
       | chat => ret marked
       end)
      (fun _ => ret marked).

End Effect.

End ResourceViewer.

(* ================================================================== *)
(** ** Sequences of changes to the credentials *)

Inductive context_action :=
| SetApiKey (key : jsstring)
| SetProvider (p : jsstring).

Definition act (c : APIKeyContext.t) (a : context_action) : APIKeyContext.t :=
  match a with
  | SetApiKey key => APIKeyContext.setApiKey key c
  | SetProvider p => APIKeyContext.setProvider p c
  end.

Definition act_all (l : list context_action) (c : APIKeyContext.t)
  : APIKeyContext.t :=
  fold_left act l c.

(* ================================================================== *)
(** ** Reading the adapter's requests and responses *)

(** The classified error of a status and a vendor message that is a
    string. *)
Definition classify_text (status : Z) (text : jsstring) : APIError :=
  if Z.eqb status 401 then
    mkAPIError auth (str "Invalid API key")
      (js "Please check your API key in Settings and make sure it's correct.")
  else if Z.eqb status 429 then
    if includes text (js "quota") || includes text (js "billing")
    then billing_error else rate_limit_error
  else if Z.eqb status 500 || Z.eqb status 502 || Z.eqb status 503 then
    mkAPIError network (str "Service temporarily unavailable")
      (js "Please try again in a few moments.")
  else
    mkAPIError unknown (JString text)
      (js "Please try again or contact support if the issue persists.").

(** A response body of the vendor's shape that carries [text]. *)
Definition vendor_response (nm : option jsstring) (text : json) : json :=
  if AIService.strict_eq nm (js "OpenAI") then
    JObject [field "choices"
      (JArray [JObject [field "message" (JObject [field "content" text])]])]
  else if AIService.strict_eq nm (js "Anthropic") then
    JObject [field "content" (JArray [JObject [field "text" text]])]
  else
    JObject [field "candidates"
      (JArray [JObject [field "content"
         (JObject [field "parts" (JArray [JObject [field "text" text]])])]])].

(** The name a vendor's request gives to the role of a message. *)
Definition vendor_role (nm : option jsstring) (r : AIService.role) : jsstring :=
  if AIService.strict_eq nm (js "OpenAI") then AIService.role_name r
  else
    match r with
    | AIService.assistant =>
        if AIService.strict_eq nm (js "Google") then js "model" else js "assistant"
    | _ => js "user"
    end.

(** The history the hook hands to [chat]. *)
Definition hook_messages (hist : list UseAI.ChatMessage) (msg : jsstring)
  : list AIService.ChatMessage :=
  map (fun c => AIService.mkMessage
                  (match UseAI.role_of c with
                   | UseAI.ai => AIService.assistant
                   | UseAI.user => AIService.user
                   end)
                  (UseAI.message_of c)) hist
  ++ [AIService.mkMessage AIService.user msg].

(** What an operation of the hook may do to the state: it never leaves
    the busy flag up, keeps the log and adds at most one request. *)
Definition at_most_one_call (st st' : state) : Prop :=
  (loading st = false -> loading st' = false)
  /\ exists extra, requests st' = requests st ++ extra
                   /\ (List.length extra <= 1)%nat.

(* ================================================================== *)
(** ** Facts about [chat] *)

(** Decides the comparisons of provider names, which are literals. *)
Ltac decide_names :=
  repeat match goal with
    | |- context [str_eqb ?a ?b] =>
        let v := eval vm_compute in (str_eqb a b) in
        change (str_eqb a b) with v; cbv iota
    end.

Section ChatFacts.

Variable fetch : list request -> request -> AIService.fetch_outcome.

Lemma str_eqb_eq a : forall b, str_eqb a b = true <-> a = b.
Proof.
  induction a as [|x a IH]; intros [|y b]; cbn [str_eqb];
    try (split; [discriminate|discriminate]); [tauto|].
  rewrite andb_true_iff, N.eqb_eq, IH. split.
  - intros [-> ->]. reflexivity.
  - intros [= -> ->]. auto.
Qed.

Lemma str_eqb_refl a : str_eqb a a = true.
Proof. now apply str_eqb_eq. Qed.

Lemma find_provider_app k t1 t2 :
  AIService.find_provider k (t1 ++ t2)
  = match AIService.find_provider k t1 with
    | Some p => Some p
    | None => AIService.find_provider k t2
    end.
Proof.
  induction t1 as [|[k' p] t1 IH]; [reflexivity|].
  cbn [app AIService.find_provider]. now destruct (str_eqb k k').
Qed.

Lemma find_provider_in k tbl p :
  AIService.find_provider k tbl = Some p -> In p (map snd tbl).
Proof.
  induction tbl as [|[k' q] tbl IH]; [discriminate|].
  cbn [AIService.find_provider map snd In].
  destruct (str_eqb k k'); [intros [= ->]; now left|auto].
Qed.

(** An identifier that is not the name of an inherited member selects
    one of the three profiles. *)
Lemma getProvider_cases ty :
  selects_profile ty = true ->
  AIService.getProvider ty = AIService.openai \/
  AIService.getProvider ty = AIService.anthropic \/
  AIService.getProvider ty = AIService.google.
Proof.
  unfold selects_profile, AIService.getProvider.
  rewrite find_provider_app.
  destruct (AIService.find_provider ty AIService.inherited); [discriminate|].
  intros _. unfold AIService.providers, AIService.find_provider.
  destruct (str_eqb ty (js "openai")); [now left|].
  destruct (str_eqb ty (js "anthropic")); [now (right; left)|].
  destruct (str_eqb ty (js "google")); [now (right; right)|now left].
Qed.

(** The name of an inherited member selects that member. *)
Lemma getProvider_member ty :
  selects_profile ty = false ->
  In (AIService.getProvider ty) (map snd AIService.inherited).
Proof.
  unfold selects_profile, AIService.getProvider.
  rewrite find_provider_app.
  destruct (AIService.find_provider ty AIService.inherited) as [p|] eqn:E;
    [intros _|discriminate].
  assert (Hown : AIService.find_provider ty AIService.providers = None).
  { unfold AIService.providers. cbn [AIService.find_provider].
    repeat match goal with
      | |- context [str_eqb ty ?k] =>
          let Ek := fresh "Ek" in
          destruct (str_eqb ty k) eqn:Ek;
          [apply str_eqb_eq in Ek; subst ty; vm_compute in E; discriminate|]
      end.
    reflexivity. }
  rewrite Hown. apply (find_provider_in _ _ _ E).
Qed.

Lemma build_total key ty messages sys :
  selects_profile ty = true ->
  exists payload,
    AIService.buildRequestBody (AIService.new key ty) messages sys = Returns payload.
Proof.
  intros Hty.
  unfold AIService.buildRequestBody, AIService.new.
  cbn [AIService.provider].
  destruct (getProvider_cases ty Hty) as [-> | [-> | ->]];
    cbn [AIService.name AIService.openai AIService.anthropic AIService.google
         AIService.strict_eq];
    decide_names; eexists; reflexivity.
Qed.

(** For the name of an inherited member no request body is built. *)
Lemma build_unsupported key ty messages sys :
  selects_profile ty = false ->
  AIService.buildRequestBody (AIService.new key ty) messages sys
  = Throws (ExnError (js "Unsupported AI provider")).
Proof.
  intros Hty. apply getProvider_member in Hty.
  unfold AIService.buildRequestBody, AIService.new.
  cbn [AIService.provider].
  cbn [map snd AIService.inherited In] in Hty.
  repeat (destruct Hty as [<- | Hty]; [reflexivity|]).
  destruct Hty.
Qed.

Lemma build_throws_unsupported svc messages sys e :
  AIService.buildRequestBody svc messages sys = Throws e ->
  e = ExnError (js "Unsupported AI provider").
Proof.
  unfold AIService.buildRequestBody.
  repeat match goal with
         | |- context [if ?b then _ else _] => destruct b; [discriminate|]
         end.
  now intros [= <-].
Qed.

Lemma chat_build_fails svc messages ctx st e :
  AIService.buildRequestBody svc messages (AIService.systemMessage ctx) = Throws e ->
  AIService.chat fetch svc messages ctx st
  = (Throws (ExnAPI AIService.connection_failed), st).
Proof.
  intros Hb. rewrite (build_throws_unsupported _ _ _ _ Hb) in Hb.
  unfold AIService.chat, try_catch, bind, lift. now rewrite Hb.
Qed.

Lemma chat_settles svc messages ctx payload st :
  AIService.buildRequestBody svc messages (AIService.systemMessage ctx)
    = Returns payload ->
  AIService.chat fetch svc messages ctx st
    = (settle svc (fetch (requests st) (chat_request svc payload)),
       log (chat_request svc payload) st).
Proof.
  intros Hb.
  unfold AIService.chat, AIService.js_fetch, AIService.response_json,
    settle, log, rethrow, unparsable_error_body, try_catch, bind, lift,
    throw, ret.
  rewrite Hb. fold (chat_request svc payload).
  destruct (fetch (requests st) (chat_request svc payload)) as [|status pl];
    [reflexivity|].
  cbn [fst snd].
  destruct (AIService.ok status); cbn [negb].
  - destruct pl as [data|]; [|reflexivity].
    destruct (AIService.extractResponse svc data) as [v|[e|m]]; reflexivity.
  - destruct pl as [data|];
      match goal with
      | |- context [AIService.parseError ?s ?d] =>
          destruct (AIService.parseError s d) as [e|[e|m]]; reflexivity
      end.
Qed.

(** [chat] throws nothing but an [APIError]. *)
Lemma settle_throws_api svc out e :
  settle svc out = Throws e -> exists a, e = ExnAPI a.
Proof.
  unfold settle, rethrow.
  destruct out as [|status pl]; [intros [= <-]; eauto|].
  destruct (AIService.ok status).
  - destruct pl as [data|]; [|intros [= <-]; eauto].
    destruct (AIService.extractResponse svc data) as [v|[a|m]];
      intros [= <-]; eauto.
  - match goal with
    | |- context [AIService.parseError ?s ?d] =>
        destruct (AIService.parseError s d) as [a|[a|m]]
    end; intros [= <-]; eauto.
Qed.

End ChatFacts.

(* ================================================================== *)
(** ** Runs of the generators, in closed form *)

Section Runs.

Variable fetch : list request -> request -> AIService.fetch_outcome.
Variable number_to_string : number -> jsstring.

Lemma service_flashcards_run svc content st r st' :
  AIService.chat fetch svc
    [AIService.mkMessage AIService.user (AIService.flashcards_prompt content)]
    None st = (r, st') ->
  AIService.generateFlashcards fetch svc content st
    = (Returns (extract_or (AIService.createFallbackFlashcards content) r), st').
Proof.
  intros H.
  unfold AIService.generateFlashcards, try_catch, bind, lift, ret.
  rewrite H.
  unfold extract_or, AIService.response_match, AIService.JSON_parse.
  destruct r as [v|e]; [|reflexivity].
  destruct v as [| | |text| |]; try reflexivity.
  destruct (AIService.match_bracketed text) as [m|]; [|reflexivity].
  destruct (JSON.parse m); reflexivity.
Qed.

Lemma service_quiz_run svc content st r st' :
  AIService.chat fetch svc
    [AIService.mkMessage AIService.user (AIService.quiz_prompt content)]
    None st = (r, st') ->
  AIService.generateQuiz fetch svc content st
    = (Returns (extract_or (AIService.createFallbackQuiz content) r), st').
Proof.
  intros H.
  unfold AIService.generateQuiz, try_catch, bind, lift, ret.
  rewrite H.
  unfold extract_or, AIService.response_match, AIService.JSON_parse.
  destruct r as [v|e]; [|reflexivity].
  destruct v as [| | |text| |]; try reflexivity.
  destruct (AIService.match_bracketed text) as [m|]; [|reflexivity].
  destruct (JSON.parse m); reflexivity.
Qed.

Lemma aiService_configured cfg k ks :
  UseAI.apiKey cfg = k :: ks ->
  UseAI.aiService cfg
    = Some (AIService.new (UseAI.apiKey cfg) (UseAI.provider cfg)).
Proof. unfold UseAI.aiService. now intros ->. Qed.

Lemma aiService_unconfigured cfg :
  UseAI.apiKey cfg = [] -> UseAI.aiService cfg = None.
Proof. unfold UseAI.aiService. now intros ->. Qed.

(** The prompt request of a generator: the body built for the single
    user message and the generic system instruction. *)
Lemma prompt_payload key ty prompt :
  selects_profile ty = true ->
  exists payload,
    AIService.buildRequestBody (AIService.new key ty)
      [AIService.mkMessage AIService.user prompt]
      (AIService.systemMessage None) = Returns payload.
Proof. apply build_total. Qed.

Lemma hook_flashcards_run cfg k ks c rest st payload :
  UseAI.apiKey cfg = k :: ks ->
  let svc := AIService.new (UseAI.apiKey cfg) (UseAI.provider cfg) in
  let content := c :: rest in
  AIService.buildRequestBody svc
    [AIService.mkMessage AIService.user (AIService.flashcards_prompt content)]
    (AIService.systemMessage None) = Returns payload ->
  UseAI.generateFlashcards fetch number_to_string cfg (Some content) st
    = (Returns (extract_or (AIService.createFallbackFlashcards content)
                  (settle svc (fetch (requests st) (chat_request svc payload)))),
       mkState false None (requests st ++ [chat_request svc payload])).
Proof.
  intros Hk svc content Hb. subst content.
  unfold UseAI.generateFlashcards.
  rewrite (aiService_configured _ _ _ Hk). fold svc.
  unfold bind, setLoading, setError, finally, try_catch.
  cbv beta iota. cbn [error requests loading].
  rewrite (service_flashcards_run svc (c :: rest) _ _ _
             (chat_settles fetch svc _ None _ _ Hb)).
  reflexivity.
Qed.

(** When no body can be built the service makes no request and the
    generators return its fallback. *)
Lemma hook_flashcards_unbuilt cfg k ks c rest st e :
  UseAI.apiKey cfg = k :: ks ->
  let svc := AIService.new (UseAI.apiKey cfg) (UseAI.provider cfg) in
  let content := c :: rest in
  AIService.buildRequestBody svc
    [AIService.mkMessage AIService.user (AIService.flashcards_prompt content)]
    (AIService.systemMessage None) = Throws e ->
  UseAI.generateFlashcards fetch number_to_string cfg (Some content) st
    = (Returns (AIService.createFallbackFlashcards content),
       mkState false None (requests st)).
Proof.
  intros Hk svc content Hb. subst content.
  unfold UseAI.generateFlashcards.
  rewrite (aiService_configured _ _ _ Hk). fold svc.
  unfold bind, setLoading, setError, finally, try_catch.
  cbv beta iota. cbn [error requests loading].
  rewrite (service_flashcards_run svc (c :: rest) _ _ _
             (chat_build_fails fetch svc _ None _ _ Hb)).
  reflexivity.
Qed.

Lemma hook_quiz_unbuilt cfg k ks c rest st e :
  UseAI.apiKey cfg = k :: ks ->
  let svc := AIService.new (UseAI.apiKey cfg) (UseAI.provider cfg) in
  let content := c :: rest in
  AIService.buildRequestBody svc
    [AIService.mkMessage AIService.user (AIService.quiz_prompt content)]
    (AIService.systemMessage None) = Throws e ->
  UseAI.generateQuiz fetch number_to_string cfg (Some content) st
    = (Returns (AIService.createFallbackQuiz content),
       mkState false None (requests st)).
Proof.
  intros Hk svc content Hb. subst content.
  unfold UseAI.generateQuiz.
  rewrite (aiService_configured _ _ _ Hk). fold svc.
  unfold bind, setLoading, setError, finally, try_catch.
  cbv beta iota. cbn [error requests loading].
  rewrite (service_quiz_run svc (c :: rest) _ _ _
             (chat_build_fails fetch svc _ None _ _ Hb)).
  reflexivity.
Qed.

Lemma hook_quiz_run cfg k ks c rest st payload :
  UseAI.apiKey cfg = k :: ks ->
  let svc := AIService.new (UseAI.apiKey cfg) (UseAI.provider cfg) in
  let content := c :: rest in
  AIService.buildRequestBody svc
    [AIService.mkMessage AIService.user (AIService.quiz_prompt content)]
    (AIService.systemMessage None) = Returns payload ->
  UseAI.generateQuiz fetch number_to_string cfg (Some content) st
    = (Returns (extract_or (AIService.createFallbackQuiz content)
                  (settle svc (fetch (requests st) (chat_request svc payload)))),
       mkState false None (requests st ++ [chat_request svc payload])).
Proof.
  intros Hk svc content Hb. subst content.
  unfold UseAI.generateQuiz.
  rewrite (aiService_configured _ _ _ Hk). fold svc.
  unfold bind, setLoading, setError, finally, try_catch.
  cbv beta iota. cbn [error requests loading].
  rewrite (service_quiz_run svc (c :: rest) _ _ _
             (chat_settles fetch svc _ None _ _ Hb)).
  reflexivity.
Qed.

End Runs.

(* ================================================================== *)
(** ** The bracketed part of a reply *)

Section Bracketed.

Import AIService.

Lemma from_first_some c s t :
  from_first c s = Some t ->
  exists pre r, s = pre ++ t /\ t = c :: r /\ ~ In c pre.
Proof.
  induction s as [|x s IH]; cbn [from_first]; [discriminate|].
  destruct (N.eqb_spec x c) as [->|Hne].
  - intros [= <-]. exists [], s. cbn. auto.
  - intros H. destruct (IH H) as (pre & r & -> & -> & Hpre).
    exists (x :: pre), r. cbn. repeat split; auto.
    intros [E|E]; [congruence|auto].
Qed.

Lemma from_first_app c pre r :
  ~ In c pre -> from_first c (pre ++ c :: r) = Some (c :: r).
Proof.
  induction pre as [|x pre IH]; cbn [from_first app]; intros Hpre.
  - now rewrite N.eqb_refl.
  - destruct (N.eqb_spec x c) as [->|_]; [exfalso; apply Hpre; now left|].
    apply IH. intros E. apply Hpre. now right.
Qed.

Lemma upto_last_none c s : ~ In c s -> upto_last c s = None.
Proof.
  induction s as [|x s IH]; cbn [upto_last]; intros Hs; [reflexivity|].
  rewrite IH by (intros E; apply Hs; now right).
  destruct (N.eqb_spec x c) as [->|_]; [exfalso; apply Hs; now left|reflexivity].
Qed.

Lemma upto_last_app c mid post :
  ~ In c post -> upto_last c (mid ++ c :: post) = Some (mid ++ [c]).
Proof.
  intros Hpost. induction mid as [|x mid IH]; cbn [upto_last app].
  - rewrite (upto_last_none _ _ Hpost). now rewrite N.eqb_refl.
  - now rewrite IH.
Qed.

Lemma upto_last_some c s p :
  upto_last c s = Some p ->
  exists mid post, p = mid ++ [c] /\ s = p ++ post /\ ~ In c post.
Proof.
  revert p. induction s as [|x s IH]; cbn [upto_last]; intros p; [discriminate|].
  destruct (upto_last c s) as [q|] eqn:E.
  - intros [= <-]. destruct (IH q eq_refl) as (mid & post & -> & -> & Hpost).
    exists (x :: mid), post. cbn. auto.
  - destruct (N.eqb_spec x c) as [->|_]; [|discriminate].
    intros [= <-]. exists [], s. cbn. repeat split; auto.
    intros Hin. clear IH. induction s as [|y s IHs]; [destruct Hin|].
    cbn [upto_last] in E.
    destruct (upto_last c s); [discriminate|].
    destruct (N.eqb_spec y c) as [->|Hne]; [discriminate|].
    destruct Hin as [->|Hin]; [congruence|auto].
Qed.

(** The match is the stretch from the first opening bracket to the
    last closing bracket. *)
Lemma match_bracketed_app pre mid post :
  ~ In 91%N pre -> ~ In 93%N post ->
  match_bracketed (pre ++ [91%N] ++ mid ++ [93%N] ++ post)
    = Some ([91%N] ++ mid ++ [93%N]).
Proof.
  intros Hpre Hpost. unfold match_bracketed. cbn [app].
  rewrite (from_first_app _ _ _ Hpre).
  now rewrite (upto_last_app _ _ _ Hpost).
Qed.

Lemma match_bracketed_some s m :
  match_bracketed s = Some m ->
  exists pre mid post,
    s = pre ++ m ++ post /\ m = [91%N] ++ mid ++ [93%N]
    /\ ~ In 91%N pre /\ ~ In 93%N post.
Proof.
  unfold match_bracketed.
  destruct (from_first 91 s) as [t|] eqn:E; [|discriminate].
  destruct (from_first_some _ _ _ E) as (pre & r & -> & -> & Hpre).
  destruct (upto_last 93 r) as [p|] eqn:E'; [|discriminate].
  cbn [option_map]. intros [= <-].
  destruct (upto_last_some _ _ _ E') as (mid & post & -> & -> & Hpost).
  exists pre, mid, post. cbn [app]. rewrite <- !app_assoc. auto.
Qed.

Lemma match_bracketed_none s :
  (forall pre mid post, s <> pre ++ [91%N] ++ mid ++ [93%N] ++ post) ->
  match_bracketed s = None.
Proof.
  intros H. destruct (match_bracketed s) as [m|] eqn:E; [|reflexivity].
  destruct (match_bracketed_some _ _ E) as (pre & mid & post & -> & -> & _).
  exfalso. apply (H pre mid post). now rewrite <- !app_assoc.
Qed.

Lemma upto_last_in c s : In c s -> upto_last c s <> None.
Proof.
  induction s as [|x s IH]; cbn [upto_last In]; [tauto|].
  destruct (upto_last c s) as [p|]; [discriminate|].
  intros [->|Hin]; [now rewrite N.eqb_refl|]. now exfalso; apply IH.
Qed.

Lemma from_first_any c pre r :
  exists r', from_first c (pre ++ c :: r) = Some (c :: r')
             /\ forall x, In x r -> In x r'.
Proof.
  induction pre as [|x pre IH]; cbn [from_first app].
  - rewrite N.eqb_refl. exists r. auto.
  - destruct (N.eqb_spec x c) as [->|_]; [|exact IH].
    exists (pre ++ c :: r). split; [reflexivity|].
    intros y Hy. apply in_or_app. right. now right.
Qed.

(** There is a match exactly when an opening bracket is followed,
    somewhere, by a closing one. *)
Lemma match_bracketed_none_iff s :
  match_bracketed s = None
  <-> forall pre mid post, s <> pre ++ [91%N] ++ mid ++ [93%N] ++ post.
Proof.
  split; [|apply match_bracketed_none].
  intros Hnone pre mid post ->. revert Hnone. unfold match_bracketed.
  cbn [app].
  destruct (from_first_any 91 pre (mid ++ 93%N :: post)) as (r' & -> & Hin).
  destruct (upto_last 93 r') as [p|] eqn:E; [discriminate|].
  intros _. apply (upto_last_in 93 r'); [|exact E].
  apply Hin. apply in_or_app. right. now left.
Qed.

End Bracketed.

(* ================================================================== *)
(** ** A text that opens with a bracket parses to an array or not at all *)

Section ParserArray.

Import JSON.

Lemma array_bottom_cons f g st :
  array_bottom (f :: g :: st) = array_bottom (g :: st).
Proof. reflexivity. Qed.

Lemma complete_array_inv v st m st' :
  array_bottom st = true ->
  complete v st = Some (m, st') -> array_inv m st' = true.
Proof.
  unfold complete. intros Hb.
  destruct st as [|f st]; [discriminate|].
  destruct f as [es|ms|k].
  - intros [= <- <-]. cbn [array_inv].
    destruct st; [reflexivity|]. now rewrite array_bottom_cons in *.
  - discriminate.
  - destruct st as [|g st]; [discriminate|].
    destruct g as [es|ms|k']; try discriminate.
    intros [= <- <-]. cbn [array_inv].
    rewrite array_bottom_cons in Hb.
    destruct st; [discriminate|]. now rewrite array_bottom_cons in *.
Qed.

Lemma start_value_array_inv t st m st' :
  array_bottom st = true ->
  start_value t st = Some (m, st') -> array_inv m st' = true.
Proof.
  intros Hb. destruct t; cbn [start_value];
    try discriminate; try apply (complete_array_inv _ _ _ _ Hb).
  - intros [= <- <-]. cbn [array_inv].
    destruct st; [discriminate|]. now rewrite array_bottom_cons.
  - intros [= <- <-]. cbn [array_inv].
    destruct st; [discriminate|]. now rewrite array_bottom_cons.
Qed.

Lemma close_array_inv st m st' :
  array_bottom st = true ->
  close_array st = Some (m, st') -> array_inv m st' = true.
Proof.
  unfold close_array. intros Hb.
  destruct st as [|f st]; [discriminate|].
  destruct f as [es|ms|k]; try discriminate.
  destruct st as [|g st].
  - cbn [complete]. now intros [= <- <-].
  - rewrite array_bottom_cons in Hb. apply (complete_array_inv _ _ _ _ Hb).
Qed.

Lemma close_object_inv st m st' :
  array_bottom st = true ->
  close_object st = Some (m, st') -> array_inv m st' = true.
Proof.
  unfold close_object. intros Hb.
  destruct st as [|f st]; [discriminate|].
  destruct f as [es|ms|k]; try discriminate.
  destruct st as [|g st]; [discriminate|].
  rewrite array_bottom_cons in Hb. apply (complete_array_inv _ _ _ _ Hb).
Qed.

Lemma step_array_inv m st t m' st' :
  array_inv m st = true ->
  step m st t = Some (m', st') -> array_inv m' st' = true.
Proof.
  intros Hinv. destruct m; cbn [array_inv] in Hinv; cbn [step].
  - apply (start_value_array_inv _ _ _ _ Hinv).
  - destruct t; try apply (start_value_array_inv _ _ _ _ Hinv).
    apply (close_array_inv _ _ _ Hinv).
  - destruct t; try discriminate. intros [= <- <-]. cbn [array_inv].
    destruct st; [discriminate|]. now rewrite array_bottom_cons.
  - destruct t; try discriminate.
    + apply (close_object_inv _ _ _ Hinv).
    + intros [= <- <-]. cbn [array_inv].
      destruct st; [discriminate|]. now rewrite array_bottom_cons.
  - destruct t; try discriminate. now intros [= <- <-].
  - destruct t; try discriminate.
    + apply (close_array_inv _ _ _ Hinv).
    + apply (close_object_inv _ _ _ Hinv).
    + destruct st as [|[es|ms|k] st]; try discriminate;
        now intros [= <- <-].
  - discriminate.
Qed.

Lemma run_array_inv ts : forall m st v,
  array_inv m st = true -> run m st ts = Some v -> is_array v = true.
Proof.
  induction ts as [|t ts IH]; intros m st v Hinv; cbn [run].
  - destruct m; try discriminate. now intros [= <-].
  - destruct (step m st t) as [[m' st']|] eqn:E; [|discriminate].
    apply (IH m' st'). apply (step_array_inv _ _ _ _ _ Hinv E).
Qed.

Lemma parse_bracket_is_array r v :
  parse (91%N :: r) = Some v -> is_array v = true.
Proof.
  unfold parse.
  change (List.length (91%N :: r)) with (S (List.length r)).
  set (f := S (List.length r)).
  change (lex (S f) (91%N :: r)) with (push TLBrack (lex f r)).
  destruct (lex f r) as [ts|]; [|discriminate].
  cbn [push option_map run step start_value].
  now apply run_array_inv.
Qed.

End ParserArray.

(* ================================================================== *)
(** ** [JSON.parse] on examples *)

Example parse_empty_array : JSON.parse (js "[]") = Some (JArray []).
Proof. reflexivity. Qed.

Example parse_card :
  JSON.parse (js "[{" ++ dq ++ js "question" ++ dq ++ js ": " ++ dq ++ js "Q1"
              ++ dq ++ js ", " ++ dq ++ js "answer" ++ dq ++ js ": " ++ dq
              ++ js "A\u0031" ++ dq ++ js "}]")
  = Some (JArray [JObject [field "question" (str "Q1");
                           field "answer" (str "A1")]]).
Proof. vm_compute. reflexivity. Qed.

Example parse_quiz_entry :
  JSON.parse (js "{" ++ dq ++ js "options" ++ dq ++ js ":[true,null,-1.5e2],"
              ++ dq ++ js "correct" ++ dq ++ js ":0}")
  = Some (JObject [field "options"
                     (JArray [JBool true; JNull; JNumber (mkNumber (-15) 1)]);
                   field "correct" (JNumber (num 0))]).
Proof. vm_compute. reflexivity. Qed.

Example parse_later_member_wins :
  JSON.parse (js "{" ++ dq ++ js "a" ++ dq ++ js ":1," ++ dq ++ js "b" ++ dq
              ++ js ":2," ++ dq ++ js "a" ++ dq ++ js ":3}")
  = Some (JObject [field "a" (JNumber (num 3)); field "b" (JNumber (num 2))]).
Proof. vm_compute. reflexivity. Qed.

Example parse_rejects :
  map JSON.parse [js ""; js "[1,]"; js "[1 2]"; js "01"; js "1."; js "[}";
                  js "nul"; js "[1,2"; js "[] x"]
  = [None; None; None; None; None; None; None; None; None].
Proof. vm_compute. reflexivity. Qed.

(* ================================================================== *)
(** ** Values of JavaScript: truth, strings, inherited members *)

(** A number literal too small for a double is 0, and so falsy: as the
    text of a reply it reads as no text at all. *)
Example tiny_number_is_falsy :
  JSON.parse (js "1e-400") = Some (JNumber (mkNumber 1 (-400)))
  /\ truthy (JSON.parse (js "1e-400")) = false
  /\ truthy (JSON.parse (js "5e-324")) = true
  /\ truthy (JSON.parse (js "-0")) = false
  /\ truthy (JSON.parse (js "1e400")) = true
  /\ fst (AIService.chat
            (always (openai_reply (JNumber (mkNumber 1 (-400)))))
            (AIService.new (js "sk-test") (js "openai")) [] None initial)
     = Returns (str "No response received").
Proof. vm_compute. repeat split; reflexivity. Qed.

(** The string of a value in a template literal. *)
Example to_string_examples :
  UseAI.to_string no_numbers (JArray [str "a"; JNull; JArray [str "b"; str "c"]])
    = Returns (js "a,,b,c")
  /\ UseAI.to_string no_numbers (JObject [field "code" (str "x")])
     = Returns (js "[object Object]")
  /\ UseAI.to_string no_numbers (JObject [field "toString" (JNumber (num 1))])
     = Throws (ExnError (js "Cannot convert object to primitive value"))
  /\ UseAI.to_string no_numbers
       (JArray [str "a"; JObject [field "toString" JNull]])
     = Throws (ExnError (js "Cannot convert object to primitive value")).
Proof. vm_compute. repeat split; reflexivity. Qed.

(** A provider identifier that names a member of Object.prototype
    selects that member: no body is built for it and [chat] throws the
    connection error without a request. *)
Example inherited_member_is_no_profile :
  AIService.getProvider (js "constructor") = AIService.builtin "Object"
  /\ AIService.getProvider (js "__proto__") = AIService.mkProvider None None None
  /\ AIService.getProvider (js "mistral") = AIService.openai
  /\ AIService.getProvider [] = AIService.openai
  /\ AIService.buildRequestBody (AIService.new (js "sk-test") (js "constructor"))
       [] (AIService.systemMessage None)
     = Throws (ExnError (js "Unsupported AI provider"))
  /\ AIService.chat (always (openai_reply (str "Hello")))
       (AIService.new (js "sk-test") (js "constructor")) [] None initial
     = (Throws (ExnAPI AIService.connection_failed), initial).
Proof. vm_compute. repeat split; reflexivity. Qed.

(* ================================================================== *)
(** ** The fuel of the lexer is never what makes it fail *)

Section LexerFuel.

Import JSON.

Lemma lex_string_shorter n : forall s acc str r,
  (List.length s <= n)%nat ->
  lex_string s acc = Some (str, r) -> (List.length r < List.length s)%nat.
Proof.
  induction n as [|n IH]; intros s acc str r Hn.
  - destruct s; [discriminate|cbn in Hn; lia].
  - destruct s as [|c s]; [discriminate|]. cbn [lex_string List.length] in *.
    destruct (N.eqb c 34); [intros [= <- <-]; lia|].
    destruct (N.eqb c 92).
    + destruct s as [|e s1]; [discriminate|].
      destruct (N.eqb e 117).
      * destruct s1 as [|h1 [|h2 [|h3 [|h4 s2]]]]; try discriminate.
        destruct (hex4 h1 h2 h3 h4); [|discriminate].
        intros H. apply IH in H; cbn [List.length] in *; lia.
      * destruct (simple_escape e); [|discriminate].
        intros H. apply IH in H; cbn [List.length] in *; lia.
    + destruct (N.ltb c 32); [discriminate|].
      intros H. apply IH in H; lia.
Qed.

Lemma span_digits_length s d r :
  span_digits s = (d, r) -> List.length s = (List.length d + List.length r)%nat.
Proof.
  revert d r. induction s as [|c s IH]; cbn [span_digits]; intros d r.
  - intros [= <- <-]. reflexivity.
  - destruct (is_digit c).
    + destruct (span_digits s) as [d' r'] eqn:E. intros [= <- <-].
      cbn [List.length]. rewrite (IH d' r' eq_refl). lia.
    + intros [= <- <-]. reflexivity.
Qed.

Lemma lex_number_shorter s n r :
  lex_number s = Some (n, r) -> (List.length r < List.length s)%nat.
Proof.
  unfold lex_number.
  set (sg := match s with
             | [] => (false, s)
             | c :: r0 => if N.eqb c 45 then (true, r0) else (false, s)
             end).
  assert (Hsg : (List.length (snd sg) <= List.length s)%nat).
  { subst sg. destruct s as [|c r0]; [cbn; lia|].
    destruct (N.eqb c 45); cbn; lia. }
  destruct sg as [neg s1]. cbn [snd] in Hsg.
  destruct (span_digits s1) as [ip s2] eqn:E1.
  apply span_digits_length in E1.
  destruct ip as [|d0 more]; [discriminate|]. cbn [List.length] in E1.
  destruct (N.eqb d0 48 && negb (is_nil more)); [discriminate|].
  assert (Hfrac : forall fp s3,
            match s2 with
            | [] => Some ([], s2)
            | c :: r0 =>
                if N.eqb c 46
                then let (fp, s3) := span_digits r0 in
                     if is_nil fp then None else Some (fp, s3)
                else Some ([], s2)
            end = Some (fp, s3) -> (List.length s3 <= List.length s2)%nat).
  { intros fp s3. destruct s2 as [|c r0]; [intros [= <- <-]; lia|].
    destruct (N.eqb c 46); [|intros [= <- <-]; lia].
    destruct (span_digits r0) as [fp' s3'] eqn:E. apply span_digits_length in E.
    destruct (is_nil fp'); [discriminate|]. intros [= <- <-].
    cbn [List.length]. lia. }
  match goal with
  | |- context [match ?frac with Some _ => _ | None => None end] =>
      destruct frac as [[fp s3]|] eqn:Ef; [|discriminate]
  end.
  specialize (Hfrac fp s3 eq_refl).
  assert (Hex : forall e s4,
            match s3 with
            | [] => Some (0%Z, s3)
            | c :: r0 =>
                if N.eqb c 101 || N.eqb c 69
                then
                  let (eneg, r1) :=
                    match r0 with
                    | [] => (false, r0)
                    | c1 :: r' =>
                        if N.eqb c1 45 then (true, r')
                        else if N.eqb c1 43 then (false, r') else (false, r0)
                    end in
                  let (ep, s4) := span_digits r1 in
                  if is_nil ep then None
                  else Some ((if eneg then - digits_value ep
                              else digits_value ep)%Z, s4)
                else Some (0%Z, s3)
            end = Some (e, s4) -> (List.length s4 <= List.length s3)%nat).
  { intros e s4. destruct s3 as [|c r0]; [intros [= <- <-]; lia|].
    destruct (N.eqb c 101 || N.eqb c 69); [|intros [= <- <-]; lia].
    set (sg' := match r0 with
                | [] => (false, r0)
                | c1 :: r' =>
                    if N.eqb c1 45 then (true, r')
                    else if N.eqb c1 43 then (false, r') else (false, r0)
                end).
    assert (Hsg' : (List.length (snd sg') <= List.length r0)%nat).
    { subst sg'. destruct r0 as [|c1 r']; [cbn; lia|].
      destruct (N.eqb c1 45); [cbn; lia|].
      destruct (N.eqb c1 43); cbn; lia. }
    destruct sg' as [eneg r1]. cbn [snd] in Hsg'.
    destruct (span_digits r1) as [ep s4'] eqn:E. apply span_digits_length in E.
    destruct (is_nil ep); [discriminate|]. intros [= <- <-].
    cbn [List.length]. lia. }
  match goal with
  | |- context [match ?ex with Some _ => _ | None => None end] =>
      destruct ex as [[e s4]|] eqn:Ee; [|discriminate]
  end.
  specialize (Hex e s4 eq_refl). intros [= <- <-]. lia.
Qed.

(** Any two amounts of fuel above the length of the text give the same
    tokens. *)
Lemma lex_fuel_irrelevant f1 : forall f2 s,
  (List.length s < f1)%nat -> (List.length s < f2)%nat -> lex f1 s = lex f2 s.
Proof.
  induction f1 as [|f1 IH]; intros f2 s H1 H2; [lia|].
  destruct f2 as [|f2]; [lia|].
  destruct s as [|c r]; [reflexivity|].
  cbn [lex]. cbn [List.length] in H1, H2.
  assert (Hr : lex f1 r = lex f2 r) by (apply IH; lia).
  destruct (is_ws c); [exact Hr|].
  repeat (match goal with
          | |- (if ?b then push ?t _ else _) = _ =>
              destruct b; [now rewrite Hr|]
          end).
  destruct (N.eqb c 34).
  { destruct (lex_string r []) as [[str r']|] eqn:E; [|reflexivity].
    apply (lex_string_shorter (List.length r)) in E; [|lia].
    now rewrite (IH f2 r') by lia. }
  destruct (N.eqb c 45 || is_digit c).
  { destruct (lex_number (c :: r)) as [[n r']|] eqn:E; [|reflexivity].
    apply lex_number_shorter in E. cbn [List.length] in E.
    now rewrite (IH f2 r') by lia. }
  destruct (starts_with (js "true") (c :: r)).
  { rewrite (IH f2 (skipn 4 (c :: r))); [reflexivity| |];
      rewrite length_skipn; cbn [List.length]; lia. }
  destruct (starts_with (js "false") (c :: r)).
  { rewrite (IH f2 (skipn 5 (c :: r))); [reflexivity| |];
      rewrite length_skipn; cbn [List.length]; lia. }
  destruct (starts_with (js "null") (c :: r)).
  { rewrite (IH f2 (skipn 4 (c :: r))); [reflexivity| |];
      rewrite length_skipn; cbn [List.length]; lia. }
  reflexivity.
Qed.

(** [JSON.parse] with any larger amount of fuel is [JSON.parse]. *)
Lemma parse_fuel_enough f text :
  (List.length text < f)%nat ->
  match lex f text with
  | Some ts => run MValue [] ts
  | None => None
  end = parse text.
Proof.
  intros Hf. unfold parse.
  now rewrite (lex_fuel_irrelevant f (S (List.length text)) text Hf) by lia.
Qed.

End LexerFuel.

(* ================================================================== *)
(** ** The unconfigured orchestrator and the empty content *)

Lemma not_configured_key cfg :
  UseAI.isConfigured cfg = false -> UseAI.apiKey cfg = [].
Proof.
  unfold UseAI.isConfigured, UseAI.aiService.
  destruct (UseAI.apiKey cfg); [reflexivity|discriminate].
Qed.

Lemma configured_key cfg :
  UseAI.isConfigured cfg = true -> exists k ks, UseAI.apiKey cfg = k :: ks.
Proof.
  unfold UseAI.isConfigured, UseAI.aiService.
  destruct (UseAI.apiKey cfg) as [|k ks]; [discriminate|eauto].
Qed.

(** C7. On an orchestrator without credentials, [generateFlashcards]
    called twice in a row returns the same fixed demo deck both times,
    whatever the state it is called in, and leaves that state as it
    was. *)
Theorem unconfigured_flashcards_twice fetch nts cfg rc st :
  UseAI.isConfigured cfg = false ->
  let first := UseAI.generateFlashcards fetch nts cfg rc st in
  let second := UseAI.generateFlashcards fetch nts cfg rc (snd first) in
  fst first = Returns UseAI.unconfigured_flashcards
  /\ fst second = fst first
  /\ snd second = st.
Proof.
  intros Hc. apply not_configured_key in Hc.
  unfold UseAI.generateFlashcards.
  rewrite (aiService_unconfigured _ Hc). cbn. auto.
Qed.

Lemma unconfigured_flashcards_twice_witness :
  UseAI.isConfigured unconfigured = false
  /\ fst (UseAI.generateFlashcards (always AIService.Rejected) no_numbers
            unconfigured (Some (js "notes"))
            (snd (UseAI.generateFlashcards (always AIService.Rejected) no_numbers
                    unconfigured (Some (js "notes")) initial)))
     = fst (UseAI.generateFlashcards (always AIService.Rejected) no_numbers
              unconfigured (Some (js "notes")) initial).
Proof.
  split; [reflexivity|].
  apply (unconfigured_flashcards_twice (always AIService.Rejected) no_numbers
           unconfigured (Some (js "notes")) initial).
  reflexivity.
Defined.

(** C9. With credentials but an empty content string, [generateSummary],
    [generateFlashcards] and [generateQuiz] each return their fixed demo
    artifact and leave the state, and with it the log of requests, as
    it was: no provider call is made. The run is the one of an absent
    content. *)
Theorem empty_content_returns_demo fetch nts cfg st :
  UseAI.isConfigured cfg = true ->
  UseAI.generateSummary fetch nts cfg (Some []) st
    = (Returns UseAI.demo_summary, st)
  /\ UseAI.generateFlashcards fetch nts cfg (Some []) st
    = (Returns UseAI.no_content_flashcards, st)
  /\ UseAI.generateQuiz fetch nts cfg (Some []) st
    = (Returns UseAI.no_content_quiz, st)
  /\ UseAI.generateSummary fetch nts cfg (Some []) st
    = UseAI.generateSummary fetch nts cfg None st
  /\ UseAI.generateFlashcards fetch nts cfg (Some []) st
    = UseAI.generateFlashcards fetch nts cfg None st
  /\ UseAI.generateQuiz fetch nts cfg (Some []) st
    = UseAI.generateQuiz fetch nts cfg None st.
Proof.
  intros Hc. destruct (configured_key _ Hc) as (k & ks & Hk).
  unfold UseAI.generateSummary, UseAI.generateFlashcards, UseAI.generateQuiz.
  rewrite (aiService_configured _ _ _ Hk).
  repeat split; reflexivity.
Qed.

Lemma empty_content_returns_demo_witness :
  UseAI.isConfigured configured = true
  /\ UseAI.generateSummary (always AIService.Rejected) no_numbers configured
       (Some []) initial = (Returns UseAI.demo_summary, initial)
  /\ requests (snd (UseAI.generateQuiz (always AIService.Rejected) no_numbers
                      configured (Some []) initial)) = [].
Proof.
  destruct (empty_content_returns_demo (always AIService.Rejected) no_numbers
              configured initial eq_refl) as (Hs & _ & Hq & _).
  split; [reflexivity|]. split; [exact Hs|]. now rewrite Hq.
Defined.

(** C2, the claim as stated, at the summary: without credentials
    [generateSummary] does not return demo content, it throws the
    classified error. *)
Lemma unconfigured_summary_throws :
  UseAI.generateSummary (always AIService.Rejected) no_numbers unconfigured
    (Some (js "notes")) initial
  = (Throws (ExnAPI UseAI.not_configured), initial).
Proof. reflexivity. Qed.

(** C2, amended. Without credentials no operation hands a request to
    [fetch] (the state, and with it the log of requests, is left as it
    was): [generateFlashcards] and [generateQuiz] return their fixed demo
    content, and [sendChatMessage] and [generateSummary] both throw the
    classified error of kind auth with message AI service not
    configured. *)
Theorem unconfigured_makes_no_call fetch nts cfg rc st msg hist :
  UseAI.isConfigured cfg = false ->
  UseAI.generateFlashcards fetch nts cfg rc st
    = (Returns UseAI.unconfigured_flashcards, st)
  /\ UseAI.generateQuiz fetch nts cfg rc st
    = (Returns UseAI.unconfigured_quiz, st)
  /\ UseAI.sendChatMessage fetch cfg rc msg hist st
    = (Throws (ExnAPI UseAI.not_configured), st)
  /\ UseAI.generateSummary fetch nts cfg rc st
    = (Throws (ExnAPI UseAI.not_configured), st)
  /\ type UseAI.not_configured = auth
  /\ message UseAI.not_configured = str "AI service not configured".
Proof.
  intros Hc. apply not_configured_key in Hc.
  unfold UseAI.generateFlashcards, UseAI.generateQuiz, UseAI.sendChatMessage,
    UseAI.generateSummary.
  rewrite (aiService_unconfigured _ Hc).
  repeat split; reflexivity.
Qed.

Lemma unconfigured_makes_no_call_witness :
  UseAI.isConfigured unconfigured = false
  /\ UseAI.sendChatMessage (always AIService.Rejected) unconfigured
       (Some (js "notes")) (js "hi") [] initial
     = (Throws (ExnAPI UseAI.not_configured), initial).
Proof.
  split; [reflexivity|].
  apply (unconfigured_makes_no_call (always AIService.Rejected) no_numbers
           unconfigured (Some (js "notes")) initial (js "hi") []).
  reflexivity.
Defined.

(* ================================================================== *)
(** ** What the generators return *)

Lemma extract_or_cases fallback r :
  extract_or fallback r = fallback
  \/ exists text m,
       r = Returns (JString text)
       /\ AIService.match_bracketed text = Some m
       /\ JSON.parse m = Some (extract_or fallback r)
       /\ is_array (extract_or fallback r) = true.
Proof.
  unfold extract_or.
  destruct r as [v|e]; [|now left].
  destruct v as [| | |text| |]; try now left.
  destruct (AIService.match_bracketed text) as [m|] eqn:Em; [|now left].
  destruct (JSON.parse m) as [v|] eqn:Ep; [|now left].
  right. exists text, m. repeat split; auto.
  destruct (match_bracketed_some _ _ Em) as (pre & mid & post & _ & -> & _).
  apply (parse_bracket_is_array _ _ Ep).
Qed.

Lemma is_array_inv v : is_array v = true -> exists l, v = JArray l.
Proof. destruct v; try discriminate. eauto. Qed.

Lemma fallback_flashcards_well_formed content :
  well_formed is_flashcard (AIService.createFallbackFlashcards content) = true.
Proof. reflexivity. Qed.

Lemma fallback_quiz_well_formed content :
  well_formed is_quiz_question (AIService.createFallbackQuiz content) = true.
Proof. reflexivity. Qed.

(** C1, the claim as stated, at a reply that carries an empty array: the
    call succeeds, the bracketed part parses, and [generateFlashcards]
    and [generateQuiz] return the empty sequence, which is not a
    non-empty sequence of well-shaped elements. *)
Lemma empty_array_reply_gives_empty_deck :
  fst (UseAI.generateFlashcards (always (openai_reply (str "Here you go: []")))
         no_numbers configured (Some (js "notes")) initial)
  = Returns (JArray [])
  /\ fst (UseAI.generateQuiz (always (openai_reply (str "Here you go: []")))
            no_numbers configured (Some (js "notes")) initial)
     = Returns (JArray [])
  /\ well_formed is_flashcard (JArray []) = false
  /\ well_formed is_quiz_question (JArray []) = false.
Proof. vm_compute. repeat split; reflexivity. Qed.

(** C1, amended. For every content, every configuration and every
    outcome of the provider call, [generateFlashcards] and [generateQuiz]
    return (they never throw) and what they return is a sequence. The
    sequence is either the fixed demo or fallback content, which is
    non-empty and whose every element has the shape of the operation,
    or the array parsed from the bracketed part of the text the provider
    replied with, returned as parsed: nothing checks its length or the
    shape of its elements. *)
Theorem generators_return_sequences fetch nts cfg rc st :
  (exists l st',
      UseAI.generateFlashcards fetch nts cfg rc st = (Returns (JArray l), st')
      /\ (well_formed is_flashcard (JArray l) = true
          \/ exists svc payload text m,
               settle svc (fetch (requests st) (chat_request svc payload))
                 = Returns (JString text)
               /\ AIService.match_bracketed text = Some m
               /\ JSON.parse m = Some (JArray l)))
  /\ (exists l st',
      UseAI.generateQuiz fetch nts cfg rc st = (Returns (JArray l), st')
      /\ (well_formed is_quiz_question (JArray l) = true
          \/ exists svc payload text m,
               settle svc (fetch (requests st) (chat_request svc payload))
                 = Returns (JString text)
               /\ AIService.match_bracketed text = Some m
               /\ JSON.parse m = Some (JArray l))).
Proof.
  destruct (UseAI.apiKey cfg) as [|k ks] eqn:Hk.
  - unfold UseAI.generateFlashcards, UseAI.generateQuiz.
    rewrite (aiService_unconfigured _ Hk).
    split; eexists _, st; (split; [reflexivity|now left]).
  - assert (Hnc : rc = None \/ rc = Some [] \/ exists x r, rc = Some (x :: r)).
    { destruct rc as [[|x r]|]; eauto. }
    destruct Hnc as [-> | [-> | (x & r & ->)]].
    + unfold UseAI.generateFlashcards, UseAI.generateQuiz.
      rewrite (aiService_configured _ _ _ Hk).
      split; eexists _, st; (split; [reflexivity|now left]).
    + unfold UseAI.generateFlashcards, UseAI.generateQuiz.
      rewrite (aiService_configured _ _ _ Hk).
      split; eexists _, st; (split; [reflexivity|now left]).
    + set (svc := AIService.new (UseAI.apiKey cfg) (UseAI.provider cfg)).
      split.
      * destruct (AIService.buildRequestBody svc
                    [AIService.mkMessage AIService.user
                       (AIService.flashcards_prompt (x :: r))]
                    (AIService.systemMessage None)) as [payload|e0] eqn:Hb.
        2: { rewrite (hook_flashcards_unbuilt fetch nts cfg k ks x r st e0 Hk Hb).
             eexists _, _. split; [reflexivity|now left]. }
        rewrite (hook_flashcards_run fetch nts cfg k ks x r st payload Hk Hb).
        fold svc.
        destruct (extract_or_cases (AIService.createFallbackFlashcards (x :: r))
                    (settle svc (fetch (requests st) (chat_request svc payload))))
          as [-> | (text & m & Hr & Hm & Hp & Ha)].
        -- eexists _, _. split; [reflexivity|now left].
        -- destruct (is_array_inv _ Ha) as [l Hl]. rewrite Hl in *.
           exists l. eexists. split; [reflexivity|].
           right. exists svc, payload, text, m. auto.
      * destruct (AIService.buildRequestBody svc
                    [AIService.mkMessage AIService.user
                       (AIService.quiz_prompt (x :: r))]
                    (AIService.systemMessage None)) as [payload|e0] eqn:Hb.
        2: { rewrite (hook_quiz_unbuilt fetch nts cfg k ks x r st e0 Hk Hb).
             eexists _, _. split; [reflexivity|now left]. }
        rewrite (hook_quiz_run fetch nts cfg k ks x r st payload Hk Hb).
        fold svc.
        destruct (extract_or_cases (AIService.createFallbackQuiz (x :: r))
                    (settle svc (fetch (requests st) (chat_request svc payload))))
          as [-> | (text & m & Hr & Hm & Hp & Ha)].
        -- eexists _, _. split; [reflexivity|now left].
        -- destruct (is_array_inv _ Ha) as [l Hl]. rewrite Hl in *.
           exists l. eexists. split; [reflexivity|].
           right. exists svc, payload, text, m. auto.
Qed.

(* ================================================================== *)
(** ** The recorded error state *)

(** Whatever the provider call comes to, the generators of flashcards
    and quizzes end with a null error state: the service has already
    replaced the failure by its fallback, so the catch clause of the hook
    that would record it never runs. *)
Lemma generators_end_with_null_error fetch nts cfg x r st :
  UseAI.isConfigured cfg = true ->
  error (snd (UseAI.generateFlashcards fetch nts cfg (Some (x :: r)) st)) = None
  /\ error (snd (UseAI.generateQuiz fetch nts cfg (Some (x :: r)) st)) = None.
Proof.
  intros Hc. destruct (configured_key _ Hc) as (k & ks & Hk). split.
  - destruct (AIService.buildRequestBody
                (AIService.new (UseAI.apiKey cfg) (UseAI.provider cfg))
                [AIService.mkMessage AIService.user
                   (AIService.flashcards_prompt (x :: r))]
                (AIService.systemMessage None)) as [payload|e0] eqn:Hb.
    + now rewrite (hook_flashcards_run fetch nts cfg k ks x r st payload Hk Hb).
    + now rewrite (hook_flashcards_unbuilt fetch nts cfg k ks x r st e0 Hk Hb).
  - destruct (AIService.buildRequestBody
                (AIService.new (UseAI.apiKey cfg) (UseAI.provider cfg))
                [AIService.mkMessage AIService.user
                   (AIService.quiz_prompt (x :: r))]
                (AIService.systemMessage None)) as [payload|e0] eqn:Hb.
    + now rewrite (hook_quiz_run fetch nts cfg k ks x r st payload Hk Hb).
    + now rewrite (hook_quiz_unbuilt fetch nts cfg k ks x r st e0 Hk Hb).
Qed.

(** The sibling path: a failed call of [generateSummary] is recorded. *)
Lemma failed_summary_records_error :
  error (snd (UseAI.generateSummary (always AIService.Rejected) no_numbers
                configured (Some (js "notes")) initial))
  = Some AIService.connection_failed.
Proof. vm_compute. reflexivity. Qed.

(** C4, at a provider call that fails outright (the transport rejects):
    [chat] throws the connection error, [generateFlashcards] returns the
    fixed fallback deck of the service after its one request, and the
    recorded error state is null, not the error of the failed call. *)
Theorem failed_call_leaves_error_null :
  let run := UseAI.generateFlashcards (always AIService.Rejected) no_numbers
               configured (Some (js "notes")) initial in
  fst (AIService.chat (always AIService.Rejected)
         (AIService.new (js "sk-test") (js "openai"))
         [AIService.mkMessage AIService.user
            (AIService.flashcards_prompt (js "notes"))]
         None (mkState true None []))
    = Throws (ExnAPI AIService.connection_failed)
  /\ fst run = Returns (AIService.createFallbackFlashcards (js "notes"))
  /\ List.length (requests (snd run)) = 1%nat
  /\ error (snd run) = None.
Proof. vm_compute. repeat split; reflexivity. Qed.

(* ================================================================== *)
(** ** JSON extraction *)

Lemma not_in_check (c : N) (l : list N) :
  forallb (fun x => negb (N.eqb x c)) l = true -> ~ In c l.
Proof.
  induction l as [|x l IH]; cbn [forallb In]; [tauto|].
  intros H. apply andb_prop in H. destruct H as [Hx Hl].
  intros [->|Hin]; [|now apply IH].
  now rewrite N.eqb_refl in Hx.
Qed.

(** C6. The text taken out of a reply is the stretch from its first
    opening bracket to its last closing bracket, both included. When the
    reply is prose, one bracketed array, prose, [generateFlashcards] and
    [generateQuiz] return what [JSON.parse] makes of that stretch (and
    the fallback when it does not parse); when the reply has no such
    stretch they return the fallback. *)
Theorem bracketed_array_is_extracted fetch svc content st st' reply :
  (AIService.chat fetch svc
     [AIService.mkMessage AIService.user (AIService.flashcards_prompt content)]
     None st = (Returns (JString reply), st') ->
   (forall pre mid post,
       reply = pre ++ [91%N] ++ mid ++ [93%N] ++ post ->
       ~ In 91%N pre -> ~ In 93%N post ->
       AIService.match_bracketed reply = Some ([91%N] ++ mid ++ [93%N])
       /\ AIService.generateFlashcards fetch svc content st
          = (Returns match JSON.parse ([91%N] ++ mid ++ [93%N]) with
                     | Some v => v
                     | None => AIService.createFallbackFlashcards content
                     end, st'))
   /\ ((forall pre mid post, reply <> pre ++ [91%N] ++ mid ++ [93%N] ++ post) ->
       AIService.generateFlashcards fetch svc content st
       = (Returns (AIService.createFallbackFlashcards content), st')))
  /\ (AIService.chat fetch svc
        [AIService.mkMessage AIService.user (AIService.quiz_prompt content)]
        None st = (Returns (JString reply), st') ->
      (forall pre mid post,
          reply = pre ++ [91%N] ++ mid ++ [93%N] ++ post ->
          ~ In 91%N pre -> ~ In 93%N post ->
          AIService.match_bracketed reply = Some ([91%N] ++ mid ++ [93%N])
          /\ AIService.generateQuiz fetch svc content st
             = (Returns match JSON.parse ([91%N] ++ mid ++ [93%N]) with
                        | Some v => v
                        | None => AIService.createFallbackQuiz content
                        end, st'))
      /\ ((forall pre mid post, reply <> pre ++ [91%N] ++ mid ++ [93%N] ++ post) ->
          AIService.generateQuiz fetch svc content st
          = (Returns (AIService.createFallbackQuiz content), st'))).
Proof.
  split; intros Hchat.
  - rewrite (service_flashcards_run fetch svc content st _ _ Hchat).
    unfold extract_or. split.
    + intros pre mid post -> Hpre Hpost.
      now rewrite (match_bracketed_app pre mid post Hpre Hpost).
    + intros Hno. now rewrite (match_bracketed_none _ Hno).
  - rewrite (service_quiz_run fetch svc content st _ _ Hchat).
    unfold extract_or. split.
    + intros pre mid post -> Hpre Hpost.
      now rewrite (match_bracketed_app pre mid post Hpre Hpost).
    + intros Hno. now rewrite (match_bracketed_none _ Hno).
Qed.

Lemma bracketed_array_is_extracted_witness :
  let reply := js "Intro text [{" ++ dq ++ js "question" ++ dq ++ js ":"
               ++ dq ++ js "Q1" ++ dq ++ js "," ++ dq ++ js "answer" ++ dq
               ++ js ":" ++ dq ++ js "A1" ++ dq ++ js "}] trailing" in
  let prose := js "I cannot help with that." in
  let svc := AIService.new (js "sk-test") (js "openai") in
  fst (AIService.chat (always (openai_reply (JString reply))) svc
         [AIService.mkMessage AIService.user
            (AIService.flashcards_prompt (js "notes"))] None initial)
    = Returns (JString reply)
  /\ fst (AIService.generateFlashcards (always (openai_reply (JString reply)))
            svc (js "notes") initial)
     = Returns (JArray [JObject [field "question" (str "Q1");
                                 field "answer" (str "A1")]])
  /\ fst (AIService.generateQuiz (always (openai_reply (JString prose)))
            svc (js "notes") initial)
     = Returns (AIService.createFallbackQuiz (js "notes")).
Proof.
  intros reply prose svc.
  split; [vm_compute; reflexivity|]. split.
  - destruct (bracketed_array_is_extracted
                (always (openai_reply (JString reply))) svc (js "notes") initial
                (snd (AIService.chat (always (openai_reply (JString reply))) svc
                        [AIService.mkMessage AIService.user
                           (AIService.flashcards_prompt (js "notes"))]
                        None initial))
                reply) as [Hf _].
    destruct (Hf ltac:(vm_compute; reflexivity)) as [Hyes _].
    destruct (Hyes (js "Intro text ")
                (js "{" ++ dq ++ js "question" ++ dq ++ js ":"
                 ++ dq ++ js "Q1" ++ dq ++ js "," ++ dq ++ js "answer" ++ dq
                 ++ js ":" ++ dq ++ js "A1" ++ dq ++ js "}")
                (js " trailing") eq_refl
                ltac:(apply not_in_check; reflexivity)
                ltac:(apply not_in_check; reflexivity)) as [_ Hrun].
    rewrite Hrun. reflexivity.
  - destruct (bracketed_array_is_extracted
                (always (openai_reply (JString prose))) svc (js "notes") initial
                (snd (AIService.chat (always (openai_reply (JString prose))) svc
                        [AIService.mkMessage AIService.user
                           (AIService.quiz_prompt (js "notes"))]
                        None initial))
                prose) as [_ Hq].
    destruct (Hq ltac:(vm_compute; reflexivity)) as [_ Hno].
    rewrite Hno; [reflexivity|].
    apply match_bracketed_none_iff. vm_compute. reflexivity.
Defined.

(* ================================================================== *)
(** ** The error classifier *)

(** On every body but [null] whose vendor message is a string (or is
    absent, and then reads Unknown error), the classifier returns, and
    what it returns depends on the status and that message alone. *)
Lemma parseError_classifies status errorData text :
  errorData <> JNull ->
  AIService.error_message errorData = JString text ->
  AIService.parseError status errorData =
    Returns
      (if Z.eqb status 401 then
         mkAPIError auth (str "Invalid API key")
           (js "Please check your API key in Settings and make sure it's correct.")
       else if Z.eqb status 429 then
         if includes text (js "quota") || includes text (js "billing")
         then billing_error else rate_limit_error
       else if Z.eqb status 500 || Z.eqb status 502 || Z.eqb status 503 then
         mkAPIError network (str "Service temporarily unavailable")
           (js "Please try again in a few moments.")
       else
         mkAPIError unknown (JString text)
           (js "Please try again or contact support if the issue persists.")).
Proof.
  intros Hnn Hmsg. unfold AIService.parseError. rewrite Hmsg.
  destruct errorData; try congruence;
    (destruct (Z.eqb status 401); [reflexivity|];
     destruct (Z.eqb status 429);
     [ cbn [AIService.includes_any];
       destruct (includes text (js "quota")); [reflexivity|];
       destruct (includes text (js "billing")); reflexivity
     | destruct (Z.eqb status 500 || Z.eqb status 502 || Z.eqb status 503);
       reflexivity ]).
Qed.

(** The statuses 401, 500, 502 and 503 are classified on every body but
    [null], whatever its message, and every status other than these and
    429 gives kind unknown with the vendor message. *)
Lemma parseError_fixed_statuses status errorData :
  errorData <> JNull ->
  (status = 401%Z ->
   AIService.parseError status errorData
   = Returns (mkAPIError auth (str "Invalid API key")
                (js "Please check your API key in Settings and make sure it's correct.")))
  /\ (status = 500%Z \/ status = 502%Z \/ status = 503%Z ->
      AIService.parseError status errorData
      = Returns (mkAPIError network (str "Service temporarily unavailable")
                   (js "Please try again in a few moments.")))
  /\ (~ In status [401; 429; 500; 502; 503]%Z ->
      AIService.parseError status errorData
      = Returns (mkAPIError unknown (AIService.error_message errorData)
                   (js "Please try again or contact support if the issue persists."))).
Proof.
  intros Hnn. repeat split.
  - intros ->. destruct errorData; try congruence; reflexivity.
  - intros [-> | [-> | ->]]; destruct errorData; try congruence; reflexivity.
  - intros Hs. cbn [In] in Hs.
    assert (E1 : Z.eqb status 401 = false) by (apply Z.eqb_neq; intuition).
    assert (E2 : Z.eqb status 429 = false) by (apply Z.eqb_neq; intuition).
    assert (E3 : Z.eqb status 500 = false) by (apply Z.eqb_neq; intuition).
    assert (E4 : Z.eqb status 502 = false) by (apply Z.eqb_neq; intuition).
    assert (E5 : Z.eqb status 503 = false) by (apply Z.eqb_neq; intuition).
    unfold AIService.parseError. rewrite E1, E2, E3, E4, E5.
    destruct errorData; try congruence; reflexivity.
Qed.

(** C3, at a body that is the JSON value [null]: reading the message
    throws before the status is looked at, so status 401 is not
    classified as auth, and [chat] reports the response as a failed
    connection. A message that is a number makes the search of status
    429 throw in the same way. *)
Theorem null_error_body_is_not_classified :
  AIService.parseError 401 JNull
    = Throws (ExnError (js "Cannot read properties of null (reading 'error')"))
  /\ fst (AIService.chat (always (AIService.Response 401 (Some JNull)))
            (AIService.new (js "sk-test") (js "openai")) [] None initial)
     = Throws (ExnAPI AIService.connection_failed)
  /\ AIService.parseError 429
       (JObject [field "error" (JObject [field "message" (JNumber (num 42))])])
     = Throws (ExnError (js "errorMessage.includes is not a function")).
Proof. vm_compute. repeat split; reflexivity. Qed.

(* ================================================================== *)
(** ** The headers of a request *)

Lemma build_total_profile svc messages sys :
  In (AIService.provider svc) profiles ->
  exists payload, AIService.buildRequestBody svc messages sys = Returns payload.
Proof.
  unfold AIService.buildRequestBody, profiles.
  intros [<- | [<- | [<- | []]]];
    cbn [AIService.name AIService.openai AIService.anthropic AIService.google];
    decide_names; eexists; reflexivity.
Qed.

Lemma chat_sends_one_request fetch svc messages ctx st payload :
  AIService.buildRequestBody svc messages (AIService.systemMessage ctx)
    = Returns payload ->
  requests (snd (AIService.chat fetch svc messages ctx st))
    = requests st ++ [chat_request svc payload].
Proof. intros Hb. now rewrite (chat_settles fetch svc messages ctx payload st Hb). Qed.

(** C5, at Anthropic. The one request [chat] sends carries the x-api-key
    header with the credential and the anthropic-version header, and it
    carries an Authorization header with the credential as a bearer
    token as well: the headers literal of [chat] starts with that header
    for every provider and nothing takes it out. The connection test of
    the setup page, which builds the headers for the same vendor from
    the same credential, deletes it. *)
Theorem anthropic_request_has_authorization :
  let sent := requests (snd (AIService.chat (always AIService.Rejected)
                               (AIService.new (js "sk-test") (js "anthropic"))
                               [] None initial)) in
  let probe := Setup.test_headers
                 (Setup.mkSetup (js "sk-test") (js "anthropic") false Setup.idle) in
  map (fun r => header (js "Authorization") (headers r)) sent
    = [Some (js "Bearer sk-test")]
  /\ map (fun r => header (js "x-api-key") (headers r)) sent
     = [Some (js "sk-test")]
  /\ map (fun r => header (js "anthropic-version") (headers r)) sent
     = [Some (js "2023-06-01")]
  /\ header (js "Authorization") probe = None
  /\ header (js "x-api-key") probe = Some (js "sk-test")
  /\ header (js "anthropic-version") probe = Some (js "2023-06-01").
Proof. vm_compute. repeat split; reflexivity. Qed.

(** The headers of the request [chat] sends, for each of the three
    profiles: the credential as a bearer token in the Authorization
    header, and for Anthropic in addition the x-api-key header with the
    credential and the anthropic-version header, which the requests to
    OpenAI and Google do not carry. *)
Lemma chat_request_headers fetch key p messages ctx st :
  In p profiles ->
  let svc := AIService.mkService key p in
  exists payload,
    requests (snd (AIService.chat fetch svc messages ctx st))
      = requests st ++ [chat_request svc payload]
    /\ header (js "Authorization") (headers (chat_request svc payload))
       = Some (js "Bearer " ++ key)
    /\ (p = AIService.anthropic ->
        header (js "x-api-key") (headers (chat_request svc payload)) = Some key
        /\ header (js "anthropic-version") (headers (chat_request svc payload))
           = Some (js "2023-06-01"))
    /\ (p <> AIService.anthropic ->
        header (js "x-api-key") (headers (chat_request svc payload)) = None
        /\ header (js "anthropic-version") (headers (chat_request svc payload))
           = None).
Proof.
  intros Hp svc.
  destruct (build_total_profile svc messages (AIService.systemMessage ctx) Hp)
    as [payload Hb].
  exists payload. split; [now apply chat_sends_one_request|].
  unfold profiles in Hp. subst svc.
  destruct Hp as [<- | [<- | [<- | []]]].
  - split; [reflexivity|]. split; [discriminate|]. intros _. split; reflexivity.
  - split; [reflexivity|]. split; [intros _; split; reflexivity|].
    intros H. now exfalso.
  - split; [reflexivity|]. split; [discriminate|]. intros _. split; reflexivity.
Qed.

Lemma chat_request_headers_witness :
  In AIService.anthropic profiles
  /\ exists payload,
       requests (snd (AIService.chat (always AIService.Rejected)
                        (AIService.mkService (js "sk-test") AIService.anthropic)
                        [] None initial))
       = [chat_request (AIService.mkService (js "sk-test") AIService.anthropic)
            payload]
       /\ header (js "x-api-key")
            (headers (chat_request
                        (AIService.mkService (js "sk-test") AIService.anthropic)
                        payload))
          = Some (js "sk-test").
Proof.
  assert (Hin : In AIService.anthropic profiles) by (right; left; reflexivity).
  split; [exact Hin|].
  destruct (chat_request_headers (always AIService.Rejected) (js "sk-test")
              AIService.anthropic [] None initial Hin)
    as (payload & Hreq & _ & Hx & _).
  exists payload. split; [exact Hreq|]. now apply Hx.
Defined.

(* ================================================================== *)
(** ** The text of a successful response *)

Lemma or_no_response_not_empty tv : AIService.or_no_response tv <> JString [].
Proof.
  unfold AIService.or_no_response, js_or.
  destruct (truthy tv) eqn:Ht.
  - destruct tv as [v|]; [|discriminate].
    intros ->. discriminate.
  - discriminate.
Qed.

Lemma or_no_response_absent_or_empty tv :
  tv = None \/ tv = Some (JString []) ->
  AIService.or_no_response tv = str "No response received".
Proof. intros [-> | ->]; reflexivity. Qed.

Lemma extractResponse_not_empty svc data v :
  AIService.extractResponse svc data = Returns v -> v <> JString [].
Proof.
  unfold AIService.extractResponse.
  destruct (AIService.text_path (AIService.name (AIService.provider svc)) data)
    as [[tv|e]|]; try discriminate.
  - intros [= <-]. apply or_no_response_not_empty.
  - intros [= <-]. discriminate.
Qed.

(** On a body other than [null]: when the provider answers a request
    of [chat] with a 2xx status and a body whose text path reads as
    absent ([undefined]) or as the empty string, [chat] returns the
    literal No response received; and whatever [chat] returns, for any
    provider identifier, it is never the empty string. *)
Lemma empty_text_reads_no_response fetch key ty messages ctx st :
  let svc := AIService.new key ty in
  (selects_profile ty = true ->
   forall status data tv,
      (forall req, fetch (requests st) req = AIService.Response status (Some data)) ->
      AIService.ok status = true ->
      AIService.text_path (AIService.name (AIService.provider svc)) data
        = Some (Returns tv) ->
      tv = None \/ tv = Some (JString []) ->
      fst (AIService.chat fetch svc messages ctx st)
        = Returns (str "No response received"))
  /\ (forall v,
         fst (AIService.chat fetch svc messages ctx st) = Returns v ->
         v <> JString []).
Proof.
  intros svc.
  destruct (AIService.buildRequestBody svc messages (AIService.systemMessage ctx))
    as [payload|e0] eqn:Hb.
  2: { rewrite (chat_build_fails fetch svc messages ctx st e0 Hb). cbn [fst].
       split; [|discriminate].
       intros Hty. destruct (build_total key ty messages
                               (AIService.systemMessage ctx) Hty) as [p Hp].
       fold svc in Hp. congruence. }
  rewrite (chat_settles fetch svc messages ctx payload st Hb). cbn [fst].
  split.
  - intros _ status data tv Hf Hok Hpath Htv.
    rewrite Hf. unfold settle. rewrite Hok.
    unfold AIService.extractResponse. rewrite Hpath.
    now rewrite (or_no_response_absent_or_empty tv Htv).
  - intros v. unfold settle.
    destruct (fetch (requests st) (chat_request svc payload)) as [|status pl];
      [discriminate|].
    destruct (AIService.ok status).
    + destruct pl as [data|]; [|discriminate].
      destruct (AIService.extractResponse svc data) as [w|e] eqn:E;
        [|discriminate].
      intros [= <-]. apply (extractResponse_not_empty svc data w E).
    + match goal with
      | |- context [AIService.parseError ?s ?d] =>
          destruct (AIService.parseError s d); discriminate
      end.
Qed.

(** For each of the three providers, the text path of a body is absent
    when the body is an object without the first property of the path,
    and [chat] then returns the literal. *)
Lemma missing_first_property_reads_no_response fetch key p messages ctx st status :
  In p profiles ->
  (forall req, fetch (requests st) req = AIService.Response status (Some (JObject []))) ->
  AIService.ok status = true ->
  fst (AIService.chat fetch (AIService.mkService key p) messages ctx st)
  = Returns (str "No response received").
Proof.
  intros Hp Hf Hok.
  destruct (build_total_profile (AIService.mkService key p) messages
              (AIService.systemMessage ctx) Hp) as [payload Hb].
  rewrite (chat_settles fetch _ messages ctx payload st Hb). cbn [fst].
  rewrite Hf. unfold settle. rewrite Hok.
  unfold profiles in Hp.
  destruct Hp as [<- | [<- | [<- | []]]]; reflexivity.
Qed.

(** C10, at a 2xx response whose body is the JSON value [null]. The
    text path of such a body is absent, but its first property is read
    without a guard, so [extractResponse] throws instead of returning
    the literal No response received, and [chat] reports the successful
    response as a failed connection; this for each of the three
    providers. A body that is an empty object, whose path is absent in
    the same way, gives the literal. *)
Theorem null_response_body_is_not_read :
  let reply := always (AIService.Response 200 (Some JNull)) in
  AIService.extractResponse (AIService.new (js "sk-test") (js "openai")) JNull
    = Throws (ExnError (js "Cannot read properties of null"))
  /\ fst (AIService.chat reply (AIService.new (js "sk-test") (js "openai"))
            [] None initial)
     = Throws (ExnAPI AIService.connection_failed)
  /\ fst (AIService.chat reply (AIService.new (js "sk-test") (js "anthropic"))
            [] None initial)
     = Throws (ExnAPI AIService.connection_failed)
  /\ fst (AIService.chat reply (AIService.new (js "sk-test") (js "google"))
            [] None initial)
     = Throws (ExnAPI AIService.connection_failed)
  /\ fst (AIService.chat (always (AIService.Response 200 (Some (JObject []))))
            (AIService.new (js "sk-test") (js "openai")) [] None initial)
     = Returns (str "No response received").
Proof. vm_compute. repeat split; reflexivity. Qed.

(* ================================================================== *)
(** ** The system instruction and the history of a request *)

Lemma filter_non_system_idem (l : list AIService.ChatMessage) :
  filter non_system (filter non_system l) = filter non_system l.
Proof.
  induction l as [|m l IH]; [reflexivity|].
  cbn [filter]. destruct (non_system m) eqn:E; [|exact IH].
  cbn [filter]. rewrite E. now rewrite IH.
Qed.

Lemma build_ignores_system svc messages sys :
  AIService.buildRequestBody svc (filter non_system messages) sys
  = AIService.buildRequestBody svc messages sys.
Proof.
  unfold AIService.buildRequestBody.
  change (fun m : AIService.ChatMessage =>
            negb (AIService.role_eqb (AIService.role_of m) AIService.system))
    with non_system.
  now rewrite filter_non_system_idem.
Qed.

Lemma kept_role_is_not_system m :
  non_system m = true ->
  entry_role (AIService.message_json m) <> Some (str "system").
Proof.
  unfold non_system. destruct m as [[| |] c]; cbn; try discriminate.
Qed.

(** C8, the claim as stated, at a grounding content that is the empty
    string: the content is supplied, but the system instruction of the
    request is the generic one, not the template around the first 1000
    code units of the content. *)
Lemma empty_grounding_gets_generic_instruction :
  let sent := requests (snd (AIService.chat (always AIService.Rejected)
                               (AIService.new (js "sk-test") (js "openai"))
                               [] (Some []) initial)) in
  map (fun r => body_system (Some (js "OpenAI")) (body r)) sent
    = [Some (str "You are an AI learning assistant. Help the user with their questions.")]
  /\ str "You are an AI learning assistant. Help the user with their questions."
     <> JString (js "You are an AI learning assistant. Help the user understand and learn from this content: "
                 ++ firstn 1000 [] ++ js "...").
Proof. vm_compute. split; [reflexivity|discriminate]. Qed.

(** C8, amended. For every history and every grounding content, and for
    a provider identifier that selects one of the three profiles, [chat]
    sends one request whose body is the one built from the history
    without its system messages: the system instruction sits in the
    vendor's place for it and is the template around the first 1000 code
    units of the grounding content when that content is a string that is
    not empty, and the generic instruction when the content is absent or
    is the empty string; the entries that carry the history are those of
    the messages that are not system messages, in order, none of them
    with the system role. *)
Theorem chat_request_body fetch key ty messages ctx st :
  selects_profile ty = true ->
  let svc := AIService.new key ty in
  let nm := AIService.name (AIService.provider svc) in
  exists payload,
    AIService.buildRequestBody svc (filter non_system messages)
      (AIService.systemMessage ctx) = Returns payload
    /\ requests (snd (AIService.chat fetch svc messages ctx st))
       = requests st ++ [chat_request svc payload]
    /\ body_system nm payload
       = Some (JString
           match ctx with
           | Some (c :: r) =>
               js "You are an AI learning assistant. Help the user understand and learn from this content: "
               ++ firstn 1000 (c :: r) ++ js "..."
           | _ => js "You are an AI learning assistant. Help the user with their questions."
           end)
    /\ map (entry_text nm) (body_history nm payload)
       = map (fun m => Some (JString (AIService.content m)))
             (filter non_system messages)
    /\ Forall (fun e => entry_role e <> Some (str "system"))
              (body_history nm payload).
Proof.
  intros Hty svc nm. subst nm svc.
  unfold AIService.new. cbn [AIService.provider].
  assert (Hkept : Forall (fun m => non_system m = true) (filter non_system messages)).
  { apply Forall_forall. intros m Hm. now apply filter_In in Hm. }
  destruct (getProvider_cases ty Hty) as [-> | [-> | ->]].
  - eexists. split; [rewrite build_ignores_system; reflexivity|].
    split; [apply chat_sends_one_request; reflexivity|].
    split; [reflexivity|].
    change (body_history (AIService.name AIService.openai) _)
      with (map AIService.message_json (filter non_system messages)).
    split.
    + rewrite map_map. apply map_ext. intros m. reflexivity.
    + apply Forall_map. revert Hkept. apply Forall_impl.
      intros m. apply kept_role_is_not_system.
  - eexists. split; [rewrite build_ignores_system; reflexivity|].
    split; [apply chat_sends_one_request; reflexivity|].
    split; [reflexivity|].
    set (l := filter _ messages). clearbody l. clear Hkept.
    cbn.
    split.
    + rewrite map_map. apply map_ext. intros m. reflexivity.
    + apply Forall_map. apply Forall_forall. intros m _.
      destruct m as [[| |] c]; cbn; discriminate.
  - eexists. split; [rewrite build_ignores_system; reflexivity|].
    split; [apply chat_sends_one_request; reflexivity|].
    split; [reflexivity|].
    set (l := filter _ messages). clearbody l. clear Hkept.
    cbn.
    split.
    + rewrite map_map. apply map_ext. intros m. reflexivity.
    + apply Forall_map. apply Forall_forall. intros m _.
      destruct m as [[| |] c]; cbn; discriminate.
Qed.

Lemma chat_request_body_witness :
  let history := [AIService.mkMessage AIService.system (js "be brief");
                  AIService.mkMessage AIService.user (js "hi")] in
  selects_profile (js "google") = true
  /\ exists payload,
       requests (snd (AIService.chat (always AIService.Rejected)
                        (AIService.new (js "sk-test") (js "google"))
                        history (Some (js "notes")) initial))
       = [chat_request (AIService.new (js "sk-test") (js "google")) payload]
       /\ body_system (Some (js "Google")) payload
          = Some (JString (js "You are an AI learning assistant. Help the user understand and learn from this content: "
                           ++ js "notes" ++ js "..."))
       /\ map (entry_text (Some (js "Google")))
              (body_history (Some (js "Google")) payload)
          = [Some (str "hi")].
Proof.
  intros history. split; [reflexivity|].
  destruct (chat_request_body (always AIService.Rejected) (js "sk-test")
              (js "google") history (Some (js "notes")) initial eq_refl)
    as (payload & _ & Hreq & Hsys & Hhist & _).
  exists payload. split; [exact Hreq|]. split; [exact Hsys|exact Hhist].
Defined.

(* ================================================================== *)
(** ** The adapter: what [chat] throws and sends *)

Lemma error_message_truthy d : truthy (Some (AIService.error_message d)) = true.
Proof.
  unfold AIService.error_message, js_or.
  destruct (truthy (opt_prop (get_prop d (js "error")) (js "message"))) eqn:E1.
  - rewrite E1.
    destruct (opt_prop (get_prop d (js "error")) (js "message")); [exact E1|discriminate].
  - destruct (truthy (get_prop d (js "message"))) eqn:E2.
    + destruct (get_prop d (js "message")); [exact E2|discriminate].
    + reflexivity.
Qed.

Lemma parseError_returns_nonempty status d a :
  AIService.parseError status d = Returns a ->
  truthy (Some (message a)) = true /\ suggestion a <> [].
Proof.
  unfold AIService.parseError.
  pose proof (error_message_truthy d) as Ht.
  destruct d; try discriminate;
    (destruct (Z.eqb status 401); [intros [= <-]; split; [reflexivity|discriminate]|];
     destruct (Z.eqb status 429);
     [ destruct (AIService.includes_any _ (js "quota")) as [[|]|]; try discriminate;
       [intros [= <-]; split; [reflexivity|discriminate]|];
       destruct (AIService.includes_any _ (js "billing")) as [[|]|]; try discriminate;
       intros [= <-]; split; solve [reflexivity|discriminate]
     | destruct (Z.eqb status 500 || Z.eqb status 502 || Z.eqb status 503);
       intros [= <-]; split; solve [reflexivity|discriminate|exact Ht] ]).
Qed.

Lemma parseError_throws_error status d e :
  AIService.parseError status d = Throws e -> exists m, e = ExnError m.
Proof.
  unfold AIService.parseError, AIService.includes_any.
  destruct d; try (intros [= <-]; eauto);
    (destruct (Z.eqb status 401); [discriminate|];
     destruct (Z.eqb status 429);
     [ destruct (AIService.error_message _); try (intros [= <-]; eauto);
       repeat match goal with
              | |- context [if ?b then _ else _] => destruct b
              | |- context [match ?b with true => _ | false => _ end] => destruct b
              end; discriminate
     | destruct (Z.eqb status 500 || Z.eqb status 502 || Z.eqb status 503);
       discriminate ]).
Qed.

Lemma extractResponse_throws_error svc data e :
  AIService.extractResponse svc data = Throws e -> exists m, e = ExnError m.
Proof.
  unfold AIService.extractResponse, AIService.text_path.
  repeat match goal with
         | |- context [if ?b then _ else _] => destruct b
         end; destruct data; try discriminate; intros [= <-]; eauto.
Qed.

(** X1. Whatever the provider does, a failure of [chat] is a classified
    error, never a raw exception, and its message is never empty (nor
    null) and its suggestion is never empty. *)
Theorem chat_failure_is_classified fetch svc messages ctx st e st' :
  AIService.chat fetch svc messages ctx st = (Throws e, st') ->
  exists a, e = ExnAPI a
            /\ truthy (Some (message a)) = true
            /\ suggestion a <> [].
Proof.
  destruct (AIService.buildRequestBody svc messages (AIService.systemMessage ctx))
    as [payload|e0] eqn:Hb.
  - rewrite (chat_settles fetch svc messages ctx payload st Hb).
    intros [= Hs _]. revert Hs. unfold settle, rethrow.
    destruct (fetch (requests st) (chat_request svc payload)) as [|status pl].
    { intros [= <-]. eexists. split; [reflexivity|]. split; [reflexivity|discriminate]. }
    destruct (AIService.ok status).
    + destruct pl as [data|].
      * destruct (AIService.extractResponse svc data) as [v|e1] eqn:E; [discriminate|].
        destruct (extractResponse_throws_error _ _ _ E) as [m ->].
        intros [= <-]. eexists. split; [reflexivity|]. split; [reflexivity|discriminate].
      * intros [= <-]. eexists. split; [reflexivity|]. split; [reflexivity|discriminate].
    + match goal with
      | |- context [AIService.parseError ?s ?d] =>
          destruct (AIService.parseError s d) as [a|e1] eqn:E
      end.
      * intros [= <-]. exists a. split; [reflexivity|].
        apply (parseError_returns_nonempty _ _ _ E).
      * destruct (parseError_throws_error _ _ _ E) as [m ->].
        intros [= <-]. eexists. split; [reflexivity|]. split; [reflexivity|discriminate].
  - rewrite (chat_build_fails fetch svc messages ctx st e0 Hb).
    intros [= <- _]. eexists. split; [reflexivity|]. split; [reflexivity|discriminate].
Qed.

Lemma chat_failure_is_classified_witness :
  fst (AIService.chat (always (AIService.Response 404
                                 (Some (JObject [field "message" (str "no such model")]))))
         (AIService.new (js "sk-test") (js "google")) [] None initial)
  = Throws (ExnAPI (mkAPIError unknown (str "no such model")
              (js "Please try again or contact support if the issue persists.")))
  /\ exists a,
       fst (AIService.chat (always (AIService.Response 404
                                      (Some (JObject [field "message" (str "no such model")]))))
              (AIService.new (js "sk-test") (js "google")) [] None initial)
       = Throws (ExnAPI a) /\ suggestion a <> [].
Proof.
  split; [vm_compute; reflexivity|].
  destruct (chat_failure_is_classified
              (always (AIService.Response 404
                         (Some (JObject [field "message" (str "no such model")]))))
              (AIService.new (js "sk-test") (js "google")) [] None initial
              (ExnAPI (mkAPIError unknown (str "no such model")
                 (js "Please try again or contact support if the issue persists.")))
              (log (chat_request (AIService.new (js "sk-test") (js "google"))
                      (JObject
                         [field "contents"
                            (JArray [JObject [field "parts"
                               (JArray [JObject [field "text"
                                  (JString (AIService.systemMessage None))]])]]);
                          field "generationConfig"
                            (JObject [field "maxOutputTokens" (JNumber (num 1000));
                                      field "temperature" (JNumber (mkNumber 7 (-1)))])]))
                   initial))
    as (a & Ha & _ & Hs).
  - vm_compute. reflexivity.
  - exists a. split; [|exact Hs]. rewrite <- Ha. vm_compute. reflexivity.
Defined.

(** X2. One call of [chat] on a service made by the constructor leaves
    the busy flag and the recorded error of the hook alone. When the
    provider identifier selects a profile it hands exactly one request
    to [fetch], whatever the outcome: a POST to the endpoint of the
    selected profile, one of the three, with a JSON content type. When
    the identifier names an inherited member it hands none and throws
    the connection error. *)
Theorem chat_posts_once fetch key ty messages ctx st :
  let svc := AIService.new key ty in
  let run := AIService.chat fetch svc messages ctx st in
  loading (snd run) = loading st
  /\ error (snd run) = error st
  /\ if selects_profile ty
     then exists req,
            requests (snd run) = requests st ++ [req]
            /\ method req = js "POST"
            /\ url req = AIService.baseUrl (AIService.getProvider ty)
            /\ In (url req) (map AIService.baseUrl profiles)
            /\ header (js "Content-Type") (headers req)
               = Some (js "application/json")
     else run = (Throws (ExnAPI AIService.connection_failed), st).
Proof.
  intros svc run. subst run.
  destruct (selects_profile ty) eqn:Hty.
  - destruct (build_total key ty messages (AIService.systemMessage ctx) Hty)
      as [payload Hb].
    fold svc in Hb.
    rewrite (chat_settles fetch svc messages ctx payload st Hb). cbn [snd].
    split; [reflexivity|]. split; [reflexivity|].
    exists (chat_request svc payload).
    split; [reflexivity|]. split; [reflexivity|]. split; [reflexivity|].
    split; [|reflexivity].
    subst svc. unfold chat_request, AIService.new. cbn [url AIService.provider].
    destruct (getProvider_cases ty Hty) as [-> | [-> | ->]]; cbn; tauto.
  - rewrite (chat_build_fails fetch svc messages ctx st _
               (build_unsupported key ty messages _ Hty)).
    auto.
Qed.

(** When a body can be built for a service, its provider is one of the
    three by name, and reading the text of a [null] body throws. *)
Lemma extractResponse_null svc messages sys payload :
  AIService.buildRequestBody svc messages sys = Returns payload ->
  exists m, AIService.extractResponse svc JNull = Throws (ExnError m).
Proof.
  unfold AIService.buildRequestBody, AIService.extractResponse,
    AIService.text_path.
  repeat match goal with
         | |- context [if ?b then _ else _] =>
             destruct b; [intros _; eexists; reflexivity|]
         end.
  discriminate.
Qed.

(** X3. A call that gets no usable answer fails with the one network
    error Connection failed: when [fetch] rejects, when a 2xx response
    has a body that is not JSON, and when a 2xx response has the body
    [null]. *)
Theorem chat_connection_failed fetch key ty messages ctx st out :
  (forall req, fetch (requests st) req = out) ->
  (out = AIService.Rejected
   \/ exists status,
        AIService.ok status = true
        /\ (out = AIService.Response status None
            \/ out = AIService.Response status (Some JNull))) ->
  fst (AIService.chat fetch (AIService.new key ty) messages ctx st)
  = Throws (ExnAPI AIService.connection_failed).
Proof.
  intros Hf Hout.
  destruct (AIService.buildRequestBody (AIService.new key ty) messages
              (AIService.systemMessage ctx)) as [payload|e0] eqn:Hb.
  2: { now rewrite (chat_build_fails fetch _ messages ctx st e0 Hb). }
  rewrite (chat_settles fetch _ messages ctx payload st Hb). cbn [fst].
  rewrite Hf. unfold settle.
  destruct Hout as [-> | (status & Hok & [-> | ->])]; [reflexivity| |];
    rewrite Hok; [reflexivity|].
  destruct (extractResponse_null _ _ _ _ Hb) as [m ->]. reflexivity.
Qed.

Lemma chat_connection_failed_witness :
  AIService.ok 204 = true
  /\ fst (AIService.chat (always (AIService.Response 204 None))
            (AIService.new (js "sk-test") (js "anthropic")) [] None initial)
     = Throws (ExnAPI AIService.connection_failed).
Proof.
  split; [reflexivity|].
  apply (chat_connection_failed (always (AIService.Response 204 None))
           (js "sk-test") (js "anthropic") [] None initial
           (AIService.Response 204 None)).
  - intros req. reflexivity.
  - right. exists 204%Z. split; [reflexivity|now left].
Defined.

(** X4. For a provider identifier that selects a profile, a response
    outside 2xx with a body other than [null] whose vendor message is a
    string makes [chat] throw the classified error of its status and
    that message: the body's error.message when it is there, else its
    message, else Unknown error. *)
Theorem chat_classifies_error_response fetch key ty messages ctx st status d text :
  selects_profile ty = true ->
  (forall req, fetch (requests st) req = AIService.Response status (Some d)) ->
  AIService.ok status = false ->
  d <> JNull ->
  AIService.error_message d = JString text ->
  fst (AIService.chat fetch (AIService.new key ty) messages ctx st)
  = Throws (ExnAPI (classify_text status text)).
Proof.
  intros Hty Hf Hok Hd Hm.
  destruct (build_total key ty messages (AIService.systemMessage ctx) Hty)
    as [payload Hb].
  rewrite (chat_settles fetch _ messages ctx payload st Hb). cbn [fst].
  rewrite Hf. unfold settle. rewrite Hok.
  now rewrite (parseError_classifies status d text Hd Hm).
Qed.

Lemma chat_classifies_error_response_witness :
  let d := JObject [field "error" (JObject [field "message"
             (str "You exceeded your current quota, please check billing")])] in
  selects_profile (js "openai") = true
  /\ AIService.ok 429 = false
  /\ d <> JNull
  /\ fst (AIService.chat (always (AIService.Response 429 (Some d)))
            (AIService.new (js "sk-test") (js "openai")) [] None initial)
     = Throws (ExnAPI billing_error).
Proof.
  intros d.
  split; [reflexivity|]. split; [reflexivity|]. split; [discriminate|].
  apply (chat_classifies_error_response
           (always (AIService.Response 429 (Some d)))
           (js "sk-test") (js "openai") [] None initial 429%Z d
           (js "You exceeded your current quota, please check billing")).
  - reflexivity.
  - intros req. reflexivity.
  - reflexivity.
  - discriminate.
  - reflexivity.
Defined.

(** X5. For a provider identifier that selects a profile, a response
    outside 2xx whose body is not JSON is still classified by its
    status, with the stand-in message Failed to parse error response:
    401 is the auth error, 429 the rate-limit error (never the billing
    one), 500, 502 and 503 the network error, and any other status the
    unknown error with the stand-in message. *)
Theorem chat_unparsable_error_body fetch key ty messages ctx st status :
  selects_profile ty = true ->
  (forall req, fetch (requests st) req = AIService.Response status None) ->
  AIService.ok status = false ->
  fst (AIService.chat fetch (AIService.new key ty) messages ctx st)
  = Throws (ExnAPI (classify_text status (js "Failed to parse error response")))
  /\ (status = 429%Z ->
      classify_text status (js "Failed to parse error response") = rate_limit_error)
  /\ (~ In status [401; 429; 500; 502; 503]%Z ->
      classify_text status (js "Failed to parse error response")
      = mkAPIError unknown (str "Failed to parse error response")
          (js "Please try again or contact support if the issue persists.")).
Proof.
  intros Hty Hf Hok. split; [|split].
  - destruct (build_total key ty messages (AIService.systemMessage ctx) Hty)
      as [payload Hb].
    rewrite (chat_settles fetch _ messages ctx payload st Hb). cbn [fst].
    rewrite Hf. unfold settle. rewrite Hok.
    now rewrite (parseError_classifies status unparsable_error_body
                   (js "Failed to parse error response")).
  - intros ->. reflexivity.
  - intros Hs. cbn [In] in Hs. unfold classify_text.
    assert (E1 : Z.eqb status 401 = false) by (apply Z.eqb_neq; intuition).
    assert (E2 : Z.eqb status 429 = false) by (apply Z.eqb_neq; intuition).
    assert (E3 : Z.eqb status 500 = false) by (apply Z.eqb_neq; intuition).
    assert (E4 : Z.eqb status 502 = false) by (apply Z.eqb_neq; intuition).
    assert (E5 : Z.eqb status 503 = false) by (apply Z.eqb_neq; intuition).
    now rewrite E1, E2, E3, E4, E5.
Qed.

Lemma chat_unparsable_error_body_witness :
  selects_profile (js "openai") = true
  /\ AIService.ok 429 = false
  /\ fst (AIService.chat (always (AIService.Response 429 None))
            (AIService.new (js "sk-test") (js "openai")) [] None initial)
     = Throws (ExnAPI rate_limit_error).
Proof.
  split; [reflexivity|]. split; [reflexivity|].
  destruct (chat_unparsable_error_body (always (AIService.Response 429 None))
              (js "sk-test") (js "openai") [] None initial 429%Z
              eq_refl (fun _ => eq_refl) eq_refl) as (Hc & Hr & _).
  rewrite Hc. now rewrite (Hr eq_refl).
Defined.

(** X6. For each of the three providers, a 2xx response whose body has
    the vendor's shape and carries a text that is not empty makes [chat]
    return that text. *)
Theorem chat_returns_vendor_text fetch key p messages ctx st status t :
  In p profiles ->
  (forall req, fetch (requests st) req
               = AIService.Response status
                   (Some (vendor_response (AIService.name p) t))) ->
  AIService.ok status = true ->
  truthy (Some t) = true ->
  fst (AIService.chat fetch (AIService.mkService key p) messages ctx st)
  = Returns t.
Proof.
  intros Hp Hf Hok Ht.
  destruct (build_total_profile (AIService.mkService key p) messages
              (AIService.systemMessage ctx) Hp) as [payload Hb].
  rewrite (chat_settles fetch _ messages ctx payload st Hb). cbn [fst].
  rewrite Hf. unfold settle. rewrite Hok.
  assert (He : AIService.extractResponse (AIService.mkService key p)
                 (vendor_response (AIService.name p) t)
               = Returns (AIService.or_no_response (Some t))).
  { unfold profiles in Hp.
    destruct Hp as [<- | [<- | [<- | []]]]; reflexivity. }
  rewrite He. unfold AIService.or_no_response, js_or. now rewrite Ht.
Qed.

Lemma chat_returns_vendor_text_witness :
  In AIService.google profiles
  /\ fst (AIService.chat
            (always (AIService.Response 200
                       (Some (vendor_response (Some (js "Google")) (str "Hello")))))
            (AIService.mkService (js "sk-test") AIService.google)
            [] None initial)
     = Returns (str "Hello").
Proof.
  assert (Hin : In AIService.google profiles) by (right; right; left; reflexivity).
  split; [exact Hin|].
  apply (chat_returns_vendor_text
           (always (AIService.Response 200
                      (Some (vendor_response (Some (js "Google")) (str "Hello")))))
           (js "sk-test") AIService.google [] None initial 200%Z (str "Hello") Hin).
  - intros req. reflexivity.
  - reflexivity.
  - reflexivity.
Defined.

(* ================================================================== *)
(** ** Reading a built request body *)

Lemma built_body_reads key ty messages sys :
  selects_profile ty = true ->
  let svc := AIService.new key ty in
  let nm := AIService.name (AIService.provider svc) in
  exists payload,
    AIService.buildRequestBody svc messages sys = Returns payload
    /\ body_system nm payload = Some (JString sys)
    /\ map (entry_text nm) (body_history nm payload)
       = map (fun m => Some (JString (AIService.content m)))
             (filter non_system messages)
    /\ map entry_role (body_history nm payload)
       = map (fun m => Some (JString (vendor_role nm (AIService.role_of m))))
             (filter non_system messages).
Proof.
  intros Hty svc nm. subst nm svc.
  unfold AIService.new. cbn [AIService.provider].
  destruct (getProvider_cases ty Hty) as [-> | [-> | ->]];
    (eexists; split; [reflexivity|]; split; [reflexivity|];
     set (l := filter _ messages); clearbody l; cbn;
     split; rewrite map_map; apply map_ext; intros [[| |] c]; reflexivity).
Qed.

Lemma hook_messages_keep_all hist msg :
  filter non_system (hook_messages hist msg) = hook_messages hist msg.
Proof.
  unfold hook_messages. rewrite filter_app. cbn [filter]. f_equal.
  induction hist as [|c hist IH]; [reflexivity|].
  cbn [map filter]. destruct c as [[|] m]; cbn; now rewrite IH.
Qed.

(** X7. For a provider identifier that selects a profile, the roles in
    a request follow the vendor's names: OpenAI gets each kept message
    under its own role, Anthropic under assistant or user, and Google
    under model (for assistant) or user; the system messages of the
    history appear under no role at all. *)
Theorem request_roles_follow_vendor key ty messages sys :
  selects_profile ty = true ->
  let svc := AIService.new key ty in
  let nm := AIService.name (AIService.provider svc) in
  exists payload,
    AIService.buildRequestBody svc messages sys = Returns payload
    /\ map entry_role (body_history nm payload)
       = map (fun m => Some (JString (vendor_role nm (AIService.role_of m))))
             (filter non_system messages)
    /\ (nm = Some (js "Google") ->
        Forall (fun e => entry_role e = Some (str "user")
                         \/ entry_role e = Some (str "model"))
               (body_history nm payload))
    /\ (nm = Some (js "Anthropic") ->
        Forall (fun e => entry_role e = Some (str "user")
                         \/ entry_role e = Some (str "assistant"))
               (body_history nm payload)).
Proof.
  intros Hty svc nm.
  destruct (built_body_reads key ty messages sys Hty) as (payload & Hb & _ & _ & Hr).
  fold svc nm in Hb, Hr.
  exists payload. split; [exact Hb|]. split; [exact Hr|].
  assert (Hall : forall (P : jsval -> Prop),
             (forall r, P (Some (JString (vendor_role nm r)))) ->
             Forall (fun e => P (entry_role e)) (body_history nm payload)).
  { intros P HP. apply Forall_forall. intros e He.
    apply (in_map entry_role) in He. rewrite Hr in He.
    apply in_map_iff in He. destruct He as (m & <- & _). apply HP. }
  split; intros Hn.
  - apply (Hall (fun v => v = Some (str "user") \/ v = Some (str "model"))).
    intros r. rewrite Hn. destruct r; cbn; auto.
  - apply (Hall (fun v => v = Some (str "user") \/ v = Some (str "assistant"))).
    intros r. rewrite Hn. destruct r; cbn; auto.
Qed.

Lemma request_roles_follow_vendor_witness :
  selects_profile (js "google") = true
  /\ AIService.name (AIService.provider (AIService.new (js "sk-test") (js "google")))
     = Some (js "Google")
  /\ exists payload,
       AIService.buildRequestBody (AIService.new (js "sk-test") (js "google"))
         [AIService.mkMessage AIService.system (js "be brief");
          AIService.mkMessage AIService.assistant (js "Hello")]
         (js "instruction") = Returns payload
       /\ map entry_role (body_history (Some (js "Google")) payload)
          = [Some (str "model")].
Proof.
  split; [reflexivity|]. split; [reflexivity|].
  destruct (request_roles_follow_vendor (js "sk-test") (js "google")
              [AIService.mkMessage AIService.system (js "be brief");
               AIService.mkMessage AIService.assistant (js "Hello")]
              (js "instruction") eq_refl) as (payload & Hb & Hr & _).
  exists payload. split; [exact Hb|]. exact Hr.
Defined.

(* ================================================================== *)
(** ** The hook: chat turns and summaries *)

Section HookRuns.

Variable fetch : list request -> request -> AIService.fetch_outcome.
Variable number_to_string : number -> jsstring.

Lemma hook_chat_run cfg rc k ks msg hist st payload :
  UseAI.apiKey cfg = k :: ks ->
  let svc := AIService.new (UseAI.apiKey cfg) (UseAI.provider cfg) in
  AIService.buildRequestBody svc (hook_messages hist msg)
    (AIService.systemMessage rc) = Returns payload ->
  UseAI.sendChatMessage fetch cfg rc msg hist st
  = match settle svc (fetch (requests st) (chat_request svc payload)) with
    | Returns v =>
        (Returns v, mkState false None (requests st ++ [chat_request svc payload]))
    | Throws e =>
        (Throws (ExnAPI (UseAI.handleError e)),
         mkState false (Some (UseAI.handleError e))
                 (requests st ++ [chat_request svc payload]))
    end.
Proof.
  intros Hk svc Hb.
  unfold UseAI.sendChatMessage.
  rewrite (aiService_configured _ _ _ Hk). fold svc.
  fold (hook_messages hist msg).
  unfold bind, setLoading, setError, finally, try_catch, throw.
  cbv beta iota. cbn [error requests loading].
  rewrite (chat_settles fetch svc _ rc _ _ Hb). cbn [requests log loading error].
  destruct (settle svc (fetch (requests st) (chat_request svc payload)));
    reflexivity.
Qed.

Lemma hook_summary_run cfg k ks c rest st payload :
  UseAI.apiKey cfg = k :: ks ->
  let svc := AIService.new (UseAI.apiKey cfg) (UseAI.provider cfg) in
  AIService.buildRequestBody svc
    [AIService.mkMessage AIService.user (AIService.summary_prompt (c :: rest))]
    (AIService.systemMessage None) = Returns payload ->
  UseAI.generateSummary fetch number_to_string cfg (Some (c :: rest)) st
  = match settle svc (fetch (requests st) (chat_request svc payload)) with
    | Returns v =>
        (Returns v, mkState false None (requests st ++ [chat_request svc payload]))
    | Throws e =>
        (UseAI.summary_fallback number_to_string (UseAI.handleError e),
         mkState false (Some (UseAI.handleError e))
                 (requests st ++ [chat_request svc payload]))
    end.
Proof.
  intros Hk svc Hb.
  unfold UseAI.generateSummary.
  rewrite (aiService_configured _ _ _ Hk). fold svc.
  unfold AIService.generateSummary, bind, setLoading, setError, finally,
    try_catch, ret, lift.
  cbv beta iota. cbn [error requests loading].
  rewrite (chat_settles fetch svc _ None _ _ Hb). cbn [requests log loading error].
  destruct (settle svc (fetch (requests st) (chat_request svc payload)));
    [reflexivity|].
  destruct (UseAI.summary_fallback number_to_string (UseAI.handleError e));
    reflexivity.
Qed.

(** When no body can be built, a chat turn and a summary make no request
    and meet the connection error. *)
Lemma hook_chat_unbuilt cfg rc k ks msg hist st e :
  UseAI.apiKey cfg = k :: ks ->
  let svc := AIService.new (UseAI.apiKey cfg) (UseAI.provider cfg) in
  AIService.buildRequestBody svc (hook_messages hist msg)
    (AIService.systemMessage rc) = Throws e ->
  UseAI.sendChatMessage fetch cfg rc msg hist st
  = (Throws (ExnAPI AIService.connection_failed),
     mkState false (Some AIService.connection_failed) (requests st)).
Proof.
  intros Hk svc Hb.
  unfold UseAI.sendChatMessage.
  rewrite (aiService_configured _ _ _ Hk). fold svc.
  fold (hook_messages hist msg).
  unfold bind, setLoading, setError, finally, try_catch, throw.
  cbv beta iota. cbn [error requests loading].
  rewrite (chat_build_fails fetch svc _ rc _ _ Hb). reflexivity.
Qed.

Lemma hook_summary_unbuilt cfg k ks c rest st e :
  UseAI.apiKey cfg = k :: ks ->
  let svc := AIService.new (UseAI.apiKey cfg) (UseAI.provider cfg) in
  AIService.buildRequestBody svc
    [AIService.mkMessage AIService.user (AIService.summary_prompt (c :: rest))]
    (AIService.systemMessage None) = Throws e ->
  UseAI.generateSummary fetch number_to_string cfg (Some (c :: rest)) st
  = (UseAI.summary_fallback number_to_string AIService.connection_failed,
     mkState false (Some AIService.connection_failed) (requests st)).
Proof.
  intros Hk svc Hb.
  unfold UseAI.generateSummary.
  rewrite (aiService_configured _ _ _ Hk). fold svc.
  unfold AIService.generateSummary, bind, setLoading, setError, finally,
    try_catch, ret, lift.
  cbv beta iota. cbn [error requests loading].
  rewrite (chat_build_fails fetch svc _ None _ _ Hb). reflexivity.
Qed.

End HookRuns.

Lemma vendor_role_user nm : vendor_role nm AIService.user = js "user".
Proof.
  unfold vendor_role.
  destruct (AIService.strict_eq nm (js "OpenAI")); reflexivity.
Qed.

Lemma settle_returns_not_empty svc out v :
  settle svc out = Returns v -> v <> JString [].
Proof.
  unfold settle. destruct out as [|status pl]; [discriminate|].
  destruct (AIService.ok status).
  - destruct pl as [data|]; [|discriminate].
    destruct (AIService.extractResponse svc data) as [w|e] eqn:E; [|discriminate].
    intros [= <-]. apply (extractResponse_not_empty svc data w E).
  - match goal with
    | |- context [AIService.parseError ?s ?d] =>
        destruct (AIService.parseError s d); discriminate
    end.
Qed.

(** X8. A chat turn of a configured hook whose provider identifier
    selects a profile sends one request that is grounded in the hook's
    content and carries the whole history in order, each entry with its
    text, followed by the new message once, as the last entry and under
    the user role; entries of the assistant go under the vendor's name
    for that role. *)
Theorem chat_turn_forwards_history fetch cfg rc msg hist st :
  UseAI.isConfigured cfg = true ->
  selects_profile (UseAI.provider cfg) = true ->
  let svc := AIService.new (UseAI.apiKey cfg) (UseAI.provider cfg) in
  let nm := AIService.name (AIService.provider svc) in
  exists payload,
    requests (snd (UseAI.sendChatMessage fetch cfg rc msg hist st))
    = requests st ++ [chat_request svc payload]
    /\ body_system nm payload = Some (JString (AIService.systemMessage rc))
    /\ map (entry_text nm) (body_history nm payload)
       = map (fun c => Some (JString (UseAI.message_of c))) hist
         ++ [Some (JString msg)]
    /\ map entry_role (body_history nm payload)
       = map (fun c => Some (JString (vendor_role nm
                 match UseAI.role_of c with
                 | UseAI.ai => AIService.assistant
                 | UseAI.user => AIService.user
                 end))) hist
         ++ [Some (str "user")].
Proof.
  intros Hc Hty svc nm. destruct (configured_key _ Hc) as (k & ks & Hk).
  destruct (built_body_reads (UseAI.apiKey cfg) (UseAI.provider cfg)
              (hook_messages hist msg) (AIService.systemMessage rc) Hty)
    as (payload & Hb & Hs & Ht & Hr).
  fold svc nm in Hb, Hs, Ht, Hr.
  rewrite hook_messages_keep_all in Ht, Hr.
  exists payload.
  rewrite (hook_chat_run fetch cfg rc k ks msg hist st payload Hk Hb).
  split.
  { destruct (settle _ _); reflexivity. }
  split; [exact Hs|]. split.
  - rewrite Ht. unfold hook_messages. rewrite map_app, map_map. reflexivity.
  - rewrite Hr. unfold hook_messages. rewrite map_app, map_map.
    cbn [map AIService.role_of]. now rewrite vendor_role_user.
Qed.

Lemma chat_turn_forwards_history_witness :
  UseAI.isConfigured configured = true
  /\ selects_profile (UseAI.provider configured) = true
  /\ exists payload,
       requests (snd (UseAI.sendChatMessage (always AIService.Rejected) configured
                        (Some (js "notes")) (js "And then?")
                        [UseAI.mkChat UseAI.ai (js "Hello!");
                         UseAI.mkChat UseAI.user (js "What is it about?")]
                        initial))
       = [chat_request (AIService.new (js "sk-test") (js "openai")) payload]
       /\ map (entry_text (Some (js "OpenAI")))
              (body_history (Some (js "OpenAI")) payload)
          = [Some (str "Hello!"); Some (str "What is it about?");
             Some (str "And then?")].
Proof.
  split; [reflexivity|]. split; [reflexivity|].
  destruct (chat_turn_forwards_history (always AIService.Rejected) configured
              (Some (js "notes")) (js "And then?")
              [UseAI.mkChat UseAI.ai (js "Hello!");
               UseAI.mkChat UseAI.user (js "What is it about?")]
              initial eq_refl eq_refl) as (payload & Hreq & _ & Ht & _).
  exists payload. split; [exact Hreq|exact Ht].
Defined.

(** X9. A chat turn of a configured hook ends with the busy flag down.
    When it returns, the recorded error is null and the text is not the
    empty string; when it throws, what it throws is a classified error
    and the recorded error is that same error. It makes exactly one
    request when the provider identifier selects a profile, and none,
    throwing the connection error, when the identifier names an
    inherited member. *)
Theorem chat_turn_records_its_error fetch cfg rc msg hist st :
  UseAI.isConfigured cfg = true ->
  let run := UseAI.sendChatMessage fetch cfg rc msg hist st in
  loading (snd run) = false
  /\ match fst run with
     | Returns v => error (snd run) = None /\ v <> JString []
     | Throws e => exists a, e = ExnAPI a /\ error (snd run) = Some a
     end
  /\ if selects_profile (UseAI.provider cfg)
     then List.length (requests (snd run)) = S (List.length (requests st))
     else requests (snd run) = requests st
          /\ fst run = Throws (ExnAPI AIService.connection_failed).
Proof.
  intros Hc run. subst run. destruct (configured_key _ Hc) as (k & ks & Hk).
  destruct (selects_profile (UseAI.provider cfg)) eqn:Hty.
  - destruct (build_total (UseAI.apiKey cfg) (UseAI.provider cfg)
                (hook_messages hist msg) (AIService.systemMessage rc) Hty)
      as [payload Hb].
    rewrite (hook_chat_run fetch cfg rc k ks msg hist st payload Hk Hb).
    destruct (settle _ (fetch (requests st) (chat_request _ payload)))
      as [v|e] eqn:E; cbn [fst snd loading error requests].
    + split; [reflexivity|]. split; [|rewrite length_app; cbn; lia].
      split; [reflexivity|]. apply (settle_returns_not_empty _ _ _ E).
    + split; [reflexivity|]. split; [|rewrite length_app; cbn; lia].
      destruct (settle_throws_api _ _ _ E) as [a ->]. exists a. auto.
  - rewrite (hook_chat_unbuilt fetch cfg rc k ks msg hist st _ Hk
               (build_unsupported _ _ _ _ Hty)).
    cbn [fst snd loading error requests].
    split; [reflexivity|]. split; [eauto|auto].
Qed.

Lemma chat_turn_records_its_error_witness :
  UseAI.isConfigured configured = true
  /\ error (snd (UseAI.sendChatMessage (always (AIService.Response 401 (Some (JObject []))))
                   configured (Some (js "notes")) (js "hi") [] initial))
     = Some (mkAPIError auth (str "Invalid API key")
               (js "Please check your API key in Settings and make sure it's correct."))
  /\ loading (snd (UseAI.sendChatMessage (always (AIService.Response 401 (Some (JObject []))))
                     configured (Some (js "notes")) (js "hi") [] initial))
     = false.
Proof.
  split; [reflexivity|].
  destruct (chat_turn_records_its_error
              (always (AIService.Response 401 (Some (JObject []))))
              configured (Some (js "notes")) (js "hi") [] initial eq_refl)
    as (Hl & _).
  split; [vm_compute; reflexivity|exact Hl].
Defined.

(** X10. With credentials and a content that is not empty,
    [generateSummary] sends what the adapter's [chat] sends for the
    summary prompt, and ends with the busy flag down. When that call
    succeeds it returns the provider's text, which is never the empty
    string, with a null recorded error. When the call fails it records
    the classified error, and returns the fallback text built from it,
    unless the message of the error has no string form (an object with
    a toString member of its own): then building the fallback text
    throws, and the operation throws with it. *)
Theorem summary_returns_text_or_fallback fetch nts cfg c rest st :
  UseAI.isConfigured cfg = true ->
  let svc := AIService.new (UseAI.apiKey cfg) (UseAI.provider cfg) in
  let call := AIService.chat fetch svc
                [AIService.mkMessage AIService.user
                   (AIService.summary_prompt (c :: rest))] None st in
  let run := UseAI.generateSummary fetch nts cfg (Some (c :: rest)) st in
  loading (snd run) = false
  /\ requests (snd run) = requests (snd call)
  /\ match fst call with
     | Returns v =>
         fst run = Returns v /\ v <> JString [] /\ error (snd run) = None
     | Throws e =>
         exists a,
           e = ExnAPI a
           /\ error (snd run) = Some a
           /\ match UseAI.to_string nts (message a) with
              | Returns text =>
                  exists v, fst run = Returns v
                            /\ UseAI.summary_fallback nts a = Returns v
                            /\ v <> JString []
              | Throws t => fst run = Throws t
              end
     end.
Proof.
  intros Hc svc call run. subst call run.
  destruct (configured_key _ Hc) as (k & ks & Hk).
  destruct (AIService.buildRequestBody svc
              [AIService.mkMessage AIService.user
                 (AIService.summary_prompt (c :: rest))]
              (AIService.systemMessage None)) as [payload|e0] eqn:Hb.
  - rewrite (hook_summary_run fetch nts cfg k ks c rest st payload Hk Hb).
    rewrite (chat_settles fetch svc _ None payload st Hb).
    fold svc. cbn [fst snd].
    destruct (settle svc (fetch (requests st) (chat_request svc payload)))
      as [v|e] eqn:E; cbn [fst snd loading error requests log].
    + split; [reflexivity|]. split; [reflexivity|].
      split; [reflexivity|]. split; [|reflexivity].
      apply (settle_returns_not_empty _ _ _ E).
    + split; [reflexivity|]. split; [reflexivity|].
      destruct (settle_throws_api _ _ _ E) as [a ->]. exists a.
      cbn [UseAI.handleError]. split; [reflexivity|]. split; [reflexivity|].
      unfold UseAI.summary_fallback.
      destruct (UseAI.to_string nts (message a)) as [text|t]; [|reflexivity].
      eexists. split; [reflexivity|]. split; [reflexivity|discriminate].
  - rewrite (hook_summary_unbuilt fetch nts cfg k ks c rest st e0 Hk Hb).
    rewrite (chat_build_fails fetch svc _ None st e0 Hb).
    cbn [fst snd loading error requests].
    split; [reflexivity|]. split; [reflexivity|].
    exists AIService.connection_failed.
    split; [reflexivity|]. split; [reflexivity|].
    eexists. split; [reflexivity|]. split; [reflexivity|discriminate].
Qed.

Lemma summary_returns_text_or_fallback_witness :
  let reply := always (AIService.Response 400
                 (Some (JObject [field "error"
                    (JObject [field "message"
                       (JObject [field "toString" (JNumber (num 1))])])]))) in
  let run := UseAI.generateSummary reply no_numbers configured
               (Some (js "notes")) initial in
  UseAI.isConfigured configured = true
  /\ fst run = Throws (ExnError (js "Cannot convert object to primitive value"))
  /\ loading (snd run) = false
  /\ List.length (requests (snd run)) = 1%nat.
Proof.
  intros reply run. split; [reflexivity|].
  destruct (summary_returns_text_or_fallback reply no_numbers
              configured 110%N (js "otes") initial eq_refl) as (Hl & Hr & _).
  split; [vm_compute; reflexivity|]. split; [exact Hl|].
  change (requests (snd run)) with
    (requests (snd (UseAI.generateSummary reply no_numbers configured
                      (Some (110%N :: js "otes")) initial))).
  rewrite Hr. vm_compute. reflexivity.
Defined.

Lemma at_most_one_call_none st e :
  at_most_one_call st (mkState false e (requests st)).
Proof.
  split; [auto|]. exists []. split; [now rewrite app_nil_r|cbn; lia].
Qed.

Lemma at_most_one_call_refl st : at_most_one_call st st.
Proof.
  split; [auto|]. exists []. split; [now rewrite app_nil_r|cbn; lia].
Qed.

Lemma at_most_one_call_once st req e :
  at_most_one_call st (mkState false e (requests st ++ [req])).
Proof. split; [auto|]. exists [req]. split; [reflexivity|cbn; lia]. Qed.

(** X11. Every operation of the hook, in every configuration and for
    every content and outcome of the provider call, keeps the requests
    logged before it, adds at most one, and does not leave the busy flag
    up. *)
Theorem hook_operations_call_at_most_once fetch nts cfg rc msg hist st :
  at_most_one_call st (snd (UseAI.sendChatMessage fetch cfg rc msg hist st))
  /\ at_most_one_call st (snd (UseAI.generateSummary fetch nts cfg rc st))
  /\ at_most_one_call st (snd (UseAI.generateFlashcards fetch nts cfg rc st))
  /\ at_most_one_call st (snd (UseAI.generateQuiz fetch nts cfg rc st)).
Proof.
  destruct (UseAI.apiKey cfg) as [|k ks] eqn:Hk.
  - unfold UseAI.sendChatMessage, UseAI.generateSummary,
      UseAI.generateFlashcards, UseAI.generateQuiz.
    rewrite (aiService_unconfigured _ Hk).
    repeat split; apply at_most_one_call_refl.
  - split.
    { destruct (AIService.buildRequestBody
                  (AIService.new (UseAI.apiKey cfg) (UseAI.provider cfg))
                  (hook_messages hist msg) (AIService.systemMessage rc))
        as [payload|e0] eqn:Hb.
      - rewrite (hook_chat_run fetch cfg rc k ks msg hist st payload Hk Hb).
        destruct (settle _ _); apply at_most_one_call_once.
      - rewrite (hook_chat_unbuilt fetch cfg rc k ks msg hist st e0 Hk Hb).
        apply at_most_one_call_none. }
    assert (Hnc : rc = None \/ rc = Some [] \/ exists x r, rc = Some (x :: r)).
    { destruct rc as [[|x r]|]; eauto. }
    destruct Hnc as [-> | [-> | (x & r & ->)]].
    + unfold UseAI.generateSummary, UseAI.generateFlashcards, UseAI.generateQuiz.
      rewrite (aiService_configured _ _ _ Hk).
      repeat split; apply at_most_one_call_refl.
    + unfold UseAI.generateSummary, UseAI.generateFlashcards, UseAI.generateQuiz.
      rewrite (aiService_configured _ _ _ Hk).
      repeat split; apply at_most_one_call_refl.
    + split; [|split].
      * destruct (AIService.buildRequestBody
                    (AIService.new (UseAI.apiKey cfg) (UseAI.provider cfg))
                    [AIService.mkMessage AIService.user
                       (AIService.summary_prompt (x :: r))]
                    (AIService.systemMessage None)) as [payload|e0] eqn:Hb.
        -- rewrite (hook_summary_run fetch nts cfg k ks x r st payload Hk Hb).
           destruct (settle _ _); apply at_most_one_call_once.
        -- rewrite (hook_summary_unbuilt fetch nts cfg k ks x r st e0 Hk Hb).
           apply at_most_one_call_none.
      * destruct (AIService.buildRequestBody
                    (AIService.new (UseAI.apiKey cfg) (UseAI.provider cfg))
                    [AIService.mkMessage AIService.user
                       (AIService.flashcards_prompt (x :: r))]
                    (AIService.systemMessage None)) as [payload|e0] eqn:Hb.
        -- rewrite (hook_flashcards_run fetch nts cfg k ks x r st payload Hk Hb).
           apply at_most_one_call_once.
        -- rewrite (hook_flashcards_unbuilt fetch nts cfg k ks x r st e0 Hk Hb).
           apply at_most_one_call_none.
      * destruct (AIService.buildRequestBody
                    (AIService.new (UseAI.apiKey cfg) (UseAI.provider cfg))
                    [AIService.mkMessage AIService.user
                       (AIService.quiz_prompt (x :: r))]
                    (AIService.systemMessage None)) as [payload|e0] eqn:Hb.
        -- rewrite (hook_quiz_run fetch nts cfg k ks x r st payload Hk Hb).
           apply at_most_one_call_once.
        -- rewrite (hook_quiz_unbuilt fetch nts cfg k ks x r st e0 Hk Hb).
           apply at_most_one_call_none.
Qed.

(** X12. The generators read no more than the first 3000 code units of
    the content: two contents that agree on those give the same run,
    request for request and result for result, of [generateSummary],
    [generateFlashcards] and [generateQuiz]. *)
Theorem generators_read_a_prefix fetch nts cfg c1 c2 st :
  firstn 3000 c1 = firstn 3000 c2 ->
  UseAI.generateSummary fetch nts cfg (Some c1) st
  = UseAI.generateSummary fetch nts cfg (Some c2) st
  /\ UseAI.generateFlashcards fetch nts cfg (Some c1) st
     = UseAI.generateFlashcards fetch nts cfg (Some c2) st
  /\ UseAI.generateQuiz fetch nts cfg (Some c1) st
     = UseAI.generateQuiz fetch nts cfg (Some c2) st.
Proof.
  intros H.
  destruct c1 as [|x1 r1], c2 as [|x2 r2]; try discriminate;
    [repeat split; reflexivity|].
  unfold UseAI.generateSummary, UseAI.generateFlashcards, UseAI.generateQuiz.
  destruct (UseAI.aiService cfg) as [svc|]; [|repeat split; reflexivity].
  unfold AIService.generateSummary, AIService.generateFlashcards,
    AIService.generateQuiz, AIService.summary_prompt,
    AIService.flashcards_prompt, AIService.quiz_prompt, substring0.
  rewrite H. repeat split; reflexivity.
Qed.

Lemma generators_read_a_prefix_witness :
  firstn 3000 (repeat 97%N 3000 ++ js "tail one")
  = firstn 3000 (repeat 97%N 3000 ++ js "another tail")
  /\ UseAI.generateQuiz (always AIService.Rejected) no_numbers configured
       (Some (repeat 97%N 3000 ++ js "tail one")) initial
     = UseAI.generateQuiz (always AIService.Rejected) no_numbers configured
         (Some (repeat 97%N 3000 ++ js "another tail")) initial.
Proof.
  assert (H : firstn 3000 (repeat 97%N 3000 ++ js "tail one")
              = firstn 3000 (repeat 97%N 3000 ++ js "another tail"))
    by (vm_compute; reflexivity).
  split; [exact H|].
  apply (generators_read_a_prefix (always AIService.Rejected) no_numbers
           configured _ _ initial H).
Defined.

(** X13. When the expression finds a match in a reply, the match is a
    contiguous part of the reply that opens with a bracket and closes
    with one, no opening bracket comes before it and no closing bracket
    after it, and matching the match again gives the match itself. *)
Theorem bracketed_match_characterised s m :
  AIService.match_bracketed s = Some m ->
  (exists pre mid post,
      s = pre ++ m ++ post /\ m = [91%N] ++ mid ++ [93%N]
      /\ ~ In 91%N pre /\ ~ In 93%N post)
  /\ AIService.match_bracketed m = Some m.
Proof.
  intros H.
  destruct (match_bracketed_some s m H) as (pre & mid & post & Hs & Hm & Hpre & Hpost).
  split; [exists pre, mid, post; auto|].
  rewrite Hm.
  pose proof (match_bracketed_app [] mid [] (fun f => f) (fun f => f)) as Hi.
  cbn [app] in *. exact Hi.
Qed.

Lemma bracketed_match_characterised_witness :
  AIService.match_bracketed (js "see [1] and [2], ok") = Some (js "[1] and [2]")
  /\ AIService.match_bracketed (js "[1] and [2]") = Some (js "[1] and [2]").
Proof.
  assert (H : AIService.match_bracketed (js "see [1] and [2], ok")
              = Some (js "[1] and [2]")) by reflexivity.
  split; [exact H|].
  apply (bracketed_match_characterised _ _ H).
Defined.

(* ================================================================== *)
(** ** The saved credentials *)

Section Storage.

Import APIKeyContext.

Lemma getItem_removeItem k s : getItem k (removeItem k s) = None.
Proof.
  induction s as [|[k' v] s IH]; [reflexivity|]. cbn [removeItem].
  destruct (str_eqb k k') eqn:E; [exact IH|]. cbn [getItem]. now rewrite E.
Qed.

Lemma getItem_removeItem_other k k' s :
  str_eqb k' k = false -> getItem k' (removeItem k s) = getItem k' s.
Proof.
  intros Hne. induction s as [|[k0 v] s IH]; [reflexivity|].
  cbn [removeItem getItem].
  destruct (str_eqb k k0) eqn:E.
  - apply str_eqb_eq in E. subst k0. now rewrite Hne.
  - cbn [getItem]. now rewrite IH.
Qed.

Lemma getItem_setItem k v s : getItem k (setItem k v s) = Some v.
Proof. unfold setItem. cbn [getItem]. now rewrite str_eqb_refl. Qed.

Lemma getItem_setItem_other k k' v s :
  str_eqb k' k = false -> getItem k' (setItem k v s) = getItem k' s.
Proof.
  intros Hne. unfold setItem. cbn [getItem]. rewrite Hne.
  now apply getItem_removeItem_other.
Qed.

(** What a reload finds of the key after [setApiKey]. *)
Lemma saved_key_after_setApiKey key c :
  apiKey (mount (store (setApiKey key c))) = key.
Proof.
  unfold mount, setApiKey. cbn [store apiKey].
  destruct key as [|x r].
  - now rewrite getItem_removeItem.
  - now rewrite getItem_setItem.
Qed.

Lemma saved_provider_after_setApiKey key c :
  provider (mount (store (setApiKey key c))) = provider (mount (store c)).
Proof.
  unfold mount, setApiKey. cbn [store provider].
  destruct key as [|x r].
  - now rewrite getItem_removeItem_other.
  - now rewrite getItem_setItem_other.
Qed.

Lemma saved_key_after_setProvider p c :
  apiKey (mount (store (setProvider p c))) = apiKey (mount (store c)).
Proof.
  unfold mount, setProvider. cbn [store apiKey].
  now rewrite getItem_setItem_other.
Qed.

Lemma saved_provider_after_setProvider p c :
  provider (mount (store (setProvider p c)))
  = match p with [] => js "openai" | _ :: _ => p end.
Proof.
  unfold mount, setProvider. cbn [store provider].
  rewrite getItem_setItem. now destruct p.
Qed.

End Storage.

(** X14. The key set with [setApiKey] is the key a reload of the page
    finds, the empty key included: setting the empty key removes the
    saved one, and after the reload the application is unconfigured.
    Setting the key does not touch the saved provider. *)
Theorem key_survives_reload key c :
  let reloaded := APIKeyContext.mount
                    (APIKeyContext.store (APIKeyContext.setApiKey key c)) in
  APIKeyContext.apiKey reloaded = key
  /\ APIKeyContext.isConfigured reloaded
     = match key with [] => false | _ :: _ => true end
  /\ APIKeyContext.getItem (js "edify_api_key") (APIKeyContext.store reloaded)
     = match key with [] => None | _ :: _ => Some key end
  /\ APIKeyContext.provider reloaded
     = APIKeyContext.provider (APIKeyContext.mount (APIKeyContext.store c)).
Proof.
  intros reloaded. subst reloaded.
  split; [apply saved_key_after_setApiKey|].
  split.
  { unfold APIKeyContext.isConfigured. now rewrite saved_key_after_setApiKey. }
  split; [|apply saved_provider_after_setApiKey].
  unfold APIKeyContext.mount, APIKeyContext.setApiKey. cbn [APIKeyContext.store].
  destruct key; [apply getItem_removeItem|apply getItem_setItem].
Qed.

(** X15. The provider set with [setProvider] is the provider a reload
    finds, except the empty one: it is saved, shown until the reload,
    and read back as openai. Setting the provider does not touch the
    saved key. *)
Theorem provider_survives_reload p c :
  let now := APIKeyContext.setProvider p c in
  let reloaded := APIKeyContext.mount (APIKeyContext.store now) in
  APIKeyContext.provider now = p
  /\ APIKeyContext.provider reloaded
     = match p with [] => js "openai" | _ :: _ => p end
  /\ APIKeyContext.apiKey reloaded
     = APIKeyContext.apiKey (APIKeyContext.mount (APIKeyContext.store c)).
Proof.
  intros now reloaded. subst now reloaded.
  split; [reflexivity|].
  split; [apply saved_provider_after_setProvider|apply saved_key_after_setProvider].
Qed.

Lemma key_in_step_with_storage l : forall c,
  APIKeyContext.apiKey (APIKeyContext.mount (APIKeyContext.store c))
    = APIKeyContext.apiKey c ->
  APIKeyContext.apiKey
    (APIKeyContext.mount (APIKeyContext.store (act_all l c)))
  = APIKeyContext.apiKey (act_all l c).
Proof.
  unfold act_all.
  induction l as [|a l IH]; intros c Hc; [exact Hc|].
  cbn [fold_left]. apply IH. destruct a as [key|p]; cbn [act].
  - apply saved_key_after_setApiKey.
  - rewrite saved_key_after_setProvider. exact Hc.
Qed.

(** X16. From the moment the page has loaded, and through any sequence
    of [setApiKey] and [setProvider], the key the application holds is
    the key a reload would find; so the application, the hook it
    configures and a reload always agree on whether it is configured. *)
Theorem key_agrees_with_storage s l :
  let c := act_all l (APIKeyContext.mount s) in
  let reloaded := APIKeyContext.mount (APIKeyContext.store c) in
  APIKeyContext.apiKey reloaded = APIKeyContext.apiKey c
  /\ APIKeyContext.isConfigured reloaded = APIKeyContext.isConfigured c
  /\ UseAI.isConfigured (APIKeyContext.useAPIKey c)
     = APIKeyContext.isConfigured c.
Proof.
  intros c reloaded. subst c reloaded.
  assert (H := key_in_step_with_storage l (APIKeyContext.mount s) eq_refl).
  split; [exact H|]. split.
  - unfold APIKeyContext.isConfigured. now rewrite H.
  - unfold UseAI.isConfigured, UseAI.aiService, APIKeyContext.isConfigured,
      APIKeyContext.useAPIKey. cbn [UseAI.apiKey].
    now destruct (APIKeyContext.apiKey (act_all l (APIKeyContext.mount s))).
Qed.

(* ================================================================== *)
(** ** The setup page *)

Section Trim.

Import Setup.

Lemma trim_start_split s :
  exists pre, s = pre ++ trim_start s /\ forallb is_space pre = true.
Proof.
  induction s as [|c s (pre & Hs & Hpre)]; [now exists []|].
  cbn [trim_start]. destruct (is_space c) eqn:E.
  - exists (c :: pre). cbn [app forallb]. rewrite E, Hpre. split; [now f_equal|reflexivity].
  - now exists [].
Qed.

Lemma trim_start_head s c r : trim_start s = c :: r -> is_space c = false.
Proof.
  induction s as [|x s IH]; cbn [trim_start]; [discriminate|].
  destruct (is_space x) eqn:E; [exact IH|]. now intros [= <- _].
Qed.

(** What [trim] returns neither begins nor ends with a space. *)
Lemma trim_edges s c r :
  trim s = c :: r ->
  is_space c = false /\ is_space (last (c :: r) c) = false.
Proof.
  unfold trim. intros H.
  destruct (trim_start (rev (trim_start s))) as [|d u] eqn:Eu;
    [discriminate|].
  pose proof (trim_start_head _ _ _ Eu) as Hd.
  cbn [rev] in H. split.
  - destruct (trim_start_split (rev (trim_start s))) as (pre & Hs & _).
    rewrite Eu in Hs. apply (f_equal (@rev N)) in Hs.
    rewrite rev_involutive, rev_app_distr in Hs. cbn [rev] in Hs.
    rewrite H in Hs. cbn [app] in Hs.
    apply (trim_start_head s c _ Hs).
  - rewrite <- H. now rewrite last_last.
Qed.

Lemma trim_blank s : forallb is_space s = true -> trim s = [].
Proof.
  intros H. unfold trim.
  assert (E : trim_start s = []).
  { induction s as [|c s IH]; [reflexivity|].
    cbn [forallb] in H. apply andb_prop in H. destruct H as [Hc Hs].
    cbn [trim_start]. rewrite Hc. now apply IH. }
  now rewrite E.
Qed.

End Trim.

(** X17. The probe of [testConnection] is one GET. To Anthropic it
    carries the trimmed key in x-api-key, the version header and no
    Authorization header; to every other provider it carries the trimmed
    key as a bearer token in Authorization and no x-api-key. *)
Theorem test_probe_headers fetch s sent k ks :
  Setup.trim (Setup.inputKey s) = k :: ks ->
  exists p,
    snd (Setup.testConnection fetch s sent) = sent ++ [p]
    /\ Setup.probe_method p = js "GET"
    /\ Setup.probe_url p = Setup.testUrl (Setup.selectedProvider s)
    /\ (Setup.selectedProvider s = js "anthropic" ->
        header (js "Authorization") (Setup.probe_headers p) = None
        /\ header (js "x-api-key") (Setup.probe_headers p) = Some (k :: ks)
        /\ header (js "anthropic-version") (Setup.probe_headers p)
           = Some (js "2023-06-01"))
    /\ (Setup.selectedProvider s <> js "anthropic" ->
        header (js "Authorization") (Setup.probe_headers p)
        = Some (js "Bearer " ++ k :: ks)
        /\ header (js "x-api-key") (Setup.probe_headers p) = None).
Proof.
  intros Hk. unfold Setup.testConnection. rewrite Hk. cbn [snd].
  eexists. split; [reflexivity|]. split; [reflexivity|]. split; [reflexivity|].
  cbn [Setup.probe_headers]. unfold Setup.test_headers. rewrite Hk. split.
  - intros ->. repeat split; reflexivity.
  - intros Hne.
    destruct (str_eqb (Setup.selectedProvider s) (js "anthropic")) eqn:E.
    + apply str_eqb_eq in E. contradiction.
    + split; reflexivity.
Qed.

Lemma test_probe_headers_witness :
  let s := Setup.mkSetup (js "  sk-test ") (js "anthropic") false Setup.idle in
  Setup.trim (Setup.inputKey s) = js "sk-test"
  /\ exists p,
       snd (Setup.testConnection (fun _ _ => AIService.Rejected) s []) = [p]
       /\ header (js "Authorization") (Setup.probe_headers p) = None
       /\ header (js "x-api-key") (Setup.probe_headers p) = Some (js "sk-test").
Proof.
  intros s. split; [reflexivity|].
  destruct (test_probe_headers (fun _ _ => AIService.Rejected) s [] 115%N
              (js "k-test") eq_refl) as (p & Hp & _ & _ & Ha & _).
  exists p. split; [exact Hp|].
  destruct (Ha eq_refl) as (H1 & H2 & _). split; [exact H1|exact H2].
Defined.

(** X18. A run of [testConnection] with a key that is not blank ends
    with the testing flag down and reports success exactly when [fetch]
    resolved with a 2xx status; a rejection and every other status are
    reported as an error. The key and the selection are left as they
    were. *)
Theorem test_reports_the_status fetch s sent k ks :
  Setup.trim (Setup.inputKey s) = k :: ks ->
  let s' := fst (Setup.testConnection fetch s sent) in
  Setup.testingConnection s' = false
  /\ Setup.inputKey s' = Setup.inputKey s
  /\ Setup.selectedProvider s' = Setup.selectedProvider s
  /\ Setup.connectionStatus s' <> Setup.idle
  /\ (Setup.connectionStatus s' = Setup.success
      <-> exists p status payload,
            snd (Setup.testConnection fetch s sent) = sent ++ [p]
            /\ fetch sent p = AIService.Response status payload
            /\ AIService.ok status = true).
Proof.
  intros Hk s'. subst s'. unfold Setup.testConnection. rewrite Hk.
  cbn [fst snd Setup.testingConnection Setup.inputKey Setup.selectedProvider
       Setup.connectionStatus].
  split; [reflexivity|]. split; [reflexivity|]. split; [reflexivity|].
  set (p := Setup.mkProbe _ _ _).
  destruct (fetch sent p) as [|status payload] eqn:Ef.
  - split; [discriminate|]. split; [discriminate|].
    intros (q & st0 & pl & Hq & Hf & _). apply app_inv_head in Hq.
    injection Hq as <-. congruence.
  - destruct (AIService.ok status) eqn:Eok.
    + split; [discriminate|]. split; [|reflexivity].
      intros _. exists p, status, payload. auto.
    + split; [discriminate|]. split; [discriminate|].
      intros (q & st0 & pl & Hq & Hf & Hok). apply app_inv_head in Hq.
      injection Hq as <-. congruence.
Qed.

Lemma test_reports_the_status_witness :
  let s := Setup.mkSetup (js "sk-test") (js "openai") false Setup.idle in
  Setup.trim (Setup.inputKey s) = js "sk-test"
  /\ Setup.connectionStatus
       (fst (Setup.testConnection (fun _ _ => AIService.Response 403 None) s []))
     <> Setup.idle.
Proof.
  intros s. split; [reflexivity|].
  apply (test_reports_the_status (fun _ _ => AIService.Response 403 None) s []
           115%N (js "k-test") eq_refl).
Defined.

(** X19. Submitting the setup form with a key that is not blank saves
    the trimmed key, which neither begins nor ends with white space,
    and navigates to the workspace: a reload finds that key, is
    configured, and finds the selected provider (openai when the
    selection is the empty string). *)
Theorem submitted_key_is_saved_trimmed s c k ks :
  Setup.trim (Setup.inputKey s) = k :: ks ->
  let c' := fst (Setup.handleSubmit s c) in
  let reloaded := APIKeyContext.mount (APIKeyContext.store c') in
  snd (Setup.handleSubmit s c) = Some (js "/workspace")
  /\ APIKeyContext.apiKey c' = k :: ks
  /\ APIKeyContext.apiKey reloaded = k :: ks
  /\ APIKeyContext.isConfigured reloaded = true
  /\ Setup.is_space k = false
  /\ Setup.is_space (last (k :: ks) k) = false
  /\ APIKeyContext.provider reloaded
     = match Setup.selectedProvider s with
       | [] => js "openai"
       | _ :: _ => Setup.selectedProvider s
       end.
Proof.
  intros Hk c' reloaded. subst c' reloaded.
  unfold Setup.handleSubmit. rewrite Hk. cbn [fst snd].
  split; [reflexivity|]. split; [reflexivity|].
  assert (Hr : APIKeyContext.apiKey
                 (APIKeyContext.mount
                    (APIKeyContext.store
                       (APIKeyContext.setProvider (Setup.selectedProvider s)
                          (APIKeyContext.setApiKey (k :: ks) c)))) = k :: ks).
  { rewrite saved_key_after_setProvider. apply saved_key_after_setApiKey. }
  split; [exact Hr|].
  split; [unfold APIKeyContext.isConfigured; now rewrite Hr|].
  destruct (trim_edges _ _ _ Hk) as [H1 H2].
  split; [exact H1|]. split; [exact H2|].
  apply saved_provider_after_setProvider.
Qed.

Lemma submitted_key_is_saved_trimmed_witness :
  let s := Setup.mkSetup (js "  sk-test ") (js "google") false Setup.idle in
  Setup.trim (Setup.inputKey s) = js "sk-test"
  /\ APIKeyContext.apiKey
       (APIKeyContext.mount
          (APIKeyContext.store
             (fst (Setup.handleSubmit s (APIKeyContext.mount [])))))
     = js "sk-test".
Proof.
  intros s. split; [reflexivity|].
  apply (submitted_key_is_saved_trimmed s (APIKeyContext.mount []) 115%N
           (js "k-test") eq_refl).
Defined.

(** X20. With a key made of white space only (the empty key included)
    neither button does anything: [handleSubmit] leaves the credentials
    and the storage as they were and does not navigate, and
    [testConnection] sends no probe and leaves the page as it was. *)
Theorem blank_key_does_nothing fetch s c sent :
  forallb Setup.is_space (Setup.inputKey s) = true ->
  Setup.handleSubmit s c = (c, None)
  /\ Setup.testConnection fetch s sent = (s, sent).
Proof.
  intros Hk. apply trim_blank in Hk.
  unfold Setup.handleSubmit, Setup.testConnection.
  now rewrite Hk.
Qed.

Lemma blank_key_does_nothing_witness :
  let s := Setup.mkSetup (js "   ") (js "openai") false Setup.idle in
  forallb Setup.is_space (Setup.inputKey s) = true
  /\ Setup.handleSubmit s (APIKeyContext.mount []) = (APIKeyContext.mount [], None).
Proof.
  intros s. split; [reflexivity|].
  apply (blank_key_does_nothing (fun _ _ => AIService.Rejected) s
           (APIKeyContext.mount []) [] eq_refl).
Defined.

(* ================================================================== *)
(** ** The viewer: cards, answers and tabs *)

Section Viewer.

Import ResourceViewer.

Lemma nth_error_mapi_from {A B} (f : nat -> A -> B) l : forall i j,
  nth_error (mapi_from i f l) j = option_map (f (i + j)) (nth_error l j).
Proof.
  induction l as [|x l IH]; intros i j; cbn [mapi_from].
  - now destruct j.
  - destruct j as [|j]; cbn [nth_error option_map].
    + now rewrite Nat.add_0_r.
    + rewrite IH. now rewrite Nat.add_succ_r.
Qed.

Lemma mapi_from_length {A B} (f : nat -> A -> B) l : forall i,
  List.length (mapi_from i f l) = List.length l.
Proof. induction l as [|x l IH]; intros i; cbn; [reflexivity|now rewrite IH]. Qed.

Lemma mapi_from_twice {A} (f g h : nat -> A -> A) l : forall i,
  (forall j x, f j (g j x) = h j x) ->
  mapi_from i f (mapi_from i g l) = mapi_from i h l.
Proof.
  induction l as [|x l IH]; intros i H; cbn [mapi_from]; [reflexivity|].
  now rewrite H, IH.
Qed.

Lemma mapi_from_id {A} (f : nat -> A -> A) l : forall i,
  (forall j x, f j x = x) -> mapi_from i f l = l.
Proof.
  induction l as [|x l IH]; intros i H; cbn [mapi_from]; [reflexivity|].
  now rewrite H, IH.
Qed.

Lemma has_add x s : has x (add x s) = true.
Proof.
  unfold add. destruct (has x s) eqn:E; [exact E|].
  unfold has. rewrite existsb_app. cbn. destruct x; cbn; now rewrite orb_true_r.
Qed.

Lemma has_delete x s : has x (delete x s) = false.
Proof.
  unfold has, delete. induction s as [|y s IH]; [reflexivity|].
  cbn [filter]. destruct (tab_eqb x y) eqn:E; cbn [negb]; [exact IH|].
  cbn [existsb]. now rewrite E, IH.
Qed.

End Viewer.

(** X21. Clicking a flashcard flips that card and no other: the deck
    keeps its length and its cards' contents, the card at the index has
    its side flipped, an index past the end changes nothing, and a
    second click on the same card restores the deck. *)
Theorem toggle_flips_one_card index v :
  let v' := ResourceViewer.toggleFlashcard index v in
  ResourceViewer.toggleFlashcard index v' = v
  /\ List.length (ResourceViewer.flashcards_deck v')
     = List.length (ResourceViewer.flashcards_deck v)
  /\ (forall j,
         nth_error (ResourceViewer.flashcards_deck v') j
         = option_map
             (fun c => if Nat.eqb j index
                       then ResourceViewer.mkCard (ResourceViewer.card c)
                              (negb (ResourceViewer.revealed c))
                       else c)
             (nth_error (ResourceViewer.flashcards_deck v) j))
  /\ (List.length (ResourceViewer.flashcards_deck v) <= index -> v' = v)%nat
  /\ ResourceViewer.quiz_deck v' = ResourceViewer.quiz_deck v
  /\ ResourceViewer.loadedTabs v' = ResourceViewer.loadedTabs v.
Proof.
  intros v'. subst v'. destruct v as [tb ld sm deck qz].
  unfold ResourceViewer.toggleFlashcard, ResourceViewer.mapi.
  cbn [ResourceViewer.flashcards_deck ResourceViewer.quiz_deck
       ResourceViewer.loadedTabs ResourceViewer.activeTab
       ResourceViewer.summary_text].
  split.
  { f_equal. rewrite (mapi_from_twice _ _ (fun _ c => c)).
    - now apply mapi_from_id.
    - intros j [c r]. destruct (Nat.eqb j index) eqn:E; cbn;
        rewrite ?E; cbn; rewrite ?negb_involutive; reflexivity. }
  split; [apply mapi_from_length|].
  split; [intros j; now rewrite nth_error_mapi_from|].
  split; [|split; reflexivity].
  intros Hlen. f_equal.
  assert (H : forall l i, (List.length l + i <= index)%nat ->
              ResourceViewer.mapi_from i
                (fun j c => if Nat.eqb j index
                            then ResourceViewer.mkCard (ResourceViewer.card c)
                                   (negb (ResourceViewer.revealed c))
                            else c) l = l).
  { induction l as [|x l IH]; intros i Hi; cbn [ResourceViewer.mapi_from];
      [reflexivity|].
    cbn [List.length] in Hi.
    destruct (Nat.eqb_spec i index) as [->|_]; [lia|].
    rewrite IH by lia. reflexivity. }
  apply H. lia.
Qed.

(** X22. Choosing an answer sets the selection of that question and of
    no other: the last choice for a question is the one kept, choices
    for two different questions can be made in either order, and the
    flashcards are left alone. *)
Theorem select_sets_one_answer qi a v :
  let v' := ResourceViewer.selectQuizAnswer qi a v in
  (forall j,
      nth_error (ResourceViewer.quiz_deck v') j
      = option_map
          (fun q => if Nat.eqb j qi
                    then ResourceViewer.mkQuestion (ResourceViewer.question q) (Some a)
                    else q)
          (nth_error (ResourceViewer.quiz_deck v) j))
  /\ (forall b, ResourceViewer.selectQuizAnswer qi a
                  (ResourceViewer.selectQuizAnswer qi b v) = v')
  /\ (forall qj b, qj <> qi ->
        ResourceViewer.selectQuizAnswer qi a
          (ResourceViewer.selectQuizAnswer qj b v)
        = ResourceViewer.selectQuizAnswer qj b v')
  /\ ResourceViewer.flashcards_deck v' = ResourceViewer.flashcards_deck v.
Proof.
  intros v'. subst v'. destruct v as [tb ld sm deck qz].
  unfold ResourceViewer.selectQuizAnswer, ResourceViewer.mapi.
  cbn [ResourceViewer.flashcards_deck ResourceViewer.quiz_deck
       ResourceViewer.loadedTabs ResourceViewer.activeTab
       ResourceViewer.summary_text].
  split; [intros j; now rewrite nth_error_mapi_from|].
  split; [|split; [|reflexivity]].
  - intros b. f_equal. apply mapi_from_twice.
    intros j q. destruct (Nat.eqb j qi); reflexivity.
  - intros qj b Hne. f_equal.
    set (h := fun (j : nat) (q : ResourceViewer.QuizQuestion) =>
                if Nat.eqb j qi
                then ResourceViewer.mkQuestion (ResourceViewer.question q) (Some a)
                else if Nat.eqb j qj
                     then ResourceViewer.mkQuestion (ResourceViewer.question q) (Some b)
                     else q).
    rewrite (mapi_from_twice _ _ h)
      by (intros j q; subst h; cbv beta;
          destruct (Nat.eqb_spec j qi); destruct (Nat.eqb_spec j qj);
          subst; try congruence; reflexivity).
    rewrite (mapi_from_twice _ _ h)
      by (intros j q; subst h; cbv beta;
          destruct (Nat.eqb_spec j qi); destruct (Nat.eqb_spec j qj);
          subst; try congruence; reflexivity).
    reflexivity.
Qed.

Lemma content_not_empty resource :
  exists c rest, ResourceViewer.resourceContent resource = c :: rest.
Proof. eexists _, _. reflexivity. Qed.

Lemma hook_flashcards_array fetch nts cfg c rest st :
  UseAI.isConfigured cfg = true ->
  selects_profile (UseAI.provider cfg) = true ->
  exists l req,
    UseAI.generateFlashcards fetch nts cfg (Some (c :: rest)) st
    = (Returns (JArray l), mkState false None (requests st ++ [req])).
Proof.
  intros Hc Hty. destruct (configured_key _ Hc) as (k & ks & Hk).
  destruct (prompt_payload (UseAI.apiKey cfg) (UseAI.provider cfg)
              (AIService.flashcards_prompt (c :: rest)) Hty) as [payload Hb].
  rewrite (hook_flashcards_run fetch nts cfg k ks c rest st payload Hk Hb).
  destruct (extract_or_cases (AIService.createFallbackFlashcards (c :: rest))
              (settle (AIService.new (UseAI.apiKey cfg) (UseAI.provider cfg))
                 (fetch (requests st)
                    (chat_request (AIService.new (UseAI.apiKey cfg) (UseAI.provider cfg))
                       payload))))
    as [-> | (_ & _ & _ & _ & _ & Ha)].
  - eexists _, _. reflexivity.
  - destruct (is_array_inv _ Ha) as [l ->]. eexists _, _. reflexivity.
Qed.

Lemma hook_quiz_array fetch nts cfg c rest st :
  UseAI.isConfigured cfg = true ->
  selects_profile (UseAI.provider cfg) = true ->
  exists l req,
    UseAI.generateQuiz fetch nts cfg (Some (c :: rest)) st
    = (Returns (JArray l), mkState false None (requests st ++ [req])).
Proof.
  intros Hc Hty. destruct (configured_key _ Hc) as (k & ks & Hk).
  destruct (prompt_payload (UseAI.apiKey cfg) (UseAI.provider cfg)
              (AIService.quiz_prompt (c :: rest)) Hty) as [payload Hb].
  rewrite (hook_quiz_run fetch nts cfg k ks c rest st payload Hk Hb).
  destruct (extract_or_cases (AIService.createFallbackQuiz (c :: rest))
              (settle (AIService.new (UseAI.apiKey cfg) (UseAI.provider cfg))
                 (fetch (requests st)
                    (chat_request (AIService.new (UseAI.apiKey cfg) (UseAI.provider cfg))
                       payload))))
    as [-> | (_ & _ & _ & _ & _ & Ha)].
  - eexists _, _. reflexivity.
  - destruct (is_array_inv _ Ha) as [l ->]. eexists _, _. reflexivity.
Qed.

Lemma hook_summary_requests fetch nts cfg c rest st :
  UseAI.isConfigured cfg = true ->
  selects_profile (UseAI.provider cfg) = true ->
  exists r e req,
    UseAI.generateSummary fetch nts cfg (Some (c :: rest)) st
    = (r, mkState false e (requests st ++ [req])).
Proof.
  intros Hc Hty. destruct (configured_key _ Hc) as (k & ks & Hk).
  destruct (prompt_payload (UseAI.apiKey cfg) (UseAI.provider cfg)
              (AIService.summary_prompt (c :: rest)) Hty) as [payload Hb].
  rewrite (hook_summary_run fetch nts cfg k ks c rest st payload Hk Hb).
  destruct (settle _ _); eexists _, _, _; reflexivity.
Qed.

Lemma marked_tab_is_loaded fetch nts cfg resource tb ld sm fc qz s1 :
  ResourceViewer.loadTabContent fetch nts cfg resource
    (ResourceViewer.mkViewer tb (ResourceViewer.add tb ld) sm fc qz) s1
  = (Returns (ResourceViewer.mkViewer tb (ResourceViewer.add tb ld) sm fc qz), s1).
Proof.
  unfold ResourceViewer.loadTabContent.
  cbn [ResourceViewer.activeTab ResourceViewer.loadedTabs].
  now rewrite has_add.
Qed.

Lemma first_load_marks_the_tab fetch nts cfg resource v st :
  ResourceViewer.has (ResourceViewer.activeTab v) (ResourceViewer.loadedTabs v)
    = false ->
  exists sm fc qz s1,
    ResourceViewer.loadTabContent fetch nts cfg resource v st
    = (Returns (ResourceViewer.mkViewer (ResourceViewer.activeTab v)
                  (ResourceViewer.add (ResourceViewer.activeTab v)
                     (ResourceViewer.loadedTabs v)) sm fc qz), s1).
Proof.
  intros Hh. unfold ResourceViewer.loadTabContent. rewrite Hh.
  unfold try_catch, bind, lift, ret.
  destruct (ResourceViewer.activeTab v).
  - eexists _, _, _, _. reflexivity.
  - destruct (truthy (Some (ResourceViewer.summary_text v))).
    + eexists _, _, _, _. reflexivity.
    + destruct (UseAI.generateSummary fetch nts cfg _ st) as [[x|e] s1];
        eexists _, _, _, _; reflexivity.
  - destruct (ResourceViewer.flashcards_deck v).
    + destruct (UseAI.generateFlashcards fetch nts cfg _ st) as [[x|e] s1];
        [destruct (ResourceViewer.map_array _ x)|];
        eexists _, _, _, _; reflexivity.
    + eexists _, _, _, _. reflexivity.
  - destruct (ResourceViewer.quiz_deck v).
    + destruct (UseAI.generateQuiz fetch nts cfg _ st) as [[x|e] s1];
        [destruct (ResourceViewer.map_array _ x)|];
        eexists _, _, _, _; reflexivity.
    + eexists _, _, _, _. reflexivity.
Qed.

(** X23. A run of the effect never throws and leaves its tab marked as
    loaded, so the next run for that tab changes nothing and makes no
    request: each tab is loaded at most once until it is retried. *)
Theorem tab_loads_once fetch nts cfg resource v st :
  let run := ResourceViewer.loadTabContent fetch nts cfg resource v st in
  exists v',
    fst run = Returns v'
    /\ ResourceViewer.activeTab v' = ResourceViewer.activeTab v
    /\ ResourceViewer.has (ResourceViewer.activeTab v)
         (ResourceViewer.loadedTabs v') = true
    /\ ResourceViewer.loadTabContent fetch nts cfg resource v' (snd run)
       = (Returns v', snd run).
Proof.
  intros run. subst run.
  destruct (ResourceViewer.has (ResourceViewer.activeTab v)
              (ResourceViewer.loadedTabs v)) eqn:Hh.
  - exists v. unfold ResourceViewer.loadTabContent. rewrite Hh.
    cbn [ret fst snd]. auto.
  - destruct (first_load_marks_the_tab fetch nts cfg resource v st Hh)
      as (sm & fc & qz & s1 & ->).
    cbn [fst snd]. eexists. split; [reflexivity|]. split; [reflexivity|].
    split; [apply has_add|apply marked_tab_is_loaded].
Qed.

(** X24. With credentials and a provider identifier that selects a
    profile, the first load of the flashcards tab makes exactly one
    request and fills the deck with the elements the hook returned, in
    order, every card with its question side up; the first load of the
    quiz tab does the same with no answer selected. *)
Theorem tab_load_fills_the_deck fetch nts cfg resource v st :
  UseAI.isConfigured cfg = true ->
  selects_profile (UseAI.provider cfg) = true ->
  ResourceViewer.has (ResourceViewer.activeTab v) (ResourceViewer.loadedTabs v)
    = false ->
  let run := ResourceViewer.loadTabContent fetch nts cfg resource v st in
  let content := Some (ResourceViewer.resourceContent resource) in
  (ResourceViewer.activeTab v = ResourceViewer.flashcards ->
   ResourceViewer.flashcards_deck v = [] ->
   exists l v',
     fst (UseAI.generateFlashcards fetch nts cfg content st) = Returns (JArray l)
     /\ fst run = Returns v'
     /\ ResourceViewer.flashcards_deck v'
        = map (fun c => ResourceViewer.mkCard c false) l
     /\ List.length (requests (snd run)) = S (List.length (requests st)))
  /\ (ResourceViewer.activeTab v = ResourceViewer.quiz ->
      ResourceViewer.quiz_deck v = [] ->
      exists l v',
        fst (UseAI.generateQuiz fetch nts cfg content st) = Returns (JArray l)
        /\ fst run = Returns v'
        /\ ResourceViewer.quiz_deck v'
           = map (fun q => ResourceViewer.mkQuestion q None) l
        /\ List.length (requests (snd run)) = S (List.length (requests st))).
Proof.
  intros Hc Hty Hh run content. subst run content.
  destruct (content_not_empty resource) as (c & rest & Hcont).
  unfold ResourceViewer.loadTabContent. cbv zeta. rewrite Hh, Hcont.
  change (@Some jsstring) with (@Some (list N)).
  unfold try_catch, bind, lift, ret.
  split; intros Ht Hd; rewrite Ht, Hd.
  - destruct (hook_flashcards_array fetch nts cfg c rest st Hc Hty) as (l & req & E).
    exists l. eexists. rewrite E. cbn [fst snd ResourceViewer.map_array].
    split; [reflexivity|]. split; [reflexivity|]. split; [reflexivity|].
    cbn [requests]. rewrite length_app. cbn. lia.
  - destruct (hook_quiz_array fetch nts cfg c rest st Hc Hty) as (l & req & E).
    exists l. eexists. rewrite E. cbn [fst snd ResourceViewer.map_array].
    split; [reflexivity|]. split; [reflexivity|]. split; [reflexivity|].
    cbn [requests]. rewrite length_app. cbn. lia.
Qed.

Lemma tab_load_fills_the_deck_witness :
  let v := ResourceViewer.setActiveTab ResourceViewer.flashcards
             ResourceViewer.initial_view in
  let resource := UploadInterface.mkResource (js "1") UploadInterface.document
                    (js "notes.txt") None in
  UseAI.isConfigured configured = true
  /\ selects_profile (UseAI.provider configured) = true
  /\ exists l v',
       fst (ResourceViewer.loadTabContent (always AIService.Rejected) no_numbers
              configured resource v initial) = Returns v'
       /\ ResourceViewer.flashcards_deck v'
          = map (fun c => ResourceViewer.mkCard c false) l
       /\ List.length l = 3%nat.
Proof.
  intros v resource. split; [reflexivity|]. split; [reflexivity|].
  destruct (tab_load_fills_the_deck (always AIService.Rejected) no_numbers
              configured resource v initial eq_refl eq_refl eq_refl) as [Hf _].
  destruct (Hf eq_refl eq_refl) as (l & v' & Hg & Hr & Hd & _).
  exists l, v'. split; [exact Hr|]. split; [exact Hd|].
  assert (E : fst (UseAI.generateFlashcards (always AIService.Rejected) no_numbers
                     configured
                     (Some (ResourceViewer.resourceContent resource)) initial)
              = Returns (AIService.createFallbackFlashcards [])).
  { vm_compute. reflexivity. }
  rewrite E in Hg. injection Hg as <-. reflexivity.
Defined.

(** X25. Retrying a tab clears what the tab shows and its loaded mark,
    so with credentials and a provider identifier that selects a profile
    the next run of the effect for the summary, the flashcards or the
    quiz tab makes one fresh request, whatever the tab held before; the
    chat tab never makes one. *)
Theorem retry_reloads fetch nts cfg resource v st :
  UseAI.isConfigured cfg = true ->
  selects_profile (UseAI.provider cfg) = true ->
  ResourceViewer.has (ResourceViewer.activeTab v)
    (ResourceViewer.loadedTabs (ResourceViewer.retryContent v)) = false
  /\ (ResourceViewer.activeTab v <> ResourceViewer.chat ->
      List.length
        (requests (snd (ResourceViewer.loadTabContent fetch nts cfg resource
                          (ResourceViewer.retryContent v) st)))
      = S (List.length (requests st)))
  /\ (ResourceViewer.activeTab v = ResourceViewer.chat ->
      snd (ResourceViewer.loadTabContent fetch nts cfg resource v st) = st).
Proof.
  intros Hc Hty.
  destruct (content_not_empty resource) as (c & rest & Hcont).
  assert (Hh : ResourceViewer.has (ResourceViewer.activeTab v)
                 (ResourceViewer.loadedTabs (ResourceViewer.retryContent v)) = false).
  { unfold ResourceViewer.retryContent.
    destruct (ResourceViewer.activeTab v); cbn [ResourceViewer.loadedTabs];
      apply has_delete. }
  split; [exact Hh|]. split.
  - intros Hne. unfold ResourceViewer.loadTabContent.
    assert (Ha : ResourceViewer.activeTab (ResourceViewer.retryContent v)
                 = ResourceViewer.activeTab v).
    { unfold ResourceViewer.retryContent.
      destruct (ResourceViewer.activeTab v); reflexivity. }
    cbv zeta. rewrite Ha, Hh, Hcont.
    change (@Some jsstring) with (@Some (list N)).
    unfold try_catch, bind, lift, ret.
    unfold ResourceViewer.retryContent.
    destruct (ResourceViewer.activeTab v); [congruence| | |];
      cbn [ResourceViewer.summary_text ResourceViewer.flashcards_deck
           ResourceViewer.quiz_deck truthy].
    + destruct (hook_summary_requests fetch nts cfg c rest st Hc Hty)
        as ([x|t] & e & req & ->);
        cbn [snd requests]; rewrite length_app; cbn; lia.
    + destruct (hook_flashcards_array fetch nts cfg c rest st Hc Hty)
        as (l & req & ->).
      cbn [snd requests ResourceViewer.map_array]. rewrite length_app. cbn. lia.
    + destruct (hook_quiz_array fetch nts cfg c rest st Hc Hty)
        as (l & req & ->).
      cbn [snd requests ResourceViewer.map_array]. rewrite length_app. cbn. lia.
  - intros Ht. clear Hh. unfold ResourceViewer.loadTabContent. rewrite Ht.
    destruct (ResourceViewer.has ResourceViewer.chat (ResourceViewer.loadedTabs v));
      reflexivity.
Qed.

Lemma retry_reloads_witness :
  let v := ResourceViewer.mkViewer ResourceViewer.summary
             [ResourceViewer.chat; ResourceViewer.summary]
             (str "an old summary") [] [] in
  UseAI.isConfigured configured = true
  /\ selects_profile (UseAI.provider configured) = true
  /\ ResourceViewer.activeTab v <> ResourceViewer.chat
  /\ List.length
       (requests (snd (ResourceViewer.loadTabContent (always AIService.Rejected)
                         no_numbers configured
                         (UploadInterface.mkResource (js "1")
                            UploadInterface.document (js "notes.txt") None)
                         (ResourceViewer.retryContent v) initial)))
     = 1%nat.
Proof.
  intros v. split; [reflexivity|]. split; [reflexivity|]. split; [discriminate|].
  destruct (retry_reloads (always AIService.Rejected) no_numbers configured
              (UploadInterface.mkResource (js "1") UploadInterface.document
                 (js "notes.txt") None) v initial eq_refl eq_refl) as (_ & Hr & _).
  apply Hr. discriminate.
Defined.

(** X26. A link is handed on only when it is not blank, and then as a
    video named Video Link with the URL as typed. The content the viewer
    gives the generators is made from the name of the resource alone,
    so it is the same text for every link: the URL never reaches the
    provider. *)
Theorem link_content_is_fixed now1 now2 url1 url2 r1 r2 :
  UploadInterface.handleLinkSubmit now1 url1 = Some r1 ->
  UploadInterface.handleLinkSubmit now2 url2 = Some r2 ->
  Setup.trim url1 <> []
  /\ UploadInterface.url r1 = Some url1
  /\ UploadInterface.type_of r1 = UploadInterface.video
  /\ UploadInterface.name r1 = js "Video Link"
  /\ ResourceViewer.resourceContent r1 = ResourceViewer.resourceContent r2
  /\ forall fetch nts cfg st,
       UseAI.generateSummary fetch nts cfg
         (Some (ResourceViewer.resourceContent r1)) st
       = UseAI.generateSummary fetch nts cfg
           (Some (ResourceViewer.resourceContent r2)) st.
Proof.
  unfold UploadInterface.handleLinkSubmit.
  destruct (Setup.trim url1) eqn:E1; [discriminate|].
  destruct (Setup.trim url2) eqn:E2; [discriminate|].
  intros [= <-] [= <-]. repeat split; try reflexivity. discriminate.
Qed.

Lemma link_content_is_fixed_witness :
  UploadInterface.handleLinkSubmit (js "1") (js " https://youtu.be/abc ")
  = Some (UploadInterface.mkResource (js "1") UploadInterface.video
            (js "Video Link") (Some (js " https://youtu.be/abc ")))
  /\ UploadInterface.handleLinkSubmit (js "2") (js "   ") = None
  /\ ResourceViewer.resourceContent
       (UploadInterface.mkResource (js "1") UploadInterface.video
          (js "Video Link") (Some (js " https://youtu.be/abc ")))
     = ResourceViewer.resourceContent
         (UploadInterface.mkResource (js "3") UploadInterface.video
            (js "Video Link") (Some (js "https://example.org/v"))).
Proof.
  split; [reflexivity|]. split; [reflexivity|].
  apply (link_content_is_fixed (js "1") (js "3") (js " https://youtu.be/abc ")
           (js "https://example.org/v") _ _ eq_refl eq_refl).
Defined.
